(** * CivicTrack: geospatial visibility and access control

    A shallow embedding of the distance guards
    ([middleware/distanceMiddleware.js]), the anonymity filter
    ([middleware/anonymousMiddleware.js]), the geographic helpers
    ([utils/geoUtils.js]), the list, map and single-issue controllers
    ([controllers/issueController.js]), the validators of the read routes
    ([middleware/validationMiddleware.js]) and the read routes that
    compose them ([routes/issueRoutes.js]), with the properties the
    specification states about them.

    JavaScript numbers are IEEE-754 binary64 values, so they are modelled
    by Rocq's primitive floats: comparisons with NaN are false, exactly as
    in the source.  Query parameters and environment variables are strings
    that may be absent, and the request's [query], [params] and
    [process.env] are finite maps from names to strings. *)

From Stdlib Require Import ZArith Floats String Ascii List Bool DecimalString.
From stdpp Require Import base option list gmap strings.
Import ListNotations.

Local Open Scope string_scope.

(** A decimal literal denotes the float nearest to it, as it does in
    JavaScript. *)
#[local] Set Warnings "-inexact-float".

(** ** The JavaScript values the guards compute with *)

Module JS.

Definition number := float.

Definition NaN : number := nan.

Definition isNaN (x : number) : bool := PrimFloat.is_nan x.

(** [a < b], [a > b] and [a <= b] on numbers. *)
Definition lt (a b : number) : bool := (a <? b)%float.
Definition gt (a b : number) : bool := (b <? a)%float.
Definition le (a b : number) : bool := (a <=? b)%float.

(** [a === b] on numbers. *)
Definition strictEquals (a b : number) : bool := (a =? b)%float.

(** ToBoolean on a number: [0], [-0] and [NaN] are falsy. *)
Definition truthy_number (x : number) : bool :=
  negb (PrimFloat.is_nan x || PrimFloat.is_zero x).

(** [a || b] when [a] is a number. *)
Definition or_number (a b : number) : number :=
  if truthy_number a then a else b.

(** A value that is either [undefined] or a string: a query parameter,
    a route parameter, an environment variable. *)
Definition param := option string.

(** ToBoolean on such a value: [undefined] and the empty string are
    falsy. *)
Definition truthy (p : param) : bool :=
  match p with
  | Some s => negb (String.eqb s "")
  | None => false
  end.

(** ToString on such a value. *)
Definition toString (p : param) : string :=
  match p with
  | Some s => s
  | None => "undefined"
  end.

(** [Math.min] of two numbers: NaN when either is NaN, and [-0] below
    [+0]. *)
Definition Math_min (a b : number) : number :=
  if (isNaN a || isNaN b)%bool then NaN
  else if lt a b then a
  else if lt b a then b
  else if PrimFloat.get_sign a then a else b.

Definition Math_sqrt (x : number) : number := PrimFloat.sqrt x.

Definition Math_PI : number := 0x1.921fb54442d18p+1%float.

(** The float of an integer (exact below 2^53 in absolute value). *)
Definition of_Z (n : Z) : number :=
  SF2Prim (binary_normalize prec emax n 0 false).

(** [Math.round]: the integer nearest to [x], ties towards +infinity,
    computed on the exact value [±m·2^e] of the float. *)
Definition Math_round (x : number) : number :=
  match Prim2SF x with
  | S754_finite s m e =>
      if (0 <=? e)%Z then x
      else
        let v := if s then Z.neg m else Z.pos m in
        let n := Z.shiftr (v + 2 ^ (- e - 1)) (- e) in
        if (n =? 0)%Z then (if s then (-0)%float else 0%float) else of_Z n
  | _ => x
  end.

(** The built-ins whose results the guards use as they come.  The
    trigonometric ones are implementation-approximated in ECMAScript;
    [parseFloat], [parseInt] and the number-to-string conversion of a
    template literal are taken as the engine provides them. *)
Class Runtime := {
  parseFloat : string -> number;
  parseInt : string -> number;
  numberToString : number -> string;
  Math_sin : number -> number;
  Math_cos : number -> number;
  Math_atan2 : number -> number -> number
}.

End JS.

Import JS.

(** ** utils/geoUtils.js *)

Module GeoUtils.
Section WithRuntime.
Context {RT : Runtime}.
Local Open Scope float_scope.

Definition toRadians (degrees : number) : number :=
  degrees * (Math_PI / 180).

Definition calculateDistance (lat1 lon1 lat2 lon2 : number) : number :=
  let R := 6371 in
  let dLat := toRadians (lat2 - lat1) in
  let dLon := toRadians (lon2 - lon1) in
  let a :=
    Math_sin (dLat / 2) * Math_sin (dLat / 2) +
    Math_cos (toRadians lat1) * Math_cos (toRadians lat2) *
    Math_sin (dLon / 2) * Math_sin (dLon / 2) in
  let c := 2 * Math_atan2 (Math_sqrt a) (Math_sqrt (1 - a)) in
  let distance := R * c in
  Math_round (distance * 100) / 100.

(** On numbers ([typeof] is ['number'] for every float, NaN included). *)
Definition validateCoordinates (latitude longitude : number) : bool :=
  le (-90) latitude && le latitude 90 &&
  le (-180) longitude && le longitude 180.

Definition isWithinRadius (centerLat centerLon pointLat pointLon radiusKm : number) : bool :=
  let distance := calculateDistance centerLat centerLon pointLat pointLon in
  le distance radiusKm.

End WithRuntime.
End GeoUtils.

Import GeoUtils.

(** ** middleware/errorHandler.js *)

Module ErrorHandler.

(** [new AppError(message, statusCode)]. *)
Record AppError := mkAppError {
  message : string;
  statusCode : Z
}.

(** How a middleware or a controller ends: [Next a] when it called
    [next()] and leaves the request [a] (for a controller: when it
    responded with [a]), [NextError e] when it called [next(e)], and
    [Throws] when a property read on [undefined] threw a [TypeError]
    (which [asyncHandler] hands to [next] as a non-operational error). *)
Inductive outcome (A : Type) : Type :=
| Next (a : A)
| NextError (e : AppError)
| Throws.

Arguments Next {A} a.
Arguments NextError {A} e.
Arguments Throws {A}.

End ErrorHandler.

Import ErrorHandler.

(** ** The records the guards read (models/Issue.js, models/User.js) *)

Module Model.

(** [role] of models/User.js: enum ['user', 'admin', 'moderator']. *)
Inductive Role := user | moderator | admin.

Definition Role_eqb (a b : Role) : bool :=
  match a, b with
  | user, user | moderator, moderator | admin, admin => true
  | _, _ => false
  end.

(** [req.user]. *)
Record User := mkUser {
  user_id : string;
  user_role : Role;
  user_username : string
}.

(** A populated [reportedBy] ([username email]), or the object the
    filter puts in its place. *)
Record Reporter := mkReporter {
  rep_id : option string;
  rep_username : string;
  rep_email : option string
}.

(** [comments[i].user]. *)
Record CommentUser := mkCommentUser {
  cu_id : option string;
  cu_username : param
}.

Record Comment := mkComment {
  c_user : option CommentUser;
  c_username : param;
  c_content : string;
  c_timestamp : Z;
  c_isEdited : bool
}.

(** [activityLog[i].actor]. *)
Record Actor := mkActor {
  act_id : option string;
  act_username : param
}.

Record ActivityLog := mkActivityLog {
  l_action : string;
  l_details : string;
  l_actor : option Actor;
  l_actorName : param;
  l_timestamp : Z
}.

(** GeoJSON point: [coordinates] is [[longitude, latitude]]. *)
Record Location := mkLocation {
  loc_type : string;
  coordinates : option (list number);
  address : string
}.

Record Issue := mkIssue {
  _id : string;
  title : string;
  category : string;
  status : string;
  location : option Location;
  reportedBy : option Reporter;
  reporterName : param;
  isAnonymous : bool;
  isHidden : bool;
  comments : option (list Comment);
  activityLog : option (list ActivityLog);
  distance : option number
}.

(** Assignments to one property of a copied issue. *)
Definition set_reportedBy (v : option Reporter) (i : Issue) : Issue :=
  mkIssue (_id i) (title i) (category i) (status i) (location i) v
    (reporterName i) (isAnonymous i) (isHidden i) (comments i)
    (activityLog i) (distance i).

Definition set_reporterName (v : param) (i : Issue) : Issue :=
  mkIssue (_id i) (title i) (category i) (status i) (location i)
    (reportedBy i) v (isAnonymous i) (isHidden i) (comments i)
    (activityLog i) (distance i).

Definition set_isAnonymous (v : bool) (i : Issue) : Issue :=
  mkIssue (_id i) (title i) (category i) (status i) (location i)
    (reportedBy i) (reporterName i) v (isHidden i) (comments i)
    (activityLog i) (distance i).

Definition set_isHidden (v : bool) (i : Issue) : Issue :=
  mkIssue (_id i) (title i) (category i) (status i) (location i)
    (reportedBy i) (reporterName i) (isAnonymous i) v (comments i)
    (activityLog i) (distance i).

Definition set_comments (v : option (list Comment)) (i : Issue) : Issue :=
  mkIssue (_id i) (title i) (category i) (status i) (location i)
    (reportedBy i) (reporterName i) (isAnonymous i) (isHidden i) v
    (activityLog i) (distance i).

Definition set_activityLog (v : option (list ActivityLog)) (i : Issue) : Issue :=
  mkIssue (_id i) (title i) (category i) (status i) (location i)
    (reportedBy i) (reporterName i) (isAnonymous i) (isHidden i)
    (comments i) v (distance i).

Definition set_distance (v : option number) (i : Issue) : Issue :=
  mkIssue (_id i) (title i) (category i) (status i) (location i)
    (reportedBy i) (reporterName i) (isAnonymous i) (isHidden i)
    (comments i) (activityLog i) v.

(** [issue.location && issue.location.coordinates]: the coordinates
    array when both are there. *)
Definition issueCoordinates (i : Issue) : option (list number) :=
  match location i with
  | Some loc => coordinates loc
  | None => None
  end.

(** [coords[k]] read as a number: an element that is missing is
    [undefined], which every arithmetic operation turns into NaN. *)
Definition coord (coords : list number) (k : nat) : number :=
  nth k coords NaN.

(** The issue collection, by id ([Issue.findById]): [null] when no
    issue has the id. *)
Definition findById (db : gmap string Issue) (id : param) : option Issue :=
  match id with
  | Some s => db !! s
  | None => None
  end.

(** The body handed to [res.json]. *)
Record ResponseData := mkResponseData {
  issues : option (list Issue);
  issue : option Issue
}.

(** [data.userLocation], which [addDistanceInfo] attaches. *)
Record UserLocation := mkUserLocation {
  ul_latitude : number;
  ul_longitude : number;
  ul_maxAllowedDistance : number
}.

Record Body := mkBody {
  body_status : string;
  results : option nat;
  data : option ResponseData;
  userLocation : option UserLocation
}.

(** The request as the guards read it: [req.method], [req.path],
    [req.query], [req.params], [req.body.location], [req.user] and the
    [req.validatedLocation] a guard may attach. *)
Record Request := mkRequest {
  method : string;
  path : string;
  query : gmap string string;
  params : gmap string string;
  body_location : option Location;
  req_user : option User;
  validatedLocation : option (number * number)
}.

Definition set_validatedLocation (v : option (number * number)) (r : Request) : Request :=
  mkRequest (method r) (path r) (query r) (params r) (body_location r)
    (req_user r) v.

End Model.

Import Model.

(** ** middleware/anonymousMiddleware.js *)

Module Anonymous.

(** [p || d] for a string that may be absent and a string default. *)
Definition or_string (p : param) (d : string) : string :=
  if truthy p then toString p else d.

Definition anonymousReporter : Reporter :=
  {| rep_id := None; rep_username := "Anonymous"; rep_email := None |}.

Definition filterComment (comment : Comment) : Comment :=
  {| c_user :=
       match c_user comment with
       | Some u =>
           Some {| cu_id := cu_id u;
                   cu_username := Some (or_string (c_username comment) "Anonymous") |}
       | None => None
       end;
     c_username := Some (or_string (c_username comment) "Anonymous");
     c_content := c_content comment;
     c_timestamp := c_timestamp comment;
     c_isEdited := c_isEdited comment |}.

Definition filterLog (log : ActivityLog) : ActivityLog :=
  {| l_action := l_action log;
     l_details := l_details log;
     l_actor :=
       match l_actor log with
       | Some a =>
           Some {| act_id := act_id a;
                   act_username := Some (or_string (l_actorName log) "System") |}
       | None => None
       end;
     l_actorName := Some (or_string (l_actorName log) "System");
     l_timestamp := l_timestamp log |}.

Definition filterAnonymousData (issue : Issue) (user : option User) : Issue :=
  let filteredIssue := issue in
  let filteredIssue :=
    if (isAnonymous issue || negb (bool_decide (is_Some (reportedBy issue))))%bool then
      set_isAnonymous true
        (set_reporterName (Some "Anonymous")
           (set_reportedBy (Some anonymousReporter) filteredIssue))
    else
      set_isAnonymous false
        (set_reporterName (rep_username <$> reportedBy issue) filteredIssue) in
  let filteredIssue :=
    match comments filteredIssue with
    | Some cs => set_comments (Some (map filterComment cs)) filteredIssue
    | None => filteredIssue
    end in
  let filteredIssue :=
    match activityLog filteredIssue with
    | Some ls => set_activityLog (Some (map filterLog ls)) filteredIssue
    | None => filteredIssue
    end in
  filteredIssue.

Definition filterMultipleIssues (issues : list Issue) (user : option User) : list Issue :=
  map (fun issue => filterAnonymousData issue user) issues.

(** [applyAnonymousFiltering]: what the replaced [res.json] does to the
    body before it is sent. *)
Definition applyAnonymousFiltering (req : Request) (body : Body) : Body :=
  match data body with
  | Some d =>
      match issues d, issue d with
      | Some l, _ =>
          mkBody (body_status body) (results body)
            (Some (mkResponseData (Some (filterMultipleIssues l (req_user req))) (issue d)))
            (userLocation body)
      | None, Some i =>
          mkBody (body_status body) (results body)
            (Some (mkResponseData None (Some (filterAnonymousData i (req_user req)))))
            (userLocation body)
      | None, None => body
      end
  | None => body
  end.

(** [req.user && reportedBy._id.toString() === req.user._id.toString()]. *)
Definition isOwner (u : option User) (r : Reporter) : bool :=
  match u, rep_id r with
  | Some usr, Some rid => String.eqb rid (user_id usr)
  | _, _ => false
  end.

Definition isAdmin (u : option User) : bool :=
  match u with
  | Some usr => Role_eqb (user_role usr) admin
  | None => false
  end.

(** The callback [restrictDataAccess] maps over [data.data.issues] and
    applies to [data.data.issue], for a caller who is not an admin. *)
Definition restrictIssue (u : option User) (i : Issue) : Issue :=
  match reportedBy i with
  | Some r =>
      if bool_decide (is_Some (rep_id r)) then
        if negb (isOwner u r) then filterAnonymousData i u else i
      else i
  | None => i
  end.

(** [restrictDataAccess]: what the replaced [res.json] does to the
    body. *)
Definition restrictDataAccess (req : Request) (body : Body) : Body :=
  match data body with
  | Some d =>
      if isAdmin (req_user req) then body
      else
        mkBody (body_status body) (results body)
          (Some (mkResponseData
                   (map (restrictIssue (req_user req)) <$> issues d)
                   (restrictIssue (req_user req) <$> issue d)))
          (userLocation body)
  | None => body
  end.

End Anonymous.

Import Anonymous.

(** ** middleware/distanceMiddleware.js *)

Module Distance.
Section WithRuntime.
Context {RT : Runtime}.

(** [process.env]. *)
Variable env : gmap string string.

(** [parseInt(process.env.MAX_SEARCH_RADIUS) || 5]. *)
Definition maxAllowedDistance : number :=
  or_number (parseInt (toString (env !! "MAX_SEARCH_RADIUS"))) 5%float.

(** [s.includes(sub)]. *)
Fixpoint includes (s sub : string) : bool :=
  if String.prefix sub s then true
  else
    match s with
    | EmptyString => false
    | String _ s' => includes s' sub
    end.

(** [lat < -90 || lat > 90 || lng < -180 || lng > 180]. *)
Definition outOfRange (lat lng : number) : bool :=
  lt lat (-90)%float || gt lat 90%float || lt lng (-180)%float || gt lng 180%float.

Definition enforceDistanceRestrictions (req : Request) : outcome Request :=
  let latitude := query req !! "latitude" in
  let longitude := query req !! "longitude" in
  let distance := query req !! "distance" in
  let maxAllowedDistance := maxAllowedDistance in
  if truthy distance && gt (parseFloat (toString distance)) maxAllowedDistance then
    NextError
      (mkAppError
         ("Distance cannot exceed " +:+ numberToString maxAllowedDistance +:+
          "km for security reasons") 400)
  else if truthy latitude && truthy longitude then
    let lat := parseFloat (toString latitude) in
    let lng := parseFloat (toString longitude) in
    if outOfRange lat lng then
      NextError (mkAppError "Invalid coordinates provided" 400)
    else Next (set_validatedLocation (Some (lat, lng)) req)
  else Next req.

Definition validateUserLocation (req : Request) : outcome Request :=
  let latitude := query req !! "latitude" in
  let longitude := query req !! "longitude" in
  if includes (path req) "/issues" && negb (includes (path req) "/stats") &&
     (negb (truthy latitude) || negb (truthy longitude)) then
    NextError
      (mkAppError
         "Location coordinates (latitude, longitude) are required for security" 400)
  else Next req.

(** The callback of [filter] in [filterIssuesByDistance]. *)
Definition withinDistance (userLat userLng maxDistance : number) (issue : Issue) : bool :=
  match issueCoordinates issue with
  | None => false
  | Some coords =>
      let issueLng := coord coords 0 in
      let issueLat := coord coords 1 in
      let calculatedDistance := calculateDistance userLat userLng issueLat issueLng in
      le calculatedDistance maxDistance
  end.

(** The radius [filterIssuesByDistance] filters with: the [distance]
    parameter defaults to the number [5]. *)
Definition filterRadius (req : Request) : number :=
  let distance :=
    match query req !! "distance" with
    | Some s => s
    | None => numberToString 5%float
    end in
  Math_min (parseFloat distance) maxAllowedDistance.

(** [filterIssuesByDistance]: what the replaced [res.json] does to the
    body before it is sent. *)
Definition filterIssuesByDistance (req : Request) (body : Body) : Body :=
  let latitude := query req !! "latitude" in
  let longitude := query req !! "longitude" in
  let maxDistance := filterRadius req in
  match data body with
  | Some d =>
      match issues d with
      | Some l =>
          if truthy latitude && truthy longitude then
            let userLat := parseFloat (toString latitude) in
            let userLng := parseFloat (toString longitude) in
            let kept := List.filter (withinDistance userLat userLng maxDistance) l in
            mkBody (body_status body) (Some (length kept))
              (Some (mkResponseData (Some kept) (issue d)))
              (userLocation body)
          else body
      | None => body
      end
  | None => body
  end.

Definition preventOutOfAreaAccess (db : gmap string Issue) (req : Request) : outcome Request :=
  let latitude := query req !! "latitude" in
  let longitude := query req !! "longitude" in
  let issueId := params req !! "id" in
  if truthy issueId && truthy latitude && truthy longitude then
    match findById db issueId with
    | Some issue =>
        match issueCoordinates issue with
        | Some coords =>
            let userLat := parseFloat (toString latitude) in
            let userLng := parseFloat (toString longitude) in
            let issueLng := coord coords 0 in
            let issueLat := coord coords 1 in
            let distance := calculateDistance userLat userLng issueLat issueLng in
            let maxDistance := maxAllowedDistance in
            if gt distance maxDistance then
              NextError
                (mkAppError
                   "This issue is outside your allowed area. You can only access issues within 5km of your location."
                   403)
            else Next req
        | None => Next req
        end
    | None => Next req
    end
  else Next req.

Definition enforceLocationRestrictions (req : Request) : outcome Request :=
  if includes (path req) "/admin" || includes (path req) "/stats" then Next req
  else
    let created :=
      if String.eqb (method req) "POST" && String.eqb (path req) "/" then
        match body_location req with
        | None =>
            Some (mkAppError "Location coordinates are required for issue reporting" 400)
        | Some loc =>
            match coordinates loc with
            | None =>
                Some (mkAppError "Location coordinates are required for issue reporting" 400)
            | Some coords =>
                let lng := coord coords 0 in
                let lat := coord coords 1 in
                if outOfRange lat lng then
                  Some (mkAppError "Invalid location coordinates provided" 400)
                else None
            end
        end
      else None in
    match created with
    | Some e => NextError e
    | None =>
        if String.eqb (method req) "GET" && negb (includes (path req) "/stats") then
          let latitude := query req !! "latitude" in
          let longitude := query req !! "longitude" in
          if negb (truthy latitude) || negb (truthy longitude) then
            NextError
              (mkAppError
                 "Location coordinates (latitude, longitude) are required for security and privacy"
                 400)
          else
            let lat := parseFloat (toString latitude) in
            let lng := parseFloat (toString longitude) in
            if isNaN lat || isNaN lng || outOfRange lat lng then
              NextError (mkAppError "Invalid location coordinates provided" 400)
            else Next req
        else Next req
    end.

(** [issue.distance = calculateDistance(...)] for an issue that has
    coordinates. *)
Definition withDistance (userLat userLng : number) (issue : Issue) : Issue :=
  match issueCoordinates issue with
  | Some coords =>
      let issueLng := coord coords 0 in
      let issueLat := coord coords 1 in
      set_distance (Some (calculateDistance userLat userLng issueLat issueLng)) issue
  | None => issue
  end.

(** [addDistanceInfo]: what the replaced [res.json] does to the body
    before it is sent. *)
Definition addDistanceInfo (req : Request) (body : Body) : Body :=
  let latitude := query req !! "latitude" in
  let longitude := query req !! "longitude" in
  match data body with
  | Some d =>
      if truthy latitude && truthy longitude then
        let userLat := parseFloat (toString latitude) in
        let userLng := parseFloat (toString longitude) in
        mkBody (body_status body) (results body)
          (Some (mkResponseData
                   (map (withDistance userLat userLng) <$> issues d)
                   (withDistance userLat userLng <$> issue d)))
          (Some (mkUserLocation userLat userLng maxAllowedDistance))
      else body
  | None => body
  end.

End WithRuntime.
End Distance.

Import Distance.

(** ** controllers/issueController.js *)

Module IssueController.
Section WithRuntime.
Context {RT : Runtime}.

(** [process.env]. *)
Variable env : gmap string string.

(** [filter.location] of the query handed to [Issue.find]. *)
Inductive LocationFilter :=
| Near (lng lat : number) (maxDistanceMeters : number)
| GeoWithinBox (west south east north : number).

(** The filter object [getIssues] and [getIssuesForMap] build. *)
Record IssueFilter := mkIssueFilter {
  f_isHidden : bool;
  f_category : param;
  f_status : param;
  f_search : param;
  f_location : LocationFilter
}.

(** [cond ? Some v : None] for the optional properties of the filter. *)
Definition when_truthy (p : param) : param :=
  if truthy p then p else None.

(** [distance = process.env.DEFAULT_SEARCH_RADIUS] in the destructuring
    of [req.query]. *)
Definition requestedParam (req : Request) : param :=
  match query req !! "distance" with
  | Some s => Some s
  | None => env !! "DEFAULT_SEARCH_RADIUS"
  end.

(** [Math.min(parseFloat(distance), maxAllowedDistance)]. *)
Definition requestedDistance (req : Request) : number :=
  Math_min (parseFloat (toString (requestedParam req))) (maxAllowedDistance env).

(** [getIssues], up to the filter it queries the collection with. *)
Definition getIssues (req : Request) : outcome IssueFilter :=
  let latitude := query req !! "latitude" in
  let longitude := query req !! "longitude" in
  if negb (truthy latitude) || negb (truthy longitude) then
    NextError
      (mkAppError
         "Location coordinates (latitude, longitude) are required for security and privacy"
         400)
  else
    let userLat := parseFloat (toString latitude) in
    let userLng := parseFloat (toString longitude) in
    let requestedDistance := requestedDistance req in
    if isNaN userLat || isNaN userLng || outOfRange userLat userLng then
      NextError (mkAppError "Invalid location coordinates provided" 400)
    else
      let maxDistanceMeters := (requestedDistance * 1000)%float in
      Next
        {| f_isHidden := false;
           f_category := when_truthy (query req !! "category");
           f_status := when_truthy (query req !! "status");
           f_search := when_truthy (query req !! "search");
           f_location := Near userLng userLat maxDistanceMeters |}.

(** [JSON.parse(bounds)] destructured into [north, south, east, west]
    and each side read with [parseFloat]; [None] when the parse throws
    (the [catch] then leaves the filter as it is). *)
Variable parseBounds : string -> option (number * number * number * number).

(** [getIssuesForMap], up to the filter it queries the collection
    with. *)
Definition getIssuesForMap (req : Request) : outcome IssueFilter :=
  let latitude := query req !! "latitude" in
  let longitude := query req !! "longitude" in
  let bounds := query req !! "bounds" in
  if negb (truthy latitude) || negb (truthy longitude) then
    NextError
      (mkAppError
         "Location coordinates (latitude, longitude) are required for map access" 400)
  else
    let userLat := parseFloat (toString latitude) in
    let userLng := parseFloat (toString longitude) in
    let requestedDistance := requestedDistance req in
    if isNaN userLat || isNaN userLng || outOfRange userLat userLng then
      NextError (mkAppError "Invalid location coordinates provided" 400)
    else
      let maxDistanceMeters := (requestedDistance * 1000)%float in
      let near := Near userLng userLat maxDistanceMeters in
      let loc :=
        if truthy bounds then
          match parseBounds (toString bounds) with
          | Some (north, south, east, west) => GeoWithinBox west south east north
          | None => near
          end
        else near in
      Next
        {| f_isHidden := false;
           f_category := when_truthy (query req !! "category");
           f_status := when_truthy (query req !! "status");
           f_search := None;
           f_location := loc |}.

(** [{...comment, username: comment.username || 'Anonymous'}]. *)
Definition defaultUsername (comment : Comment) : Comment :=
  mkComment (c_user comment) (Some (or_string (c_username comment) "Anonymous"))
    (c_content comment) (c_timestamp comment) (c_isEdited comment).

Definition outOfAreaMessage (maxAllowedDistance : number) : string :=
  "This issue is outside your allowed area. You can only access issues within " +:+
  numberToString maxAllowedDistance +:+ "km of your location.".

Definition getIssue (db : gmap string Issue) (req : Request) : outcome Body :=
  let latitude := query req !! "latitude" in
  let longitude := query req !! "longitude" in
  if negb (truthy latitude) || negb (truthy longitude) then
    NextError
      (mkAppError
         "Location coordinates (latitude, longitude) are required for security" 400)
  else
    let userLat := parseFloat (toString latitude) in
    let userLng := parseFloat (toString longitude) in
    let maxAllowedDistance := maxAllowedDistance env in
    if isNaN userLat || isNaN userLng || outOfRange userLat userLng then
      NextError (mkAppError "Invalid location coordinates provided" 400)
    else
      match findById db (params req !! "id") with
      | None => NextError (mkAppError "Issue not found" 404)
      | Some issue =>
          if isHidden issue && negb (isAdmin (req_user req)) then
            NextError (mkAppError "Issue not found" 404)
          else
            let outside :=
              match issueCoordinates issue with
              | Some coords =>
                  let issueLng := coord coords 0 in
                  let issueLat := coord coords 1 in
                  let distance := calculateDistance userLat userLng issueLat issueLng in
                  gt distance maxAllowedDistance
              | None => false
              end in
            if outside then NextError (mkAppError (outOfAreaMessage maxAllowedDistance) 403)
            else
              let processedIssue := issue in
              let processedIssue :=
                if isAnonymous issue || negb (bool_decide (is_Some (reportedBy issue))) then
                  set_reporterName (Some "Anonymous")
                    (set_reportedBy (Some anonymousReporter) processedIssue)
                else
                  set_reporterName (rep_username <$> reportedBy issue) processedIssue in
              let processedIssue :=
                match comments processedIssue with
                | Some cs => set_comments (Some (map defaultUsername cs)) processedIssue
                | None => processedIssue
                end in
              match issueCoordinates issue with
              | Some coords =>
                  let processedIssue :=
                    set_distance
                      (Some (calculateDistance userLat userLng (coord coords 1) (coord coords 0)))
                      processedIssue in
                  Next
                    (mkBody "success" None
                       (Some (mkResponseData None (Some processedIssue))) None)
              | None => Throws
              end
      end.

End WithRuntime.
End IssueController.

Import IssueController.

(** ** middleware/validationMiddleware.js *)

Module Validation.

(** The validators of express-validator that the chains of the read
    routes use, as the library provides them: [isIn(values)],
    [isFloat({min, max})], [isInt({min, max})], where a bound that is
    not given is [None], and [isMongoId()]. *)
Class Validators := {
  isIn : list string -> string -> bool;
  isFloat : number -> number -> string -> bool;
  isInt : option number -> option number -> string -> bool;
  isMongoId : string -> bool
}.

Section WithValidators.
Context {V : Validators}.
Local Open Scope float_scope.

(** The messages of the chain
    [query(field).optional().<validator>.withMessage(msg)]: [optional()]
    skips a field that is [undefined], and only that. *)
Definition optional (value : param) (valid : string -> bool) (msg : string) : list string :=
  match value with
  | None => []
  | Some s => if valid s then [] else [msg]
  end.

(** The messages of a chain without [optional()]: the validator reads a
    field that is [undefined] as the empty string. *)
Definition required (value : param) (valid : string -> bool) (msg : string) : list string :=
  if valid (default "" value) then [] else [msg].

(** [handleValidationErrors], on the messages of [validationResult(req)]
    in the order of the chains. *)
Definition handleValidationErrors (errorMessages : list string) (req : Request) : outcome Request :=
  match errorMessages with
  | [] => Next req
  | _ => NextError (mkAppError (String.concat ". " errorMessages) 400)
  end.

Definition validateIssueId (req : Request) : outcome Request :=
  handleValidationErrors (required (params req !! "id") isMongoId "Invalid issue ID") req.

(** A word between double quotes. *)
Definition quoted (s : string) : string :=
  String "034"%char (s +:+ String "034"%char "").

Definition validateIssueFilters (req : Request) : outcome Request :=
  handleValidationErrors
    (optional (query req !! "category")
       (isIn ["Roads"; "Lighting"; "Water Supply"; "Cleanliness"; "Public Safety";
              "Obstructions"])
       "Invalid category filter" ++
     optional (query req !! "status")
       (isIn ["Reported"; "In Progress"; "Resolved"; "Rejected"])
       "Invalid status filter" ++
     optional (query req !! "distance") (isFloat 0.1 50)
       "Distance must be between 0.1 and 50 kilometers" ++
     optional (query req !! "latitude") (isFloat (-90) 90) "Invalid latitude" ++
     optional (query req !! "longitude") (isFloat (-180) 180) "Invalid longitude" ++
     optional (query req !! "page") (isInt (Some 1) None)
       "Page must be a positive integer" ++
     optional (query req !! "limit") (isInt (Some 1) (Some 100))
       "Limit must be between 1 and 100" ++
     optional (query req !! "sortBy")
       (isIn ["createdAt"; "updatedAt"; "priority"; "status"; "upvoteCount"])
       "Invalid sort field" ++
     optional (query req !! "sortOrder") (isIn ["asc"; "desc"])
       ("Sort order must be either " +:+ quoted "asc" +:+ " or " +:+ quoted "desc"))%list
    req.

End WithValidators.
End Validation.

Import Validation.

(** ** routes/issueRoutes.js

    The handlers of the three read routes in the order the router runs
    them.  A middleware that replaces [res.json] lets every request
    through; what it does to the body is applied when the controller
    responds, the replacement installed last first. *)

Module IssueRoutes.
Section WithRuntime.
Context {RT : Runtime} {V : Validators}.

(** [process.env]. *)
Variable env : gmap string string.

(** The next handler runs when the one before called [next()]. *)
Definition andThen {A B : Type} (o : outcome A) (k : A -> outcome B) : outcome B :=
  match o with
  | Next a => k a
  | NextError e => NextError e
  | Throws => Throws
  end.

(** [router.get('/', ...)]. *)
Definition listRoute (req : Request) : outcome IssueFilter :=
  andThen (validateIssueFilters req) (fun req =>
  andThen (enforceLocationRestrictions req) (fun req =>
  andThen (validateUserLocation req) (fun req =>
  andThen (enforceDistanceRestrictions env req) (fun req =>
  getIssues env req)))).

Variable parseBounds : string -> option (number * number * number * number).

(** [router.get('/map', ...)]. *)
Definition mapRoute (req : Request) : outcome IssueFilter :=
  andThen (validateIssueFilters req) (fun req =>
  andThen (enforceLocationRestrictions req) (fun req =>
  andThen (validateUserLocation req) (fun req =>
  andThen (enforceDistanceRestrictions env req) (fun req =>
  getIssuesForMap env parseBounds req)))).

(** [router.get('/:id', ...)]. *)
Definition issueRoute (db : gmap string Issue) (req : Request) : outcome Body :=
  andThen (validateIssueId req) (fun req =>
  andThen (enforceLocationRestrictions req) (fun req =>
  andThen (validateUserLocation req) (fun req =>
  andThen (preventOutOfAreaAccess env db req) (fun req =>
  andThen (getIssue env db req) (fun body =>
  Next (applyAnonymousFiltering req (addDistanceInfo env req body))))))).

End WithRuntime.
End IssueRoutes.

Import IssueRoutes.

(** ** The vocabulary of the statements *)

Module Policy.
Section WithRuntime.
Context {RT : Runtime}.

(** The caller's coordinates as the guards read them from the query. *)
Definition callerLatitude (req : Request) : number :=
  parseFloat (toString (query req !! "latitude")).

Definition callerLongitude (req : Request) : number :=
  parseFloat (toString (query req !! "longitude")).

(** [!latitude || !longitude]: a coordinate is absent from the query
    (or empty). *)
Definition missingLocation (req : Request) : bool :=
  negb (truthy (query req !! "latitude")) || negb (truthy (query req !! "longitude")).

(** The coordinates are not numbers, or are out of their domain. *)
Definition invalidLocation (req : Request) : bool :=
  isNaN (callerLatitude req) || isNaN (callerLongitude req) ||
  outOfRange (callerLatitude req) (callerLongitude req).



(** The distance the guards compute between the caller and the
    coordinates [[lng, lat]] of an issue. *)
Definition distanceFrom (req : Request) (coords : list number) : number :=
  calculateDistance (callerLatitude req) (callerLongitude req)
    (coord coords 1) (coord coords 0).


(** The sum under the square roots of [calculateDistance], [a] in the
    source. *)
Definition haversineTerm (lat1 lon1 lat2 lon2 : number) : number :=
  (let dLat := toRadians (lat2 - lat1) in
   let dLon := toRadians (lon2 - lon1) in
   Math_sin (dLat / 2) * Math_sin (dLat / 2) +
   Math_cos (toRadians lat1) * Math_cos (toRadians lat2) *
   Math_sin (dLon / 2) * Math_sin (dLon / 2))%float.

(** The radius the request asks for, as [parseFloat] reads it. *)
Definition requestedRadius (req : Request) : number :=
  parseFloat (toString (query req !! "distance")).

(** The error of a single-issue read for an issue that is not there. *)
Definition notFound : AppError := mkAppError "Issue not found" 404.

(** The error of [preventOutOfAreaAccess]. *)
Definition outOfAreaFixed : AppError :=
  mkAppError
    "This issue is outside your allowed area. You can only access issues within 5km of your location."
    403.

(** The error of [enforceDistanceRestrictions] for a radius above the
    maximum. *)
Definition radiusTooLarge (env : gmap string string) : AppError :=
  mkAppError
    ("Distance cannot exceed " +:+ numberToString (maxAllowedDistance env) +:+
     "km for security reasons") 400.

(** The error of the guards of the controllers for coordinates that
    are not valid. *)
Definition invalidCoordinates : AppError :=
  mkAppError "Invalid location coordinates provided" 400.

End WithRuntime.
End Policy.

Import Policy.

(** ** A reference engine

    One concrete [Runtime] and one concrete [Validators], used to run the
    handlers on concrete requests.  [parseFloat] and [parseInt] read the
    longest numeric prefix and round it to the nearest float, and
    [numberToString] prints the shortest digits that read back as the
    number; white space is the ASCII one.  The sine, the cosine and the
    arc tangent are computed on integers, to 128 bits or more, and then
    rounded to the nearest float, which gives the correctly rounded
    values; ECMAScript leaves these functions implementation-approximated,
    and an engine may differ from them in the last bit.  The validators
    follow validator.js.  The general properties below are proved for
    every [Runtime] and every [Validators]; these only run the
    examples. *)

Module Engine.

Definition isWhiteSpace (c : ascii) : bool :=
  let n := nat_of_ascii c in
  (Nat.eqb n 32 || (Nat.leb 9 n && Nat.leb n 13))%bool.

Fixpoint trimStart (s : string) : string :=
  match s with
  | String c r => if isWhiteSpace c then trimStart r else s
  | EmptyString => s
  end.

(** A leading sign: whether it is [-], and the rest. *)
Definition takeSign (s : string) : bool * string :=
  match s with
  | String "-" r => (true, r)
  | String "+" r => (false, r)
  | _ => (false, s)
  end.

Definition digitValue (radix : Z) (c : ascii) : option Z :=
  let n := Z.of_nat (nat_of_ascii c) in
  let v :=
    if (48 <=? n)%Z && (n <=? 57)%Z then Some (n - 48)%Z
    else if (97 <=? n)%Z && (n <=? 122)%Z then Some (n - 87)%Z
    else if (65 <=? n)%Z && (n <=? 90)%Z then Some (n - 55)%Z
    else None in
  match v with
  | Some d => if (d <? radix)%Z then Some d else None
  | None => None
  end.

(** The longest run of digits at the head of [s]: how many there are,
    their value read after [acc], and the rest. *)
Fixpoint takeDigits (radix : Z) (s : string) (count : nat) (acc : Z) : nat * Z * string :=
  match s with
  | String c r =>
      match digitValue radix c with
      | Some d => takeDigits radix r (S count) (acc * radix + d)%Z
      | None => (count, acc, s)
      end
  | EmptyString => (count, acc, s)
  end.

Definition signed (neg : bool) (x : float) : float :=
  if neg then (- x)%float else x.

(** The float nearest to [m * 10^e10], for [m >= 0]. *)
Definition decimalToNumber (m e10 : Z) : float :=
  if (m =? 0)%Z then 0%float
  else if (400 <? e10)%Z then infinity
  else if (e10 + Z.log2 m <? -1200)%Z then 0%float
  else if (0 <=? e10)%Z then SF2Prim (binary_normalize prec emax (m * 10 ^ e10) 0 false)
  else
    SF2Prim
      (SFdiv prec emax (S754_finite false (Z.to_pos m) 0)
         (S754_finite false (Z.to_pos (10 ^ (- e10))) 0)).

Definition parseFloat (input : string) : float :=
  let s := trimStart input in
  let '(neg, s) := takeSign s in
  if String.prefix "Infinity" s then signed neg infinity
  else
    let '(ni, vi, s1) := takeDigits 10 s 0 0 in
    let '(nf, vf, s2) :=
      match s1 with
      | String "." r => takeDigits 10 r 0 vi
      | _ => (0%nat, vi, s1)
      end in
    if Nat.eqb (ni + nf) 0 then nan
    else
      let ex :=
        match s2 with
        | String c r =>
            if (Ascii.eqb c "e" || Ascii.eqb c "E")%bool then
              let '(eneg, r') := takeSign r in
              let '(ne, ve, _) := takeDigits 10 r' 0 0 in
              if Nat.eqb ne 0 then 0%Z else if eneg then (- ve)%Z else ve
            else 0%Z
        | EmptyString => 0%Z
        end in
      signed neg (decimalToNumber vf (ex - Z.of_nat nf)).

Definition parseInt (input : string) : float :=
  let s := trimStart input in
  let '(neg, s) := takeSign s in
  let '(radix, s) :=
    if (String.prefix "0x" s || String.prefix "0X" s)%bool
    then (16%Z, String.substring 2 (String.length s - 2) s)
    else (10%Z, s) in
  let '(n, v, _) := takeDigits radix s 0 0 in
  if Nat.eqb n 0 then nan
  else signed neg (SF2Prim (binary_normalize prec emax v 0 false)).

(** *** Number to string *)

Local Open Scope Z_scope.

Definition showZ (n : Z) : string :=
  NilZero.string_of_uint (N.to_uint (Z.to_N n)).

(** The exact value of a positive finite float is [m * 2^e]; its
    quotient by [10^p] is the fraction [scaledNum / scaledDen]. *)
Definition scaledNum (m e p : Z) : Z := m * 2 ^ Z.max e 0 * 10 ^ Z.max (- p) 0.
Definition scaledDen (e p : Z) : Z := 2 ^ Z.max (- e) 0 * 10 ^ Z.max p 0.

(** The [n] with [10^(n-1) <= m * 2^e < 10^n], searched downwards from
    an estimate that is never too small. *)
Fixpoint magnitudeFrom (fuel : nat) (m e p : Z) : Z :=
  match fuel with
  | O => p + 1
  | S fuel' =>
      if (scaledDen e p <=? scaledNum m e p)%Z then p + 1
      else magnitudeFrom fuel' m e (p - 1)
  end.

Definition magnitude (m e : Z) : Z :=
  magnitudeFrom 8 m e ((Z.log2 m + e + 1) * 30103 / 100000 + 2).

(** The digits [s] and the exponent [n] of the shortest decimal
    [s * 10^(n-k)], [k] digits long, that reads back as [x = m * 2^e];
    of two candidates the closer one, and the even one in a tie. *)
Fixpoint shortestFrom (fuel : nat) (x : float) (m e n k : Z) : Z * Z :=
  match fuel with
  | O => (m, n)
  | S fuel' =>
      let p := n - k in
      let a := scaledNum m e p in
      let b := scaledDen e p in
      let lo := (a / b)%Z in
      let hi := (lo + 1)%Z in
      let okLo := Leibniz.eqb (decimalToNumber lo p) x in
      let okHi := Leibniz.eqb (decimalToNumber hi p) x in
      let dLo := (a - lo * b)%Z in
      let dHi := (hi * b - a)%Z in
      let preferHi :=
        (okHi && (negb okLo || (dHi <? dLo)%Z || ((dHi =? dLo)%Z && Z.even hi)))%bool in
      if preferHi then
        if (hi =? 10 ^ k)%Z then (1%Z, n + 1)%Z else (hi, n)
      else if okLo then (lo, n)
      else shortestFrom fuel' x m e n (k + 1)
  end.

Definition zeros (n : Z) : string :=
  String.concat "" (repeat "0"%string (Z.to_nat n)).

(** Number::toString for a positive finite number. *)
Definition showPositive (x : float) (m e : Z) : string :=
  let '(s, n) := shortestFrom 20 x m e (magnitude m e) 1 in
  let ds := showZ s in
  let k := Z.of_nat (String.length ds) in
  if ((k <=? n) && (n <=? 21))%Z%bool then ds +:+ zeros (n - k)
  else if ((0 <? n) && (n <=? 21))%Z%bool then
    String.substring 0 (Z.to_nat n) ds +:+ "." +:+
    String.substring (Z.to_nat n) (Z.to_nat (k - n)) ds
  else if ((-6 <? n) && (n <=? 0))%Z%bool then "0." +:+ zeros (- n) +:+ ds
  else
    let ex := (n - 1)%Z in
    let exs := (if (ex <? 0)%Z then "-" else "+") +:+ showZ (Z.abs ex) in
    if (k =? 1)%Z then ds +:+ "e" +:+ exs
    else
      String.substring 0 1 ds +:+ "." +:+
      String.substring 1 (Z.to_nat (k - 1)) ds +:+ "e" +:+ exs.

Definition numberToString (x : float) : string :=
  match Prim2SF x with
  | S754_nan => "NaN"
  | S754_zero _ => "0"
  | S754_infinity s => if s then "-Infinity" else "Infinity"
  | S754_finite s m e =>
      (if s then "-" else "") +:+ showPositive (abs x) (Z.pos m) e
  end.

(** *** Trigonometry, on scaled integers *)

(** [sum_k (-1)^k 2^p / ((2k+1) n^(2k+1))]: the arc tangent of [1/n]
    scaled by [2^p]. *)
Fixpoint atanInvFrom (fuel : nat) (n2 k term acc : Z) : Z :=
  match fuel with
  | O => acc
  | S fuel' =>
      if term =? 0 then acc
      else
        let t := term / (2 * k + 1) in
        atanInvFrom fuel' n2 (k + 1) (term / n2) (if Z.even k then acc + t else acc - t)
  end.

Definition atanInv (n p : Z) : Z := atanInvFrom (Z.to_nat p) (n * n) 0 (2 ^ p / n) 0.

(** [pi * 2^1400], by Machin's formula with 32 guard bits. *)
Definition piBig : Z :=
  Eval vm_compute in Z.shiftr (16 * atanInv 5 1432 - 4 * atanInv 239 1432) 32.

(** [pi * 2^p], for [p] up to 1400. *)
Definition piScaled (p : Z) : Z := Z.shiftr piBig (1400 - p).

(** The float nearest to [n / 2^p]. *)
Definition roundScaled (n p : Z) : float :=
  if n =? 0 then 0%float
  else
    signed (n <? 0)
      (SF2Prim
         (SFdiv prec emax (S754_finite false (Z.to_pos (Z.abs n)) 0)
            (S754_finite false (Z.to_pos (2 ^ p)) 0))).

(** [sum_(k < n) (-1)^k y^(2k+1) / (2k+1)!] on numbers scaled by
    [2^p]; [y2] is the square of [y]. *)
Fixpoint sinSeries (n : nat) (p y2 k term acc : Z) : Z :=
  match n with
  | O => acc
  | S n' =>
      sinSeries n' p y2 (k + 1)
        (- Z.shiftr (term * y2) p / ((2 * k + 2) * (2 * k + 3))) (acc + term)
  end.

(** [sum_(k < n) (-1)^k y^(2k) / (2k)!]. *)
Fixpoint cosSeries (n : nat) (p y2 k term acc : Z) : Z :=
  match n with
  | O => acc
  | S n' =>
      cosSeries n' p y2 (k + 1)
        (- Z.shiftr (term * y2) p / ((2 * k + 1) * (2 * k + 2))) (acc + term)
  end.

(** The working precision for an argument [m * 2^e]: 128 bits below the
    last bit of its integer part. *)
Definition precisionFor (e : Z) : Z := 128 + Z.max 0 (e + 53).

(** [±m * 2^e] brought into [(-pi, pi]] by a multiple of [2 pi]: the
    result scaled by [2^p], with [pi * 2^p] and [p]. *)
Definition reduce (s : bool) (m : positive) (e : Z) : Z * Z * Z :=
  let p := precisionFor e in
  let x := (if s then Z.neg m else Z.pos m) * 2 ^ (p + e) in
  let pi := piScaled p in
  let r := x mod (2 * pi) in
  (if pi <? r then r - 2 * pi else r, pi, p).

(** Below [2^-30] the sine of [x] rounds to [x] and its cosine to 1. *)
Definition Math_sin (x : float) : float :=
  match Prim2SF x with
  | S754_finite s m e =>
      if (abs x <? 0x1p-30)%float then x
      else
        let '(r, pi, p) := reduce s m e in
        let half := Z.shiftr pi 1 in
        let y := if half <? r then pi - r else if r <? - half then - pi - r else r in
        roundScaled (sinSeries 24 p (Z.shiftr (y * y) p) 0 y 0) p
  | S754_zero _ => x
  | _ => nan
  end.

Definition Math_cos (x : float) : float :=
  match Prim2SF x with
  | S754_finite s m e =>
      if (abs x <? 0x1p-30)%float then 1%float
      else
        let '(r, pi, p) := reduce s m e in
        let half := Z.shiftr pi 1 in
        let y := Z.abs r in
        if half <? y then
          (- roundScaled (cosSeries 24 p (Z.shiftr ((pi - y) * (pi - y)) p) 0 (2 ^ p) 0) p)%float
        else roundScaled (cosSeries 24 p (Z.shiftr (y * y) p) 0 (2 ^ p) 0) p
  | S754_zero _ => 1%float
  | _ => nan
  end.

(** [sum_(k < n) (-1)^k t^(2k+1) / (2k+1)]. *)
Fixpoint atanSeries (n : nat) (p t2 k term acc : Z) : Z :=
  match n with
  | O => acc
  | S n' =>
      let q := term / (2 * k + 1) in
      atanSeries n' p t2 (k + 1) (Z.shiftr (term * t2) p)
        (if Z.even k then acc + q else acc - q)
  end.

(** [atan t = 2 atan (t / (1 + sqrt (1 + t^2)))]. *)
Definition halveArgument (p t : Z) : Z :=
  Z.shiftl t p / (2 ^ p + Z.sqrt (2 ^ (2 * p) + t * t)).

(** [atan t] for [0 <= t <= 1], scaled by [2^p]. *)
Definition atanScaled (p t : Z) : Z :=
  let u := halveArgument p (halveArgument p (halveArgument p t)) in
  8 * atanSeries 32 p (Z.shiftr (u * u) p) 0 u 0.

(** [Math.atan2]: the special cases of ECMAScript, and otherwise the
    arc tangent of the smaller of [|y/x|] and [|x/y|], brought back to
    the quadrant of [(x, y)], on integers scaled by [2^192].  A quotient
    below [2^-60] is its own arc tangent. *)
Definition Math_atan2 (y x : float) : float :=
  let p := 192 in
  let pi := piScaled p in
  let withSign v := signed (get_sign y) v in
  match Prim2SF y, Prim2SF x with
  | S754_nan, _ | _, S754_nan => nan
  | S754_zero _, _ => if get_sign x then withSign Math_PI else withSign 0%float
  | _, S754_zero _ => withSign (roundScaled (Z.shiftr pi 1) p)
  | S754_infinity _, S754_infinity sx =>
      withSign (roundScaled (if sx then Z.shiftr (3 * pi) 2 else Z.shiftr pi 2) p)
  | S754_infinity _, _ => withSign (roundScaled (Z.shiftr pi 1) p)
  | _, S754_infinity sx => if sx then withSign Math_PI else withSign 0%float
  | S754_finite _ my ey, S754_finite sx mx ex =>
      let num := Z.pos my * 2 ^ Z.max (ey - ex) 0 in
      let den := Z.pos mx * 2 ^ Z.max (ex - ey) 0 in
      let inv := den <? num in
      let '(num, den) := if inv then (den, num) else (num, den) in
      if negb sx && negb inv && (num * 2 ^ 60 <? den) then withSign (abs y / abs x)%float
      else
        let a := atanScaled p (Z.shiftl num p / den) in
        let a := if inv then Z.shiftr pi 1 - a else a in
        let a := if sx then pi - a else a in
        withSign (roundScaled a p)
  end.

Definition reference : Runtime :=
  {| JS.parseFloat := parseFloat;
     JS.parseInt := parseInt;
     JS.numberToString := numberToString;
     JS.Math_sin := Math_sin;
     JS.Math_cos := Math_cos;
     JS.Math_atan2 := Math_atan2 |}.

(** *** The validators, after validator.js *)

Definition isDigit (radix : Z) (c : ascii) : bool :=
  match digitValue radix c with
  | Some _ => true
  | None => false
  end.

Fixpoint dropDigits (s : string) : string :=
  match s with
  | String c r => if isDigit 10 c then dropDigits r else s
  | EmptyString => s
  end.

Definition dropSign (s : string) : string := snd (takeSign s).

(** A sign, digits, a point with digits after it and an exponent, each
    of which may be missing; nothing else. *)
Definition floatFormat (s : string) : bool :=
  let s1 := dropDigits (dropSign s) in
  let s2 :=
    match s1 with
    | String "." r => dropDigits r
    | _ => s1
    end in
  match s2 with
  | EmptyString => true
  | String c r =>
      (Ascii.eqb c "e" || Ascii.eqb c "E") &&
      negb (String.eqb (dropSign r) "") && String.eqb (dropDigits (dropSign r)) ""
  end.

(** [isFloat(s, {min, max})]: the format, and the value that
    [parseFloat] reads within the bounds. *)
Definition isFloat (min max : float) (s : string) : bool :=
  floatFormat s &&
  negb (existsb (String.eqb s) [""; "."; ","; "-"; "+"]) &&
  (min <=? parseFloat s)%float && (parseFloat s <=? max)%float.

(** [isInt(s, {min, max})]: a sign and digits, and the number they
    denote within the bounds that are given. *)
Definition isInt (min max : option float) (s : string) : bool :=
  negb (String.eqb (dropSign s) "") && String.eqb (dropDigits (dropSign s)) "" &&
  match min with Some b => (b <=? parseFloat s)%float | None => true end &&
  match max with Some b => (parseFloat s <=? b)%float | None => true end.

Fixpoint dropHexDigits (s : string) : string :=
  match s with
  | String c r => if isDigit 16 c then dropHexDigits r else s
  | EmptyString => s
  end.

(** [isMongoId(s)]: hexadecimal, with or without the prefix [0x] or
    [0h], and 24 characters long. *)
Definition isMongoId (s : string) : bool :=
  let digits :=
    match s with
    | String "0" (String c r) =>
        if existsb (Ascii.eqb c) ["x"; "X"; "h"; "H"]%char then r else s
    | _ => s
    end in
  negb (String.eqb digits "") && String.eqb (dropHexDigits digits) "" &&
  Nat.eqb (String.length s) 24.

Definition validators : Validators :=
  {| Validation.isIn := fun values s => existsb (String.eqb s) values;
     Validation.isFloat := isFloat;
     Validation.isInt := isInt;
     Validation.isMongoId := isMongoId |}.

End Engine.

(** ** Concrete requests and issues

    The scenarios of the specification, run on the reference engine. *)

Module Scenario.

Local Open Scope float_scope.

Definition alice : Reporter :=
  {| rep_id := Some "64e0000000000000000000a1";
     rep_username := "alice";
     rep_email := Some "alice@example.org" |}.

Definition aliceUser : User := mkUser "64e0000000000000000000a1" user "alice".
Definition bobUser : User := mkUser "64e0000000000000000000b2" user "bob".
Definition carolModerator : User := mkUser "64e0000000000000000000c3" moderator "carol".
Definition daveAdmin : User := mkUser "64e0000000000000000000d4" admin "dave".

Definition bobsComment : Comment :=
  {| c_user :=
       Some {| cu_id := Some "64e0000000000000000000b2"; cu_username := Some "bob" |};
     c_username := Some "bob";
     c_content := "Still broken";
     c_timestamp := 1700000000;
     c_isEdited := false |}.

Definition at_ (lng lat : number) : option Location :=
  Some (mkLocation "Point" (Some [lng; lat]) "MG Road").

(** A pothole some 15 m from the caller of the scenarios, reported by
    alice. *)
Definition pothole : Issue :=
  {| _id := "64f1a2b3c4d5e6f7a8b9c0d1";
     title := "Pothole"; category := "Roads"; status := "Reported";
     location := at_ 73.8568 18.5205;
     reportedBy := Some alice; reporterName := None;
     isAnonymous := false; isHidden := false;
     comments := Some [bobsComment]; activityLog := None; distance := None |}.

(** A broken light about 10 km away. *)
Definition farLight : Issue :=
  {| _id := "64f1a2b3c4d5e6f7a8b9c0d2";
     title := "Broken light"; category := "Lighting"; status := "Reported";
     location := at_ 73.90 18.60;
     reportedBy := Some alice; reporterName := None;
     isAnonymous := false; isHidden := false;
     comments := None; activityLog := None; distance := None |}.

(** A hidden issue next to the caller. *)
Definition hiddenSpam : Issue :=
  {| _id := "64f1a2b3c4d5e6f7a8b9c0d3";
     title := "Spam"; category := "Roads"; status := "Reported";
     location := at_ 73.8568 18.5205;
     reportedBy := Some alice; reporterName := None;
     isAnonymous := false; isHidden := true;
     comments := None; activityLog := None; distance := None |}.

(** An anonymous report with a comment by bob. *)
Definition anonymousReport : Issue :=
  {| _id := "64f1a2b3c4d5e6f7a8b9c0d4";
     title := "Leak"; category := "Water Supply"; status := "Reported";
     location := at_ 73.8568 18.5205;
     reportedBy := None; reporterName := None;
     isAnonymous := true; isHidden := false;
     comments := Some [bobsComment]; activityLog := None; distance := None |}.

(** A bridge about 28.5 km away. *)
Definition farBridge : Issue :=
  {| _id := "64f1a2b3c4d5e6f7a8b9c0d5";
     title := "Bridge"; category := "Roads"; status := "Reported";
     location := at_ 74.05 18.70;
     reportedBy := Some alice; reporterName := None;
     isAnonymous := false; isHidden := false;
     comments := None; activityLog := None; distance := None |}.

(** An issue stored without coordinates. *)
Definition unlocated : Issue :=
  {| _id := "64f1a2b3c4d5e6f7a8b9c0d6";
     title := "Noise"; category := "Public Safety"; status := "Reported";
     location := None;
     reportedBy := Some alice; reporterName := None;
     isAnonymous := false; isHidden := false;
     comments := None; activityLog := None; distance := None |}.

Definition db : gmap string Issue :=
  list_to_map
    (map (fun x => (_id x, x))
       [pothole; farLight; hiddenSpam; anonymousReport; farBridge; unlocated]).

(** [GET /api/issues/<id of x>?<q>] by [caller]. *)
Definition getById (x : Issue) (q : list (string * string)) (caller : option User) : Request :=
  {| method := "GET"; path := "/" +:+ _id x; query := list_to_map q;
     params := {[ "id" := _id x ]}; body_location := None;
     req_user := caller; validatedLocation := None |}.

(** [GET /api/issues?<q>] by [caller]. *)
Definition getList (q : list (string * string)) (caller : option User) : Request :=
  {| method := "GET"; path := "/"; query := list_to_map q;
     params := ∅; body_location := None;
     req_user := caller; validatedLocation := None |}.

(** [GET /api/issues/map?<q>] by [caller]. *)
Definition getMap (q : list (string * string)) (caller : option User) : Request :=
  {| method := "GET"; path := "/map"; query := list_to_map q;
     params := ∅; body_location := None;
     req_user := caller; validatedLocation := None |}.

(** The bounds of a map viewport over Delhi, as the client sends
    them: the JSON text of [{north: 29, south: 28, east: 78, west: 77}]. *)
Definition delhiViewport : string :=
  "{" +:+ quoted "north" +:+ ":29," +:+ quoted "south" +:+ ":28," +:+
  quoted "east" +:+ ":78," +:+ quoted "west" +:+ ":77}".

(** What [JSON.parse] and the destructuring read from that text. *)
Definition readViewport (bounds : string) : option (number * number * number * number) :=
  if String.eqb bounds delhiViewport then Some (29, 28, 78, 77) else None.

(** A pothole in Delhi, some 1171 km from the caller of the
    scenarios. *)
Definition delhiPothole : Issue :=
  {| _id := "64f1a2b3c4d5e6f7a8b9c0d7";
     title := "Pothole"; category := "Roads"; status := "Reported";
     location := at_ 77.2 28.6;
     reportedBy := Some alice; reporterName := None;
     isAnonymous := false; isHidden := false;
     comments := None; activityLog := None; distance := None |}.

(** An issue at (-82, 180), on the other side of the globe from a
    caller at (82, 0). *)
Definition antipodalLeak : Issue :=
  {| _id := "64f1a2b3c4d5e6f7a8b9c0d8";
     title := "Leak"; category := "Water Supply"; status := "Reported";
     location := at_ 180 (-82);
     reportedBy := Some alice; reporterName := None;
     isAnonymous := false; isHidden := false;
     comments := None; activityLog := None; distance := None |}.

(** The caller of the scenarios stands at (18.5204, 73.8567). *)
Definition here : list (string * string) :=
  [("latitude", "18.5204"); ("longitude", "73.8567")].

(** [process.env] without and with a configured radius. *)
Definition defaultEnv : gmap string string := ∅.
Definition env10 : gmap string string := {[ "MAX_SEARCH_RADIUS" := "10" ]}.

End Scenario.

(** * The rest of the code around the guards

    The helpers of [utils/geoUtils.js] and [utils/mapUtils.js] that the
    guards do not call, the callbacks with which the list and map
    controllers shape their responses, issue creation and the middleware
    in front of it, the methods of [models/Issue.js], the authentication
    middleware of the routes, and the error handler that answers for
    every [next(error)]. *)

(** ** JavaScript values and objects *)

Module Value.

(** A value read from a request body or from an object whose shape the
    code does not fix. *)
#[warnings="-register-all"]
Inductive value :=
| VUndefined
| VNull
| VBool (b : bool)
| VNumber (n : number)
| VString (s : string)
| VObject (fields : list (string * value)).

(** ToBoolean. *)
Definition truthy_value (v : value) : bool :=
  match v with
  | VUndefined | VNull => false
  | VBool b => b
  | VNumber n => truthy_number n
  | VString s => negb (String.eqb s "")
  | VObject _ => true
  end.

(** [v === true]. *)
Definition is_true (v : value) : bool :=
  match v with
  | VBool true => true
  | _ => false
  end.

(** A plain object: its own properties by name. *)
Abbreviation object := (gmap string value).

(** [o.k]: [undefined] when [o] has no property [k]. *)
Definition get (o : object) (k : string) : value := default VUndefined (o !! k).

(** A default in a destructuring pattern, [{ k = d }]: it applies to
    [undefined] only. *)
Definition withDefault (d v : value) : value :=
  match v with
  | VUndefined => d
  | _ => v
  end.

(** [s.split(sep)] for a separator of one character. *)
Fixpoint split (sep : ascii) (s : string) : list string :=
  match s with
  | EmptyString => [EmptyString]
  | String c r =>
      if Ascii.eqb c sep then EmptyString :: split sep r
      else
        match split sep r with
        | piece :: pieces => String c piece :: pieces
        | [] => [String c EmptyString]
        end
  end.

(** [array.length] as a number. *)
Definition lengthOf {A : Type} (l : list A) : number := of_Z (Z.of_nat (length l)).

End Value.

Import Value.

(** ** utils/geoUtils.js, the other helpers *)

Module Geo.
Section WithRuntime.
Context {RT : Runtime}.
Local Open Scope float_scope.

(** [String.prototype.trim], as the engine provides it. *)
Variable trim : string -> string.

(** [parseLocationString]: [null] is [None]; so is the result for an
    argument that is not a string, on which [split] throws inside the
    [try]. *)
Definition parseLocationString (locationString : param) : option (number * number) :=
  match locationString with
  | None => None
  | Some s =>
      let coords := map (fun coord => parseFloat (trim coord)) (split "," s) in
      if Nat.eqb (length coords) 2 && validateCoordinates (coord coords 0) (coord coords 1)
      then Some (coord coords 0, coord coords 1)
      else None
  end.

(** A location as [calculateCenterPoint] reads it:
    [latitude] and [longitude], or a [coordinates] array. *)
Record Place := mkPlace {
  p_latitude : option number;
  p_longitude : option number;
  p_coordinates : option (list number)
}.

(** ToBoolean on a property that is a number or [undefined]. *)
Definition truthy_field (v : option number) : bool :=
  match v with
  | Some n => truthy_number n
  | None => false
  end.

(** [loc.latitude || loc.coordinates[1]]: reading an element of an
    array that is not there throws; an element past the end is
    [undefined], which the sums turn into NaN. *)
Definition latitudeOf (loc : Place) : outcome number :=
  if truthy_field (p_latitude loc) then Next (default NaN (p_latitude loc))
  else
    match p_coordinates loc with
    | Some coords => Next (coord coords 1)
    | None => Throws
    end.

(** [loc.longitude || loc.coordinates[0]]. *)
Definition longitudeOf (loc : Place) : outcome number :=
  if truthy_field (p_longitude loc) then Next (default NaN (p_longitude loc))
  else
    match p_coordinates loc with
    | Some coords => Next (coord coords 0)
    | None => Throws
    end.

(** [locations.reduce((sum, loc) => sum + read(loc), sum)]. *)
Fixpoint reduceSum (read : Place -> outcome number) (locations : list Place) (sum : number) : outcome number :=
  match locations with
  | [] => Next sum
  | loc :: rest => andThen (read loc) (fun v => reduceSum read rest (sum + v))
  end.

(** [calculateCenterPoint]: [null] is [Next None]. *)
Definition calculateCenterPoint (locations : option (list Place)) : outcome (option (number * number)) :=
  match locations with
  | None => Next None
  | Some [] => Next None
  | Some locations =>
      andThen (reduceSum latitudeOf locations 0) (fun totalLat =>
      andThen (reduceSum longitudeOf locations 0) (fun totalLon =>
      Next (Some (totalLat / lengthOf locations, totalLon / lengthOf locations))))
  end.

End WithRuntime.
End Geo.

(** ** models/Issue.js: the validator of [location.coordinates] *)

Module IssueSchema.

(** [a >= b]. *)
Definition ge (a b : number) : bool := le b a.

Definition coordinatesValidator (coords : list number) : bool :=
  Nat.eqb (length coords) 2 &&
  ge (coord coords 0) (-180)%float && le (coord coords 0) 180%float &&
  ge (coord coords 1) (-90)%float && le (coord coords 1) 90%float.

End IssueSchema.

(** ** controllers/issueController.js: how the responses are shaped *)

Module IssueViews.
Section WithRuntime.
Context {RT : Runtime}.

(** [issues.map(callback)] with a callback that may throw. *)
Fixpoint mapM {A B : Type} (f : A -> outcome B) (l : list A) : outcome (list B) :=
  match l with
  | [] => Next []
  | x :: rest =>
      andThen (f x) (fun y => andThen (mapM f rest) (fun ys => Next (y :: ys)))
  end.

(** The object of the fields a map marker needs.  Of the fields of
    this record it has no [reportedBy], [comments], [activityLog] and
    [isHidden]; an absent [isHidden] reads as [false]. *)
Definition markerFields (processedIssue : Issue) : Issue :=
  {| _id := _id processedIssue;
     title := title processedIssue;
     category := category processedIssue;
     status := status processedIssue;
     location := location processedIssue;
     reportedBy := None;
     reporterName := reporterName processedIssue;
     isAnonymous := isAnonymous processedIssue;
     isHidden := false;
     comments := None;
     activityLog := None;
     distance := distance processedIssue |}.

(** The callback of [issues.map] in [getIssues]. *)
Definition processIssue (req : Request) (issue : Issue) : outcome Issue :=
  let latitude := query req !! "latitude" in
  let longitude := query req !! "longitude" in
  let forMap := query req !! "forMap" in
  let processedIssue := issue in
  let processedIssue :=
    if isAnonymous issue || negb (bool_decide (is_Some (reportedBy issue))) then
      set_reporterName (Some "Anonymous")
        (set_reportedBy (Some anonymousReporter) processedIssue)
    else
      set_reporterName (rep_username <$> reportedBy issue) processedIssue in
  andThen
    (if truthy latitude && truthy longitude then
       match issueCoordinates issue with
       | Some coords =>
           Next
             (set_distance
                (Some (calculateDistance (parseFloat (toString latitude))
                         (parseFloat (toString longitude)) (coord coords 1) (coord coords 0)))
                processedIssue)
       | None => Throws
       end
     else Next processedIssue)
    (fun processedIssue =>
       if bool_decide (forMap = Some "true") then Next (markerFields processedIssue)
       else Next processedIssue).

(** The response of [getIssues] for the issues the query found, as the
    response filters read it. *)
Definition getIssuesResponse (req : Request) (found : list Issue) : outcome Body :=
  andThen (mapM (processIssue req) found) (fun processedIssues =>
  Next (mkBody "success" (Some (length processedIssues))
          (Some (mkResponseData (Some processedIssues) None)) None)).

(** The callback of [issues.map] in [getIssuesForMap]. *)
Definition mapIssue (req : Request) (issue : Issue) : outcome Issue :=
  let latitude := query req !! "latitude" in
  let longitude := query req !! "longitude" in
  let anonymous := isAnonymous issue || negb (bool_decide (is_Some (reportedBy issue))) in
  let mapIssue :=
    {| _id := _id issue;
       title := title issue;
       category := category issue;
       status := status issue;
       location := location issue;
       reportedBy := None;
       reporterName :=
         if anonymous then Some "Anonymous" else rep_username <$> reportedBy issue;
       isAnonymous := anonymous;
       isHidden := false;
       comments := None;
       activityLog := None;
       distance := None |} in
  if truthy latitude && truthy longitude then
    match issueCoordinates issue with
    | Some coords =>
        Next
          (set_distance
             (Some (calculateDistance (parseFloat (toString latitude))
                      (parseFloat (toString longitude)) (coord coords 1) (coord coords 0)))
             mapIssue)
    | None => Throws
    end
  else Next mapIssue.

(** The response of [getIssuesForMap] for the issues the query
    found. *)
Definition getIssuesForMapResponse (req : Request) (found : list Issue) : outcome Body :=
  andThen (mapM (mapIssue req) found) (fun mapIssues =>
  Next (mkBody "success" (Some (length mapIssues))
          (Some (mkResponseData (Some mapIssues) None)) None)).

(** What the client of the list and map routes receives: the response
    of the controller after [addDistanceInfo] and then
    [applyAnonymousFiltering], the two replacements of [res.json] in the
    order they run. *)
Definition sent (env : gmap string string) (req : Request) (body : Body) : Body :=
  applyAnonymousFiltering req (addDistanceInfo env req body).

End WithRuntime.
End IssueViews.

(** ** utils/mapUtils.js *)

Module MapUtils.
Section WithRuntime.
Context {RT : Runtime}.

(** Map bounds; a side that is missing compares like NaN. *)
Record Bounds := mkBounds {
  north : number;
  south : number;
  east : number;
  west : number
}.

(** [issues.filter(callback)] with a callback that may throw. *)
Fixpoint filterM {A : Type} (f : A -> outcome bool) (l : list A) : outcome (list A) :=
  match l with
  | [] => Next []
  | x :: rest =>
      andThen (f x) (fun keep =>
      andThen (filterM f rest) (fun kept => Next (if keep then x :: kept else kept)))
  end.

(** The callback of [issues.filter] in [filterIssuesForMap]:
    destructuring [issue.location.coordinates] throws when the location
    or its coordinates are not there. *)
Definition withinMap (bounds : option Bounds) (userLocation : option (number * number))
    (maxDistance : number) (issue : Issue) : outcome bool :=
  match issueCoordinates issue with
  | None => Throws
  | Some coords =>
      let lng := coord coords 0 in
      let lat := coord coords 1 in
      let outside :=
        match bounds with
        | Some b => lt lat (south b) || gt lat (north b) || lt lng (west b) || gt lng (east b)
        | None => false
        end in
      if outside then Next false
      else
        match userLocation with
        | Some (latitude, longitude) =>
            if truthy_number maxDistance then
              let distance := calculateDistance latitude longitude lat lng in
              Next (le distance maxDistance)
            else Next true
        | None => Next true
        end
  end.

(** [filterIssuesForMap]; [maxDistance] defaults to 5. *)
Definition filterIssuesForMap (issues : list Issue) (bounds : option Bounds)
    (userLocation : option (number * number)) (maxDistance : option number) : outcome (list Issue) :=
  filterM (withinMap bounds userLocation (default 5%float maxDistance)) issues.

End WithRuntime.
End MapUtils.

(** ** utils/cloudinaryService.js *)

Module CloudinaryService.

(** [uploadToCloudinary], given what [cloudinary.uploader.upload]
    resolved to ([None] when it rejected): the object it returns, or
    [None] when it throws ['Failed to upload image to Cloudinary']. *)
Definition uploadToCloudinary (result : option object) : option object :=
  match result with
  | None => None
  | Some result =>
      Some
        (<[ "url" := get result "secure_url" ]>
         (<[ "public_id" := get result "public_id" ]>
          (<[ "width" := get result "width" ]>
           (<[ "height" := get result "height" ]>
            (<[ "format" := get result "format" ]>
             (<[ "bytes" := get result "bytes" ]> ∅))))))
  end.

End CloudinaryService.

(** ** Reporting an issue: middleware/anonymousMiddleware.js and
    controllers/issueController.js *)

Module Reporting.

(** [validateAnonymousReporting]: what it leaves in [req.body]. *)
Definition validateAnonymousReporting (user : option User) (body : object) : object :=
  let isAnonymous := get body "isAnonymous" in
  let body :=
    if negb (bool_decide (is_Some user)) && negb (is_true isAnonymous)
    then <[ "isAnonymous" := VBool true ]> body
    else body in
  let body :=
    if bool_decide (is_Some user) && is_true isAnonymous
    then <[ "isAnonymous" := VBool true ]> body
    else body in
  body.

(** An element of [images]. *)
Record Image := mkImage {
  img_url : value;
  img_publicId : value;
  img_uploadedAt : Z
}.

(** The object handed to [Issue.create]. *)
Record IssueData := mkIssueData {
  i_title : value;
  i_description : value;
  i_category : value;
  i_location : option Location;
  i_priority : value;
  i_severity : value;
  i_affectedArea : value;
  i_weatherCondition : value;
  i_isUrgent : value;
  i_images : list Image;
  i_isAnonymous : bool;
  i_reportedBy : option string
}.

(** What [createIssue] does with a request: the data it creates the
    issue with, the arguments of the first [addActivityLog], and
    whether it increments the report count of the user. *)
Record Creation := mkCreation {
  issueData : IssueData;
  logActor : option string;
  logActorName : string;
  countsForUser : bool
}.

(** [createIssue], up to the calls on the model.  [uploads] holds, for
    each file of the request, what [uploadToCloudinary] returned and the
    time at which its image record is built; it is [None] when an upload
    threw. *)
Definition createIssue (req : Request) (body : object) (uploads : option (list (object * Z))) : outcome Creation :=
  let isAnonymous := withDefault (VBool false) (get body "isAnonymous") in
  match uploads with
  | None => Throws
  | Some uploadResults =>
      let images :=
        map (fun '(result, now) =>
               {| img_url := get result "secure_url";
                  img_publicId := get result "public_id";
                  img_uploadedAt := now |}) uploadResults in
      let named := bool_decide (is_Some (req_user req)) && negb (truthy_value isAnonymous) in
      let issueData :=
        {| i_title := get body "title";
           i_description := get body "description";
           i_category := get body "category";
           i_location := body_location req;
           i_priority := withDefault (VString "Medium") (get body "priority");
           i_severity := withDefault (VString "Moderate") (get body "severity");
           i_affectedArea := get body "affectedArea";
           i_weatherCondition := withDefault (VString "Clear") (get body "weatherCondition");
           i_isUrgent := withDefault (VBool false) (get body "isUrgent");
           i_images := images;
           i_isAnonymous := if named then false else true;
           i_reportedBy := if named then user_id <$> req_user req else None |} in
      let actorName :=
        match req_user req with
        | Some u => user_username u
        | None => "Anonymous"
        end in
      Next
        {| issueData := issueData;
           logActor := user_id <$> req_user req;
           logActorName := actorName;
           countsForUser := named |}
  end.

(** [sanitizeUserData]: what the replaced [res.json] does to the
    object in [data.data.user]. *)
Definition sanitizeUserData (caller : option User) (user : object) : object :=
  let user :=
    if negb (isAdmin caller) then
      delete "emailVerificationExpires"
        (delete "emailVerificationToken"
           (delete "passwordResetExpires"
              (delete "passwordResetToken"
                 (delete "password" user))))
    else user in
  if truthy_value (get user "isAnonymous") then <[ "email" := VNull ]> user else user.

End Reporting.

(** ** models/Issue.js: the methods of an issue

    Each method is the change it makes to the document before it
    returns the promise of [save]. *)

Module IssueModel.
Section WithRuntime.
Context {RT : Runtime}.

(** [process.env]. *)
Variable env : gmap string string.

(** An element of [flags]. *)
Record Flag := mkFlag {
  f_user : string;
  f_reason : string;
  f_description : string;
  f_timestamp : Z
}.

(** The fields of an issue document that its methods and the review of
    a moderator write. *)
Record Document := mkDocument {
  d_status : string;
  d_actualResolutionTime : option Z;
  d_assignedTo : option string;
  d_assignedAt : option Z;
  d_activityLog : list ActivityLog;
  d_comments : list Comment;
  d_flags : list Flag;
  d_flagCount : number;
  d_isHidden : bool;
  d_hiddenReason : option string;
  d_upvotes : list string;
  d_upvoteCount : number
}.

Definition set_status (v : string) (d : Document) : Document :=
  mkDocument v (d_actualResolutionTime d) (d_assignedTo d) (d_assignedAt d)
    (d_activityLog d) (d_comments d) (d_flags d) (d_flagCount d) (d_isHidden d)
    (d_hiddenReason d) (d_upvotes d) (d_upvoteCount d).

Definition set_actualResolutionTime (v : option Z) (d : Document) : Document :=
  mkDocument (d_status d) v (d_assignedTo d) (d_assignedAt d)
    (d_activityLog d) (d_comments d) (d_flags d) (d_flagCount d) (d_isHidden d)
    (d_hiddenReason d) (d_upvotes d) (d_upvoteCount d).

Definition set_assignedTo (v : option string) (d : Document) : Document :=
  mkDocument (d_status d) (d_actualResolutionTime d) v (d_assignedAt d)
    (d_activityLog d) (d_comments d) (d_flags d) (d_flagCount d) (d_isHidden d)
    (d_hiddenReason d) (d_upvotes d) (d_upvoteCount d).

Definition set_assignedAt (v : option Z) (d : Document) : Document :=
  mkDocument (d_status d) (d_actualResolutionTime d) (d_assignedTo d) v
    (d_activityLog d) (d_comments d) (d_flags d) (d_flagCount d) (d_isHidden d)
    (d_hiddenReason d) (d_upvotes d) (d_upvoteCount d).

Definition set_log (v : list ActivityLog) (d : Document) : Document :=
  mkDocument (d_status d) (d_actualResolutionTime d) (d_assignedTo d) (d_assignedAt d)
    v (d_comments d) (d_flags d) (d_flagCount d) (d_isHidden d)
    (d_hiddenReason d) (d_upvotes d) (d_upvoteCount d).

Definition set_docComments (v : list Comment) (d : Document) : Document :=
  mkDocument (d_status d) (d_actualResolutionTime d) (d_assignedTo d) (d_assignedAt d)
    (d_activityLog d) v (d_flags d) (d_flagCount d) (d_isHidden d)
    (d_hiddenReason d) (d_upvotes d) (d_upvoteCount d).

Definition set_flags (v : list Flag) (d : Document) : Document :=
  mkDocument (d_status d) (d_actualResolutionTime d) (d_assignedTo d) (d_assignedAt d)
    (d_activityLog d) (d_comments d) v (d_flagCount d) (d_isHidden d)
    (d_hiddenReason d) (d_upvotes d) (d_upvoteCount d).

Definition set_flagCount (v : number) (d : Document) : Document :=
  mkDocument (d_status d) (d_actualResolutionTime d) (d_assignedTo d) (d_assignedAt d)
    (d_activityLog d) (d_comments d) (d_flags d) v (d_isHidden d)
    (d_hiddenReason d) (d_upvotes d) (d_upvoteCount d).

Definition set_docHidden (v : bool) (d : Document) : Document :=
  mkDocument (d_status d) (d_actualResolutionTime d) (d_assignedTo d) (d_assignedAt d)
    (d_activityLog d) (d_comments d) (d_flags d) (d_flagCount d) v
    (d_hiddenReason d) (d_upvotes d) (d_upvoteCount d).

Definition set_hiddenReason (v : option string) (d : Document) : Document :=
  mkDocument (d_status d) (d_actualResolutionTime d) (d_assignedTo d) (d_assignedAt d)
    (d_activityLog d) (d_comments d) (d_flags d) (d_flagCount d) (d_isHidden d)
    v (d_upvotes d) (d_upvoteCount d).

Definition set_upvotes (v : list string) (d : Document) : Document :=
  mkDocument (d_status d) (d_actualResolutionTime d) (d_assignedTo d) (d_assignedAt d)
    (d_activityLog d) (d_comments d) (d_flags d) (d_flagCount d) (d_isHidden d)
    (d_hiddenReason d) v (d_upvoteCount d).

Definition set_upvoteCount (v : number) (d : Document) : Document :=
  mkDocument (d_status d) (d_actualResolutionTime d) (d_assignedTo d) (d_assignedAt d)
    (d_activityLog d) (d_comments d) (d_flags d) (d_flagCount d) (d_isHidden d)
    (d_hiddenReason d) (d_upvotes d) v.

(** A document as the schema's defaults make it. *)
Definition fresh : Document :=
  {| d_status := "Reported";
     d_actualResolutionTime := None;
     d_assignedTo := None;
     d_assignedAt := None;
     d_activityLog := [];
     d_comments := [];
     d_flags := [];
     d_flagCount := 0%float;
     d_isHidden := false;
     d_hiddenReason := None;
     d_upvotes := [];
     d_upvoteCount := 0%float |}.

(** An ObjectId stored where a user is referenced: its [_id] is
    itself, and it has no [username]. *)
Definition actorRef (id : string) : Actor := {| act_id := Some id; act_username := None |}.
Definition userRef (id : string) : CommentUser := {| cu_id := Some id; cu_username := None |}.

(** [addActivityLog(action, details, actor = null, actorName = 'System')],
    at time [now]. *)
Definition addActivityLog (now : Z) (action details : string) (actor : option string)
    (actorName : param) (d : Document) : Document :=
  set_log
    (d_activityLog d ++
     [ {| l_action := action;
          l_details := details;
          l_actor := actorRef <$> actor;
          l_actorName := Some (default "System" actorName);
          l_timestamp := now |} ])%list
    d.

(** [updateStatus(newStatus, actor = null, actorName = 'System', notes = '')];
    [resolvedAt] and [now] are the two times it reads. *)
Definition updateStatus (resolvedAt now : Z) (newStatus : string) (actor : option string)
    (actorName notes : param) (d : Document) : Document :=
  let oldStatus := d_status d in
  let d := set_status newStatus d in
  let d :=
    if String.eqb newStatus "Resolved" then set_actualResolutionTime (Some resolvedAt) d
    else d in
  let details :=
    "Status changed from " +:+ oldStatus +:+ " to " +:+ newStatus +:+
    (if truthy notes then " - " +:+ toString notes else "") in
  addActivityLog now "Status Updated" details actor actorName d.

(** [parseInt(process.env.SPAM_FLAG_THRESHOLD)]. *)
Definition threshold : number := parseInt (toString (env !! "SPAM_FLAG_THRESHOLD")).

Definition autoHidden : string := "Auto-hidden due to multiple flags".

(** [addFlag(userId, reason, description = '')]: [None] when it throws
    ['User has already flagged this issue'], before it changes
    anything. *)
Definition addFlag (flaggedAt now : Z) (userId reason : string) (description : param)
    (d : Document) : option Document :=
  if existsb (fun flag => String.eqb (f_user flag) userId) (d_flags d) then None
  else
    let d :=
      set_flags
        (d_flags d ++
         [ {| f_user := userId; f_reason := reason;
              f_description := default "" description; f_timestamp := flaggedAt |} ])%list
        d in
    let d := set_flagCount (lengthOf (d_flags d)) d in
    let d :=
      if IssueSchema.ge (d_flagCount d) threshold && negb (d_isHidden d) then
        set_hiddenReason (Some autoHidden) (set_docHidden true d)
      else d in
    Some (addActivityLog now "Flagged" ("Issue flagged as " +:+ reason) (Some userId)
            (Some "User") d).

Definition removeFlag (userId : string) (d : Document) : Document :=
  let d :=
    set_flags (List.filter (fun flag => negb (String.eqb (f_user flag) userId)) (d_flags d)) d in
  let d := set_flagCount (lengthOf (d_flags d)) d in
  if lt (d_flagCount d) threshold && d_isHidden d &&
     bool_decide (d_hiddenReason d = Some autoHidden) then
    set_hiddenReason None (set_docHidden false d)
  else d.

(** [this.upvotes.includes(userId)]: an array of ObjectIds holds an id
    when it holds one with the same digits. *)
Definition includes (upvotes : list string) (userId : string) : bool :=
  existsb (String.eqb userId) upvotes.

Definition addUpvote (userId : string) (d : Document) : Document :=
  if negb (includes (d_upvotes d) userId) then
    let d := set_upvotes (d_upvotes d ++ [userId])%list d in
    set_upvoteCount (lengthOf (d_upvotes d)) d
  else d.

Definition removeUpvote (userId : string) (d : Document) : Document :=
  let d :=
    set_upvotes (List.filter (fun id => negb (String.eqb id userId)) (d_upvotes d)) d in
  set_upvoteCount (lengthOf (d_upvotes d)) d.

(** [addComment(userId, username, content)]. *)
Definition addComment (commentedAt now : Z) (userId username content : string)
    (d : Document) : Document :=
  let d :=
    set_docComments
      (d_comments d ++
       [ {| c_user := Some (userRef userId);
            c_username := Some username;
            c_content := content;
            c_timestamp := commentedAt;
            c_isEdited := false |} ])%list
      d in
  addActivityLog now "Comment Added" ("Comment added by " +:+ username) (Some userId)
    (Some username) d.

(** [assignTo(userId, actor = null, actorName = 'System')]. *)
Definition assignTo (assignedAt now : Z) (userId : string) (actor : option string)
    (actorName : param) (d : Document) : Document :=
  let d := set_assignedTo (Some userId) d in
  let d := set_assignedAt (Some assignedAt) d in
  addActivityLog now "Assigned" ("Issue assigned to user " +:+ userId) actor actorName d.

(** The two changes [reviewFlaggedIssue] makes for a moderator
    (controllers/adminController.js). *)
Definition hide (reason : param) (d : Document) : Document :=
  set_hiddenReason (Some (or_string reason "Hidden by moderator")) (set_docHidden true d).

Definition unhide (d : Document) : Document :=
  set_hiddenReason None (set_docHidden false d).

(** A call on a document. *)
Inductive call :=
| AddActivityLog (now : Z) (action details : string) (actor : option string) (actorName : param)
| UpdateStatus (resolvedAt now : Z) (newStatus : string) (actor : option string)
    (actorName notes : param)
| AddFlag (flaggedAt now : Z) (userId reason : string) (description : param)
| RemoveFlag (userId : string)
| AddUpvote (userId : string)
| RemoveUpvote (userId : string)
| AddComment (commentedAt now : Z) (userId username content : string)
| AssignTo (assignedAt now : Z) (userId : string) (actor : option string) (actorName : param)
| Hide (reason : param)
| Unhide.

(** The calls that are the review of a moderator, not methods of the
    model. *)
Definition isReview (c : call) : bool :=
  match c with
  | Hide _ | Unhide => true
  | _ => false
  end.

(** The document after a call; a call that throws leaves it as it
    was. *)
Definition run (c : call) (d : Document) : Document :=
  match c with
  | AddActivityLog now action details actor actorName =>
      addActivityLog now action details actor actorName d
  | UpdateStatus resolvedAt now newStatus actor actorName notes =>
      updateStatus resolvedAt now newStatus actor actorName notes d
  | AddFlag flaggedAt now userId reason description =>
      default d (addFlag flaggedAt now userId reason description d)
  | RemoveFlag userId => removeFlag userId d
  | AddUpvote userId => addUpvote userId d
  | RemoveUpvote userId => removeUpvote userId d
  | AddComment commentedAt now userId username content =>
      addComment commentedAt now userId username content d
  | AssignTo assignedAt now userId actor actorName =>
      assignTo assignedAt now userId actor actorName d
  | Hide reason => hide reason d
  | Unhide => unhide d
  end.

(** The document after the calls of a history, the first call first. *)
Definition runAll (history : list call) (d : Document) : Document :=
  fold_left (fun d c => run c d) history d.

(** The counters say how many flags and upvotes there are, and nobody
    has flagged or upvoted twice. *)
Definition consistent (d : Document) : Prop :=
  d_flagCount d = lengthOf (d_flags d) /\
  d_upvoteCount d = lengthOf (d_upvotes d) /\
  NoDup (f_user <$> d_flags d) /\
  NoDup (d_upvotes d).

End WithRuntime.
End IssueModel.

(** ** middleware/authMiddleware.js *)

Module Auth.

(** The parts of a request the authentication reads:
    [req.headers.authorization] and [req.cookies]. *)
Record Credentials := mkCredentials {
  authorization : param;
  cookies : option (gmap string string)
}.

(** The payload of a token: [id] and [iat] (in seconds), when it has
    one. *)
Record Decoded := mkDecoded {
  dec_id : string;
  dec_iat : option Z
}.

(** A user document: what becomes [req.user], [isBanned], and
    [passwordChangedAt] in milliseconds when the document has it. *)
Record Account := mkAccount {
  acc_user : User;
  acc_isBanned : bool;
  acc_passwordChangedAt : option Z
}.

(** What a query for one document resolves to, or that it rejects. *)
Inductive found (A : Type) : Type :=
| Found (a : A)
| Absent
| Rejected.

Arguments Found {A} a.
Arguments Absent {A}.
Arguments Rejected {A}.

Section WithServices.

(** [process.env]. *)
Variable env : gmap string string.

(** [jwt.verify(token, secret)]: [None] when it throws. *)
Variable verify : string -> param -> option Decoded.

(** [User.findById(id)]. *)
Variable findById : string -> found Account.

(** The token of the request: the second word of an [authorization]
    header that starts with ['Bearer'], or else the [token] cookie. *)
Definition tokenOf (req : Credentials) : param :=
  if truthy (authorization req) && String.prefix "Bearer" (toString (authorization req)) then
    split " " (toString (authorization req)) !! 1%nat
  else
    match cookies req with
    | Some jar => if truthy (jar !! "token") then jar !! "token" else None
    | None => None
    end.

Definition invalidToken : AppError := mkAppError "Invalid token. Please log in again!" 401.

(** [parseInt(passwordChangedAt.getTime() / 1000, 10)]: the whole
    seconds of a time in milliseconds (a time value is at most 8.64e15
    in absolute value, so the quotient is printed without an exponent
    and read back up to its decimal point). *)
Definition changedTimestamp (milliseconds : Z) : Z := Z.quot milliseconds 1000.

(** [currentUser.passwordChangedAt] is there and
    [decoded.iat < changedTimestamp]; a payload without [iat] compares
    as false. *)
Definition changedPasswordAfter (currentUser : Account) (decoded : Decoded) : bool :=
  match acc_passwordChangedAt currentUser, dec_iat decoded with
  | Some at_, Some iat => (iat <? changedTimestamp at_)%Z
  | _, _ => false
  end.

(** [authenticateToken]: the user it attaches to the request. *)
Definition authenticateToken (req : Credentials) : outcome User :=
  let token := tokenOf req in
  if negb (truthy token) then
    NextError (mkAppError "You are not logged in! Please log in to get access." 401)
  else
    match verify (toString token) (env !! "JWT_SECRET") with
    | None => NextError invalidToken
    | Some decoded =>
        match findById (dec_id decoded) with
        | Rejected => NextError invalidToken
        | Absent =>
            NextError (mkAppError "The user belonging to this token no longer exists." 401)
        | Found currentUser =>
            if changedPasswordAfter currentUser decoded then
              NextError (mkAppError "User recently changed password! Please log in again." 401)
            else if acc_isBanned currentUser then
              NextError
                (mkAppError "Your account has been banned. Please contact support." 403)
            else Next (acc_user currentUser)
        end
    end.

(** [optionalAuth]: what it leaves in [req.user]. *)
Definition optionalAuth (req : Credentials) : outcome (option User) :=
  let token := tokenOf req in
  if negb (truthy token) then Next None
  else
    match verify (toString token) (env !! "JWT_SECRET") with
    | None => Next None
    | Some decoded =>
        match findById (dec_id decoded) with
        | Rejected => Next None
        | Absent => Next None
        | Found currentUser =>
            if acc_isBanned currentUser then Next None
            else Next (Some (acc_user currentUser))
        end
    end.

(** [restrictTo(...roles)], on the user of the request. *)
Definition restrictTo (roles : list Role) (user : option User) : outcome User :=
  match user with
  | None => NextError (mkAppError "You must be logged in to access this resource." 401)
  | Some u =>
      if negb (existsb (Role_eqb (user_role u)) roles) then
        NextError (mkAppError "You do not have permission to perform this action." 403)
      else Next u
  end.

Definition requireAdmin (user : option User) : outcome User :=
  match user with
  | None => NextError (mkAppError "You must be logged in to access this resource." 401)
  | Some u =>
      if negb (Role_eqb (user_role u) admin) then
        NextError (mkAppError "Admin access required." 403)
      else Next u
  end.

Definition requireModerator (user : option User) : outcome User :=
  match user with
  | None => NextError (mkAppError "You must be logged in to access this resource." 401)
  | Some u =>
      if negb (existsb (Role_eqb (user_role u)) [admin; moderator]) then
        NextError (mkAppError "Moderator access required." 403)
      else Next u
  end.

(** [router.get('/stats', authenticateToken, restrictTo('admin'),
    getIssueStats)]: the user for whom the controller runs. *)
Definition statsRoute (req : Credentials) : outcome User :=
  andThen (authenticateToken req) (fun user => restrictTo [admin] (Some user)).

End WithServices.
End Auth.

(** ** middleware/errorHandler.js: answering for an error *)

Module ErrorResponses.

(** [`${statusCode}`] for a whole number. *)
Definition decimal (n : Z) : string := NilZero.string_of_int (Z.to_int n).

(** [this.status] of [new AppError(message, statusCode)]. *)
Definition statusOf (e : AppError) : string :=
  if String.prefix "4" (decimal (statusCode e)) then "fail" else "error".

(** An error as the handler reads it: the properties that a copy
    [{...err}] has (its own enumerable ones, so that [name] is there
    only when the error carries it itself), and its [message]. *)
Record Failure := mkFailure {
  e_statusCode : option Z;
  e_status : param;
  e_message : string;
  e_isOperational : bool;
  e_name : param;
  e_code : option Z;
  e_path : param;
  e_value : param;
  e_errmsg : param;
  e_errors : option (list string)
}.

(** An [AppError] that was handed to [next]. *)
Definition raised (e : AppError) : Failure :=
  {| e_statusCode := Some (statusCode e);
     e_status := Some (statusOf e);
     e_message := message e;
     e_isOperational := true;
     e_name := None;
     e_code := None;
     e_path := None;
     e_value := None;
     e_errmsg := None;
     e_errors := None |}.

(** An error that was thrown by the engine, a [TypeError] say. *)
Definition thrown (message : string) : Failure :=
  {| e_statusCode := None; e_status := None; e_message := message;
     e_isOperational := false; e_name := None; e_code := None;
     e_path := None; e_value := None; e_errmsg := None; e_errors := None |}.

(** The value of the variable [error] in [errorHandler]: the copy of
    the error, or an [AppError] made in its place. *)
Inductive current :=
| Copy (f : Failure)
| Fresh (e : AppError).

(** [error.name]: an [AppError] inherits ['Error']. *)
Definition nameOf (c : current) : param :=
  match c with
  | Copy f => e_name f
  | Fresh _ => Some "Error"
  end.

Definition codeOf (c : current) : option Z :=
  match c with
  | Copy f => e_code f
  | Fresh _ => None
  end.

(** What is sent. *)
Inductive Response :=
| JsonDev (code : option Z) (status : param) (error : Failure) (message : string)
| Json (code : option Z) (status : param) (message : string)
| Render (code : option Z) (title msg : string).

Section WithEnvironment.

(** [process.env]. *)
Variable env : gmap string string.

(** [errmsg.match(...)] with the regular expression of the source: the
    first quoted part of the message, when there is one. *)
Variable firstQuoted : string -> option string.

Definition handleCastErrorDB (err : current) : AppError :=
  match err with
  | Copy f => mkAppError ("Invalid " +:+ toString (e_path f) +:+ ": " +:+ toString (e_value f)) 400
  | Fresh _ => mkAppError "Invalid undefined: undefined" 400
  end.

(** [None] when it throws. *)
Definition handleDuplicateFieldsDB (err : current) : option AppError :=
  match err with
  | Copy f =>
      match e_errmsg f with
      | Some errmsg =>
          match firstQuoted errmsg with
          | Some value =>
              Some
                (mkAppError
                   ("Duplicate field value: " +:+ value +:+ ". Please use another value!") 400)
          | None => None
          end
      | None => None
      end
  | Fresh _ => None
  end.

(** [None] when it throws. *)
Definition handleValidationErrorDB (err : current) : option AppError :=
  match err with
  | Copy f =>
      match e_errors f with
      | Some errors =>
          Some (mkAppError ("Invalid input data. " +:+ String.concat ". " errors) 400)
      | None => None
      end
  | Fresh _ => None
  end.

Definition handleJWTError : AppError :=
  mkAppError "Invalid token. Please log in again!" 401.

Definition handleJWTExpiredError : AppError :=
  mkAppError "Your token has expired! Please log in again." 401.

Definition sendErrorDev (err : Failure) (originalUrl : string) : Response :=
  if String.prefix "/api" originalUrl then
    JsonDev (e_statusCode err) (e_status err) err (e_message err)
  else Render (e_statusCode err) "Something went wrong!" (e_message err).

Definition sendErrorProd (err : current) (originalUrl : string) : Response :=
  let statusCode :=
    match err with
    | Copy f => e_statusCode f
    | Fresh e => Some (statusCode e)
    end in
  let status :=
    match err with
    | Copy f => e_status f
    | Fresh e => Some (statusOf e)
    end in
  let message :=
    match err with
    | Copy f => e_message f
    | Fresh e => message e
    end in
  let isOperational :=
    match err with
    | Copy f => e_isOperational f
    | Fresh _ => true
    end in
  if String.prefix "/api" originalUrl then
    if isOperational then Json statusCode status message
    else Json (Some 500%Z) (Some "error") "Something went very wrong!"
  else if isOperational then Render statusCode "Something went wrong!" message
  else Render statusCode "Something went wrong!" "Please try again later.".

(** [err.statusCode || 500] and [err.status || 'error']. *)
Definition withDefaults (err : Failure) : Failure :=
  mkFailure
    (match e_statusCode err with
     | Some n => if (n =? 0)%Z then Some 500%Z else Some n
     | None => Some 500%Z
     end)
    (Some (or_string (e_status err) "error"))
    (e_message err) (e_isOperational err) (e_name err) (e_code err)
    (e_path err) (e_value err) (e_errmsg err) (e_errors err).

(** [errorHandler]: the response it sends, [Next None] when it sends
    none, [Throws] when one of its helpers throws. *)
Definition errorHandler (err : Failure) (originalUrl : string) : outcome (option Response) :=
  let err := withDefaults err in
  if bool_decide (env !! "NODE_ENV" = Some "development") then
    Next (Some (sendErrorDev err originalUrl))
  else if bool_decide (env !! "NODE_ENV" = Some "production") then
    let error := Copy err in
    let error :=
      if bool_decide (nameOf error = Some "CastError") then Next (Fresh (handleCastErrorDB error))
      else Next error in
    let error :=
      andThen error (fun error =>
        if bool_decide (codeOf error = Some 11000%Z) then
          match handleDuplicateFieldsDB error with
          | Some e => Next (Fresh e)
          | None => Throws
          end
        else Next error) in
    let error :=
      andThen error (fun error =>
        if bool_decide (nameOf error = Some "ValidationError") then
          match handleValidationErrorDB error with
          | Some e => Next (Fresh e)
          | None => Throws
          end
        else Next error) in
    let error :=
      andThen error (fun error =>
        if bool_decide (nameOf error = Some "JsonWebTokenError") then Next (Fresh handleJWTError)
        else Next error) in
    let error :=
      andThen error (fun error =>
        if bool_decide (nameOf error = Some "TokenExpiredError") then
          Next (Fresh handleJWTExpiredError)
        else Next error) in
    andThen error (fun error => Next (Some (sendErrorProd error originalUrl)))
  else Next None.

End WithEnvironment.
End ErrorResponses.

(** ** More concrete cases *)

Module Cases.
Import Scenario.
Local Open Scope float_scope.

(** [trim] for the white space of ASCII. *)
Definition trim (s : string) : string :=
  String.rev (Engine.trimStart (String.rev (Engine.trimStart s))).

(** A point on the equator, given by its latitude and longitude. *)
Definition onTheEquator : Geo.Place :=
  {| Geo.p_latitude := Some 0; Geo.p_longitude := Some 73.8567; Geo.p_coordinates := None |}.

Definition inPune : Geo.Place :=
  {| Geo.p_latitude := Some 18.5204; Geo.p_longitude := Some 73.8567;
     Geo.p_coordinates := None |}.

(** The location of a report. *)
Definition mgRoad : option Location := at_ 73.8567 18.5204.

(** [POST /api/issues] by [caller], with [location] in the body. *)
Definition report (location : option Location) (caller : option User) : Request :=
  {| method := "POST"; path := "/"; query := ∅; params := ∅;
     body_location := location; req_user := caller; validatedLocation := None |}.

(** The other fields of the body of a report. *)
Definition fields (isAnonymous : list (string * value)) : object :=
  list_to_map
    ([("title", VString "Pothole on MG Road");
      ("description", VString "A deep pothole near the bus stop");
      ("category", VString "Roads")] ++ isAnonymous)%list.

(** What Cloudinary answers for an upload. *)
Definition cloudinaryResult : object :=
  list_to_map
    [("secure_url", VString "https://res.cloudinary.com/demo/image/upload/pothole.jpg");
     ("public_id", VString "civictrack/pothole");
     ("width", VNumber 800); ("height", VNumber 600);
     ("format", VString "jpg"); ("bytes", VNumber 48213)].

(** A user object as it is stored. *)
Definition storedAlice : object :=
  list_to_map
    [("username", VString "alice"); ("email", VString "alice@example.org");
     ("password", VString "$2a$12$R9h/cIPz0gi.URNNX3kh2OPST9/PgBkqquzi.Ss7KIUgO2t0jWMUW");
     ("passwordResetToken", VString "5f4dcc3b5aa765d61d8327deb882cf99");
     ("role", VString "user")].

(** A history of calls on an issue: bob flags it twice, carol upvotes
    it twice, bob withdraws his flag. *)
Definition history : list IssueModel.call :=
  [ IssueModel.AddFlag 1700000000 1700000001 "64e0000000000000000000b2" "Spam" None;
    IssueModel.AddFlag 1700000100 1700000101 "64e0000000000000000000b2" "Other" None;
    IssueModel.AddUpvote "64e0000000000000000000c3";
    IssueModel.AddUpvote "64e0000000000000000000c3";
    IssueModel.AddComment 1700000200 1700000201 "64e0000000000000000000c3" "carol" "Seen it too";
    IssueModel.RemoveFlag "64e0000000000000000000b2" ].

(** An issue that a moderator has hidden. *)
Definition hiddenByModerator : IssueModel.Document :=
  IssueModel.hide None IssueModel.fresh.

(** Three flags by three users. *)
Definition threeFlags : list IssueModel.call :=
  [ IssueModel.AddFlag 1700000000 1700000001 "64e0000000000000000000a1" "Spam" None;
    IssueModel.AddFlag 1700000100 1700000101 "64e0000000000000000000b2" "Spam" None;
    IssueModel.AddFlag 1700000200 1700000201 "64e0000000000000000000c3" "Spam" None ].

Definition threshold3 : gmap string string := {[ "SPAM_FLAG_THRESHOLD" := "3" ]}.

(** Tokens: one for dave, who is an admin, one for bob, whose account
    is banned, and one for alice, who changed her password after it was
    issued. *)
Definition verify (token : string) (secret : param) : option Auth.Decoded :=
  if bool_decide (secret = Some "s3cret") then
    if String.eqb token "token-of-dave" then
      Some {| Auth.dec_id := user_id daveAdmin; Auth.dec_iat := Some 1700000000%Z |}
    else if String.eqb token "token-of-bob" then
      Some {| Auth.dec_id := user_id bobUser; Auth.dec_iat := Some 1700000000%Z |}
    else if String.eqb token "token-of-alice" then
      Some {| Auth.dec_id := user_id aliceUser; Auth.dec_iat := Some 1700000000%Z |}
    else None
  else None.

Definition accounts (id : string) : Auth.found Auth.Account :=
  if String.eqb id (user_id daveAdmin) then
    Auth.Found
      {| Auth.acc_user := daveAdmin; Auth.acc_isBanned := false;
         Auth.acc_passwordChangedAt := None |}
  else if String.eqb id (user_id bobUser) then
    Auth.Found
      {| Auth.acc_user := bobUser; Auth.acc_isBanned := true;
         Auth.acc_passwordChangedAt := None |}
  else if String.eqb id (user_id aliceUser) then
    Auth.Found
      {| Auth.acc_user := aliceUser; Auth.acc_isBanned := false;
         Auth.acc_passwordChangedAt := Some 1700000500000%Z |}
  else Auth.Absent.

Definition bearer (token : string) : Auth.Credentials :=
  {| Auth.authorization := Some ("Bearer " +:+ token); Auth.cookies := None |}.

(** [process.env] of a deployment. *)
Definition production : gmap string string :=
  {[ "NODE_ENV" := "production"; "JWT_SECRET" := "s3cret" ]}.

(** A [TypeError] as the copy of the handler sees it. *)
Definition typeError : ErrorResponses.Failure :=
  ErrorResponses.thrown "Cannot read properties of undefined (reading 'coordinates')".

End Cases.

(** * Properties *)

(** The conditions of the statements, as the guards spell them. *)
Ltac unfold_guards :=
  unfold missingLocation, invalidLocation, callerLatitude, callerLongitude.

(** ** Comparisons of numbers *)

Section Comparisons.

Lemma SFcompare_antisym x y c :
  SFcompare x y = Some c -> SFcompare y x = Some (CompOpp c).
Proof.
  destruct x as [[]|[]| |[] mx ex], y as [[]|[]| |[] my ey]; simpl;
    intros H; try congruence; try (inversion H; reflexivity).
  all: rewrite (Z.compare_antisym ex ey);
    destruct (ex ?= ey)%Z eqn:E; simpl in *; try congruence.
  all: try (inversion H; subst; reflexivity).
  all: change (Pos.compare_cont Eq my mx) with (Pos.compare my mx);
    change (Pos.compare_cont Eq mx my) with (Pos.compare mx my) in H;
    rewrite (Pos.compare_antisym mx my);
    destruct (mx ?= my)%positive; simpl in *; inversion H; reflexivity.
Qed.

Lemma SFcompare_defined x y :
  SFcompare x x = Some Eq -> SFcompare y y = Some Eq ->
  exists c, SFcompare x y = Some c.
Proof.
  destruct x as [[]|[]| |[] mx ex], y as [[]|[]| |[] my ey]; simpl;
    intros Hx Hy; try discriminate; eauto.
Qed.

Lemma isNaN_false x : isNaN x = false -> SFcompare (Prim2SF x) (Prim2SF x) = Some Eq.
Proof.
  unfold isNaN, PrimFloat.is_nan. rewrite FloatAxioms.eqb_spec. unfold SFeqb.
  destruct (SFcompare (Prim2SF x) (Prim2SF x)) as [[]|]; simpl; congruence.
Qed.

(** [d <= m] excludes [d > m]. *)
Lemma le_not_gt d m : le d m = true -> gt d m = false.
Proof.
  unfold le, gt. rewrite leb_spec, ltb_spec. unfold SFleb, SFltb.
  destruct (SFcompare (Prim2SF d) (Prim2SF m)) as [c|] eqn:E; [|discriminate].
  rewrite (SFcompare_antisym _ _ _ E). destruct c; simpl; congruence.
Qed.

Lemma gt_not_le d m : gt d m = true -> le d m = false.
Proof.
  intros H. destruct (le d m) eqn:E; [|reflexivity].
  apply le_not_gt in E. congruence.
Qed.

(** Between two numbers that are not NaN, one of [d > m] and [d <= m]
    holds. *)
Lemma gt_or_le d m : isNaN d = false -> isNaN m = false -> gt d m = negb (le d m).
Proof.
  intros Hd Hm. apply isNaN_false in Hd, Hm.
  destruct (SFcompare_defined _ _ Hd Hm) as [c E].
  unfold le, gt. rewrite leb_spec, ltb_spec. unfold SFleb, SFltb.
  rewrite E, (SFcompare_antisym _ _ _ E). destruct c; reflexivity.
Qed.

Lemma lt_le a b : lt a b = true -> le a b = true.
Proof.
  unfold lt, le. rewrite leb_spec, ltb_spec. unfold SFleb, SFltb.
  destruct (SFcompare (Prim2SF a) (Prim2SF b)) as [[]|]; congruence.
Qed.

Lemma le_refl a : isNaN a = false -> le a a = true.
Proof.
  intros H. apply isNaN_false in H. unfold le. rewrite leb_spec. unfold SFleb.
  now rewrite H.
Qed.

(** [Math.min] of two numbers that are not NaN is one of them and is
    at most each. *)
Lemma Math_min_spec a b :
  isNaN a = false -> isNaN b = false ->
  (Math_min a b = a \/ Math_min a b = b) /\
  le (Math_min a b) a = true /\ le (Math_min a b) b = true.
Proof.
  intros Ha Hb. unfold Math_min. rewrite Ha, Hb. simpl.
  destruct (lt a b) eqn:Hab.
  - repeat split; auto using le_refl, lt_le.
  - destruct (lt b a) eqn:Hba.
    + repeat split; auto using le_refl, lt_le.
    + assert (le a b = true /\ le b a = true) as [H1 H2].
      { pose proof (isNaN_false _ Ha) as Ha'. pose proof (isNaN_false _ Hb) as Hb'.
        destruct (SFcompare_defined _ _ Ha' Hb') as [c E].
        unfold lt in Hab, Hba. unfold le.
        rewrite ltb_spec in Hab, Hba. rewrite !leb_spec. unfold SFltb, SFleb in *.
        rewrite E in *. rewrite (SFcompare_antisym _ _ _ E) in *.
        destruct c; simpl in *; try discriminate; auto. }
      destruct (get_sign a); repeat split; auto using le_refl.
Qed.

(** A requested radius that is not above the maximum is used as it
    is, up to the sign of zero. *)
Lemma Math_min_left a b :
  isNaN a = false -> isNaN b = false -> gt a b = false ->
  le a (Math_min a b) = true.
Proof.
  intros Ha Hb Hgt. unfold Math_min. rewrite Ha, Hb. simpl.
  assert (le a b = true) as Hle.
  { rewrite (gt_or_le a b Ha Hb) in Hgt. now destruct (le a b). }
  destruct (lt a b); [now apply le_refl|].
  change (lt b a) with (gt a b). rewrite Hgt.
  destruct (get_sign a); [now apply le_refl|assumption].
Qed.

Lemma le_antisym a b : le a b = true -> le b a = true -> JS.strictEquals a b = true.
Proof.
  unfold le, JS.strictEquals. rewrite !leb_spec, FloatAxioms.eqb_spec. unfold SFleb, SFeqb.
  destruct (SFcompare (Prim2SF a) (Prim2SF b)) as [c|] eqn:E; [|discriminate].
  rewrite (SFcompare_antisym _ _ _ E). destruct c; simpl; congruence.
Qed.

Lemma Math_min_NaN a b : (isNaN a || isNaN b)%bool = true -> Math_min a b = NaN.
Proof. unfold Math_min. now intros ->. Qed.

End Comparisons.

(** ** The anonymity filter *)

Section AnonymityFilter.

Lemma or_string_truthy p d : truthy (Some d) = true -> truthy (Some (or_string p d)) = true.
Proof.
  intros Hd. unfold or_string. destruct (truthy p) eqn:Hp; [|exact Hd].
  destruct p as [s|]; [exact Hp|discriminate].
Qed.

(** Defaulting a name that has already been defaulted changes
    nothing. *)
Lemma or_string_idem p d :
  truthy (Some d) = true -> or_string (Some (or_string p d)) d = or_string p d.
Proof.
  intros Hd. unfold or_string at 1. now rewrite (or_string_truthy p d Hd).
Qed.

(** A name that is there and not empty is kept. *)
Lemma or_string_keeps name d : name <> "" -> or_string (Some name) d = name.
Proof.
  intros Hne. unfold or_string. simpl.
  destruct (String.eqb_spec name ""); [contradiction|reflexivity].
Qed.

Lemma filterComment_idem c : filterComment (filterComment c) = filterComment c.
Proof.
  unfold filterComment; simpl. rewrite or_string_idem by reflexivity.
  destruct (c_user c); reflexivity.
Qed.

Lemma filterLog_idem l : filterLog (filterLog l) = filterLog l.
Proof.
  unfold filterLog; simpl. rewrite or_string_idem by reflexivity.
  destruct (l_actor l); reflexivity.
Qed.

Lemma map_idem {A} (f : A -> A) (l : list A) :
  (forall x, f (f x) = f x) -> map f (map f l) = map f l.
Proof.
  intros Hf. induction l as [|x l IH]; simpl; [reflexivity|].
  now rewrite Hf, IH.
Qed.

(** The filter, whoever the two callers are. *)
Lemma filterAnonymousData_idem x u u' :
  filterAnonymousData (filterAnonymousData x u) u' = filterAnonymousData x u.
Proof.
  destruct x as [id ti ca st lo rb rn an hi cs al di].
  unfold filterAnonymousData; simpl.
  destruct an, rb as [r|], cs as [cs|], al as [al|]; simpl;
    rewrite ?(map_idem _ _ filterComment_idem), ?(map_idem _ _ filterLog_idem);
    reflexivity.
Qed.

(** What the filter does to the reporter of an issue that is anonymous
    or has no reporter. *)
Lemma filterAnonymousData_anonymous x u :
  isAnonymous x = true \/ reportedBy x = None ->
  reportedBy (filterAnonymousData x u) = Some anonymousReporter /\
  reporterName (filterAnonymousData x u) = Some "Anonymous" /\
  isAnonymous (filterAnonymousData x u) = true.
Proof.
  intros H. destruct x as [id ti ca st lo rb rn an hi cs al di]; simpl in H.
  unfold filterAnonymousData; simpl.
  destruct an, rb as [r|], cs as [cs|], al as [al|]; simpl;
    try (destruct H; discriminate); auto.
Qed.

(** What the filter does to the reporter of an issue that is not
    anonymous: the name is copied out, the reporter object stays. *)
Lemma filterAnonymousData_named x u r :
  isAnonymous x = false -> reportedBy x = Some r ->
  reportedBy (filterAnonymousData x u) = Some r /\
  reporterName (filterAnonymousData x u) = Some (rep_username r) /\
  isAnonymous (filterAnonymousData x u) = false.
Proof.
  intros Han Hrb. destruct x as [id ti ca st lo rb rn an hi cs al di]; simpl in *.
  subst. unfold filterAnonymousData; simpl.
  destruct cs as [cs|], al as [al|]; simpl; auto.
Qed.

(** The comments of a filtered issue are the filtered comments. *)
Lemma filterAnonymousData_comments x u :
  comments (filterAnonymousData x u) = map filterComment <$> comments x.
Proof.
  destruct x as [id ti ca st lo rb rn an hi cs al di].
  unfold filterAnonymousData; simpl.
  destruct an, rb as [r|], cs as [cs|], al as [al|]; reflexivity.
Qed.

End AnonymityFilter.

(** C7. For every issue that is anonymous ([isAnonymous] true) or has no
    reporter, and for every caller, the filter puts exactly
    [{_id: null, username: 'Anonymous', email: null}] in the place of the
    reporter; and every comment stays at its position with the username
    of its commenter whenever that username is there and not empty, also
    inside the comment's [user] object. *)
Theorem anonymous_reporter_is_sentinel_comments_keep_names
    (x : Issue) (caller : option User) :
  isAnonymous x = true \/ reportedBy x = None ->
  reportedBy (filterAnonymousData x caller)
    = Some {| rep_id := None; rep_username := "Anonymous"; rep_email := None |} /\
  forall cs, comments x = Some cs ->
    exists cs', comments (filterAnonymousData x caller) = Some cs' /\
      length cs' = length cs /\
      forall (k : nat) (c : Comment) (name : string),
        cs !! k = Some c -> c_username c = Some name -> name <> "" ->
        exists c', cs' !! k = Some c' /\
          c_username c' = Some name /\
          c_content c' = c_content c /\
          forall cu, c_user c = Some cu ->
            c_user c' = Some {| cu_id := cu_id cu; cu_username := Some name |}.
Proof.
  intros Hanon. split.
  - apply (filterAnonymousData_anonymous x caller Hanon).
  - intros cs Hcs. exists (map filterComment cs). split; [|split].
    + rewrite filterAnonymousData_comments, Hcs. reflexivity.
    + apply length_map.
    + intros k c name Hk Hname Hne. exists (filterComment c). split; [|split; [|split]].
      * rewrite list_lookup_fmap_Some. eauto.
      * unfold filterComment; simpl. rewrite Hname. f_equal.
        now apply or_string_keeps.
      * reflexivity.
      * intros cu Hcu. unfold filterComment; simpl. rewrite Hcu, Hname.
        now rewrite or_string_keeps.
Qed.

(** C8. Redaction is idempotent: for every issue and every caller,
    filtering the filtered issue gives the filtered issue. *)
Theorem redaction_is_idempotent (x : Issue) (caller : option User) :
  filterAnonymousData (filterAnonymousData x caller) caller
    = filterAnonymousData x caller.
Proof. apply filterAnonymousData_idem. Qed.

(** ** The single-issue guards *)

Section SingleIssue.
Context {RT : Runtime}.
Variable env : gmap string string.
Variable db : gmap string Issue.

(** The middleware, once an id and both coordinates are there and the
    issue is found with coordinates: it decides on the distance
    alone. *)
Lemma preventOutOfAreaAccess_located req x coords :
  truthy (params req !! "id") = true -> missingLocation req = false ->
  findById db (params req !! "id") = Some x ->
  issueCoordinates x = Some coords ->
  preventOutOfAreaAccess env db req =
    if gt (distanceFrom req coords) (maxAllowedDistance env)
    then NextError outOfAreaFixed else Next req.
Proof.
  unfold missingLocation. intros Hid Hloc Hx Hc.
  apply orb_false_elim in Hloc as [Hlat Hlng].
  apply negb_false_iff in Hlat, Hlng.
  unfold preventOutOfAreaAccess. cbv zeta.
  rewrite Hid, Hlat, Hlng, Hx, Hc. reflexivity.
Qed.

(** Whenever the middleware lets the request through, it leaves it as
    it is; whenever it rejects, it is with the one error it has. *)
Lemma preventOutOfAreaAccess_cases req :
  preventOutOfAreaAccess env db req = Next req \/
  preventOutOfAreaAccess env db req = NextError outOfAreaFixed.
Proof.
  unfold preventOutOfAreaAccess. cbv zeta.
  destruct (truthy (params req !! "id") && truthy (query req !! "latitude") &&
            truthy (query req !! "longitude")); auto.
  destruct (findById db (params req !! "id")) as [x|]; auto.
  destruct (issueCoordinates x) as [coords|]; auto.
  destruct (gt _ _); auto.
Qed.

(** The controller, once the coordinates of the caller are valid and
    the issue is found and may be shown: it decides on the distance
    alone. *)
Lemma getIssue_visible req x coords :
  missingLocation req = false -> invalidLocation req = false ->
  findById db (params req !! "id") = Some x ->
  (isHidden x && negb (isAdmin (req_user req)))%bool = false ->
  issueCoordinates x = Some coords ->
  if gt (distanceFrom req coords) (maxAllowedDistance env)
  then getIssue env db req
       = NextError (mkAppError (outOfAreaMessage (maxAllowedDistance env)) 403)
  else exists shown,
      getIssue env db req
      = Next (mkBody "success" None (Some (mkResponseData None (Some shown))) None) /\
      distance shown = Some (distanceFrom req coords) /\
      _id shown = _id x.
Proof.
  unfold_guards.
  intros Hloc Hval Hx Hvis Hc.
  destruct (gt (distanceFrom req coords) (maxAllowedDistance env)) eqn:Hd;
    unfold getIssue; cbv zeta; rewrite Hloc, Hval, Hx, Hvis, Hc;
    unfold distanceFrom, callerLatitude, callerLongitude in Hd; rewrite Hd.
  - reflexivity.
  - eexists. split; [reflexivity|].
    destruct x as [id ti ca st lo rb rn an hi cs al di]; simpl.
    destruct (an || negb (bool_decide (is_Some rb)))%bool, cs; simpl; auto.
Qed.

(** A hidden issue, for a caller who is not an admin, and an issue
    that is not there: the controller answers the same. *)
Lemma getIssue_hidden req x :
  missingLocation req = false -> invalidLocation req = false ->
  findById db (params req !! "id") = Some x ->
  isHidden x = true -> isAdmin (req_user req) = false ->
  getIssue env db req = NextError notFound.
Proof.
  unfold_guards.
  intros Hloc Hval Hx Hhid Hadm.
  unfold getIssue; cbv zeta. rewrite Hloc, Hval, Hx, Hhid, Hadm. reflexivity.
Qed.

Lemma getIssue_absent req :
  missingLocation req = false -> invalidLocation req = false ->
  findById db (params req !! "id") = None ->
  getIssue env db req = NextError notFound.
Proof.
  unfold_guards.
  intros Hloc Hval Hx.
  unfold getIssue; cbv zeta. rewrite Hloc, Hval, Hx. reflexivity.
Qed.

(** The errors of the controller once the coordinates are valid and
    the issue is found and may be shown: none, or out of area. *)
Lemma getIssue_visible_errors req x e :
  missingLocation req = false -> invalidLocation req = false ->
  findById db (params req !! "id") = Some x ->
  (isHidden x && negb (isAdmin (req_user req)))%bool = false ->
  getIssue env db req = NextError e ->
  e = mkAppError (outOfAreaMessage (maxAllowedDistance env)) 403.
Proof.
  unfold_guards.
  intros Hloc Hval Hx Hvis.
  unfold getIssue; cbv zeta. rewrite Hloc, Hval, Hx, Hvis.
  destruct (issueCoordinates x) as [coords|]; [|discriminate].
  destruct (gt _ _); [congruence|discriminate].
Qed.

End SingleIssue.

(** C10. The out-of-area middleware rejects only when the issue id and
    both coordinates of the caller are in the request and the stored
    issue is found with coordinates (at a distance above the maximum);
    when a coordinate of the caller is absent, or the stored issue has
    no coordinates, it lets the request through as it is. *)
Theorem out_of_area_middleware_rejects_only_located_issues
    {RT : Runtime} (env : gmap string string) (db : gmap string Issue) (req : Request) :
  (forall e, preventOutOfAreaAccess env db req = NextError e ->
     truthy (params req !! "id") = true /\
     truthy (query req !! "latitude") = true /\
     truthy (query req !! "longitude") = true /\
     exists x coords,
       findById db (params req !! "id") = Some x /\
       issueCoordinates x = Some coords /\
       gt (distanceFrom req coords) (maxAllowedDistance env) = true) /\
  (missingLocation req = true \/
   (forall x, findById db (params req !! "id") = Some x -> issueCoordinates x = None) ->
   preventOutOfAreaAccess env db req = Next req).
Proof.
  split.
  - intros e. unfold preventOutOfAreaAccess. cbv zeta.
    destruct (truthy (params req !! "id")); [|discriminate].
    destruct (truthy (query req !! "latitude")); [|discriminate].
    destruct (truthy (query req !! "longitude")); [|discriminate]. simpl.
    destruct (findById db (params req !! "id")) as [x|]; [|discriminate].
    destruct (issueCoordinates x) as [coords|] eqn:Hc; [|discriminate].
    destruct (gt _ _) eqn:Hd; [|discriminate].
    intros _. repeat split; auto. exists x, coords. auto.
  - unfold missingLocation, preventOutOfAreaAccess. cbv zeta. intros [Hmiss|Hnone].
    + destruct (truthy (query req !! "latitude")), (truthy (query req !! "longitude"));
        try discriminate; rewrite ?andb_false_r; reflexivity.
    + destruct (_ && _ && _); [|reflexivity].
      destruct (findById db (params req !! "id")) as [x|]; [|reflexivity].
      now rewrite (Hnone x eq_refl).
Qed.

(** C2, as the code has it. On a request with valid coordinates for a
    hidden issue: a caller who is not an admin (no user, a user, a
    moderator) gets the 404 'Issue not found' that an absent issue gets;
    for an admin the hidden flag blocks nothing, the issue is refused or
    served on its distance alone. *)
Theorem hidden_issue_is_not_found_unless_admin
    {RT : Runtime} (env : gmap string string) (db : gmap string Issue)
    (req : Request) (x : Issue) :
  missingLocation req = false -> invalidLocation req = false ->
  findById db (params req !! "id") = Some x ->
  isHidden x = true ->
  (isAdmin (req_user req) = false ->
     getIssue env db req = NextError (mkAppError "Issue not found" 404) /\
     forall db', findById db' (params req !! "id") = None ->
       getIssue env db' req = getIssue env db req) /\
  (isAdmin (req_user req) = true ->
     forall coords, issueCoordinates x = Some coords ->
       if gt (distanceFrom req coords) (maxAllowedDistance env)
       then getIssue env db req
            = NextError (mkAppError (outOfAreaMessage (maxAllowedDistance env)) 403)
       else exists shown,
           getIssue env db req
           = Next (mkBody "success" None (Some (mkResponseData None (Some shown))) None) /\
           distance shown = Some (distanceFrom req coords) /\
           _id shown = _id x).
Proof.
  intros Hloc Hval Hx Hhid. split.
  - intros Hadm. pose proof (getIssue_hidden env db req x Hloc Hval Hx Hhid Hadm) as E.
    split; [exact E|]. intros db' Hnone. rewrite E.
    now apply getIssue_absent.
  - intros Hadm coords Hc. apply (getIssue_visible env db req x coords); auto.
    now rewrite Hadm, andb_false_r.
Qed.

(** ** The guards of the list and map routes *)

Section Collections.
Context {RT : Runtime}.
Variable env : gmap string string.

(** The configured maximum is a number: what [parseInt] reads when it
    is neither NaN nor zero, and 5 otherwise. *)
Lemma maxAllowedDistance_not_NaN : isNaN (maxAllowedDistance env) = false.
Proof.
  unfold maxAllowedDistance, or_number, truthy_number, isNaN.
  destruct (is_nan (parseInt _)) eqn:E; simpl; [reflexivity|].
  destruct (is_zero (parseInt _)); simpl; [reflexivity|exact E].
Qed.

(** The distance middleware checks the radius first. *)
Lemma enforceDistanceRestrictions_radius req :
  truthy (query req !! "distance") = true ->
  gt (requestedRadius req) (maxAllowedDistance env) = true ->
  enforceDistanceRestrictions env req = NextError (radiusTooLarge env).
Proof.
  unfold requestedRadius. intros Ht Hgt.
  unfold enforceDistanceRestrictions. cbv zeta. now rewrite Ht, Hgt.
Qed.

(** A request the distance middleware lets through with a radius did
    not ask for more than the maximum. *)
Lemma enforceDistanceRestrictions_passed req req' :
  enforceDistanceRestrictions env req = Next req' ->
  truthy (query req !! "distance") = true ->
  gt (requestedRadius req) (maxAllowedDistance env) = false.
Proof.
  unfold requestedRadius, enforceDistanceRestrictions. cbv zeta. intros H Ht.
  rewrite Ht in H. simpl in H. destruct (gt _ _); [discriminate|reflexivity].
Qed.

(** The controllers answer for the coordinates before they build a
    query. *)
Lemma getIssues_valid req :
  missingLocation req = false -> invalidLocation req = false ->
  exists f, getIssues env req = Next f /\
    f_location f
    = Near (callerLongitude req) (callerLatitude req)
        (requestedDistance env req * 1000)%float.
Proof.
  unfold_guards.
  intros Hloc Hval. unfold getIssues. cbv zeta. rewrite Hloc, Hval.
  eexists. split; reflexivity.
Qed.

Lemma getIssues_Next req f :
  getIssues env req = Next f ->
  missingLocation req = false /\ invalidLocation req = false.
Proof.
  unfold_guards.
  unfold getIssues. cbv zeta.
  destruct (negb _ || negb _); [discriminate|].
  destruct (isNaN _ || isNaN _ || outOfRange _ _); [discriminate|]. auto.
Qed.

Lemma getIssues_invalid req :
  missingLocation req = false -> invalidLocation req = true ->
  getIssues env req = NextError invalidCoordinates.
Proof.
  unfold_guards.
  intros Hloc Hval. unfold getIssues. cbv zeta. now rewrite Hloc, Hval.
Qed.

Variable parseBounds : string -> option (number * number * number * number).

Lemma getIssuesForMap_invalid req :
  missingLocation req = false -> invalidLocation req = true ->
  getIssuesForMap env parseBounds req = NextError invalidCoordinates.
Proof.
  unfold_guards.
  intros Hloc Hval. unfold getIssuesForMap. cbv zeta. now rewrite Hloc, Hval.
Qed.

(** When the map query filters on a radius, it is the requested
    distance. *)
Lemma getIssuesForMap_Near req f lng lat m :
  getIssuesForMap env parseBounds req = Next f ->
  f_location f = Near lng lat m ->
  m = (requestedDistance env req * 1000)%float.
Proof.
  unfold getIssuesForMap. cbv zeta.
  destruct (negb _ || negb _); [discriminate|].
  destruct (isNaN _ || isNaN _ || outOfRange _ _); [discriminate|].
  intros [= <-]. simpl.
  destruct (truthy (query req !! "bounds")); [|congruence].
  destruct (parseBounds _) as [[[[n s] e] w]|]; [discriminate|congruence].
Qed.

Lemma getIssue_invalid db req :
  missingLocation req = false -> invalidLocation req = true ->
  getIssue env db req = NextError invalidCoordinates.
Proof.
  unfold_guards.
  intros Hloc Hval. unfold getIssue. cbv zeta. now rewrite Hloc, Hval.
Qed.

End Collections.

(** ** The response filter *)

Section ResponseFilter.
Context {RT : Runtime}.
Variable env : gmap string string.

(** [Array.prototype.filter] keeps a subsequence. *)
Lemma filter_sublist {A} (p : A -> bool) (l : list A) : sublist (List.filter p l) l.
Proof.
  induction l as [|x l IH]; simpl; [constructor|].
  destruct (p x); now constructor.
Qed.


(** An issue without coordinates is dropped. *)
Lemma withinDistance_unlocated req r x :
  issueCoordinates x = None ->
  withinDistance (callerLatitude req) (callerLongitude req) r x = false.
Proof. intros Hc. unfold withinDistance. now rewrite Hc. Qed.

Lemma filterIssuesByDistance_issues req body d l :
  missingLocation req = false ->
  data body = Some d -> issues d = Some l ->
  filterIssuesByDistance env req body
  = let kept :=
      List.filter
        (withinDistance (callerLatitude req) (callerLongitude req) (filterRadius env req))
        l in
    mkBody (body_status body) (Some (length kept))
      (Some (mkResponseData (Some kept) (issue d))) (userLocation body).
Proof.
  unfold missingLocation. intros Hloc Hd Hl.
  apply orb_false_elim in Hloc as [Hlat Hlng].
  apply negb_false_iff in Hlat, Hlng.
  unfold filterIssuesByDistance. cbv zeta. now rewrite Hd, Hl, Hlat, Hlng.
Qed.

End ResponseFilter.


(** ** What holds of the guards besides *)

(** X1. The two guards of a single-issue read decide on the distance: for a
    request with an id and valid coordinates and an issue that is found,
    not hidden and has coordinates, a distance above the maximum is
    rejected by both with status 403 (the controller's message names the
    maximum), and a distance of at most the maximum passes the
    middleware and is served by the controller with that distance. *)
Theorem single_issue_guards_decide_on_distance
    {RT : Runtime} (env : gmap string string) (db : gmap string Issue)
    (req : Request) (x : Issue) (coords : list number) :
  truthy (params req !! "id") = true ->
  missingLocation req = false -> invalidLocation req = false ->
  findById db (params req !! "id") = Some x ->
  isHidden x = false ->
  issueCoordinates x = Some coords ->
  (gt (distanceFrom req coords) (maxAllowedDistance env) = true ->
     (exists e, preventOutOfAreaAccess env db req = NextError e /\ statusCode e = 403%Z) /\
     getIssue env db req
     = NextError
         (mkAppError
            ("This issue is outside your allowed area. You can only access issues within " +:+
             numberToString (maxAllowedDistance env) +:+ "km of your location.") 403)) /\
  (le (distanceFrom req coords) (maxAllowedDistance env) = true ->
     preventOutOfAreaAccess env db req = Next req /\
     exists shown,
       getIssue env db req
       = Next (mkBody "success" None (Some (mkResponseData None (Some shown))) None) /\
       distance shown = Some (distanceFrom req coords) /\
       _id shown = _id x).
Proof.
  intros Hid Hloc Hval Hx Hhid Hc.
  pose proof (preventOutOfAreaAccess_located env db req x coords Hid Hloc Hx Hc) as Hm.
  assert ((isHidden x && negb (isAdmin (req_user req)))%bool = false) as Hvis
    by now rewrite Hhid.
  pose proof (getIssue_visible env db req x coords Hloc Hval Hx Hvis Hc) as Hg.
  split.
  - intros Hd. rewrite Hd in Hm, Hg. split; [|exact Hg].
    exists outOfAreaFixed. now split.
  - intros Hd. apply le_not_gt in Hd. rewrite Hd in Hm, Hg. now split.
Qed.

(** X2. Coordinates that are there but do not read as numbers in the domain
    are rejected with status 400 by the list, map and single-issue
    controllers, whatever the collection holds. *)
Theorem controllers_reject_invalid_coordinates
    {RT : Runtime} (env : gmap string string)
    (parseBounds : string -> option (number * number * number * number))
    (db : gmap string Issue) (req : Request) :
  missingLocation req = false -> invalidLocation req = true ->
  getIssues env req
    = NextError (mkAppError "Invalid location coordinates provided" 400) /\
  getIssuesForMap env parseBounds req
    = NextError (mkAppError "Invalid location coordinates provided" 400) /\
  getIssue env db req
    = NextError (mkAppError "Invalid location coordinates provided" 400).
Proof.
  intros Hloc Hval. repeat split.
  - now apply getIssues_invalid.
  - now apply getIssuesForMap_invalid.
  - now apply getIssue_invalid.
Qed.

(** X3. The distance middleware rejects coordinates out of their domain with
    status 400, once the radius has passed, and attaches to the request
    the coordinates it did not reject. *)
Theorem distance_middleware_rejects_out_of_domain
    {RT : Runtime} (env : gmap string string) (req : Request) :
  missingLocation req = false ->
  (truthy (query req !! "distance")
   && gt (requestedRadius req) (maxAllowedDistance env))%bool = false ->
  enforceDistanceRestrictions env req
  = if outOfRange (callerLatitude req) (callerLongitude req)
    then NextError (mkAppError "Invalid coordinates provided" 400)
    else Next (set_validatedLocation
                 (Some (callerLatitude req, callerLongitude req)) req).
Proof.
  unfold missingLocation, requestedRadius, callerLatitude, callerLongitude.
  intros Hloc Hrad. apply orb_false_elim in Hloc as [Hlat Hlng].
  apply negb_false_iff in Hlat, Hlng.
  unfold enforceDistanceRestrictions. cbv zeta. now rewrite Hrad, Hlat, Hlng.
Qed.

(** X4. For an issue that is not anonymous the filter copies the name of the
    reporter into [reporterName] and leaves the reporter object, with
    every field it has, where it is. *)
Theorem named_reporter_is_left_in_place
    (x : Issue) (caller : option User) (r : Reporter) :
  isAnonymous x = false -> reportedBy x = Some r ->
  reporterName (filterAnonymousData x caller) = Some (rep_username r) /\
  reportedBy (filterAnonymousData x caller) = Some r.
Proof.
  intros Han Hr.
  destruct (filterAnonymousData_named x caller r Han Hr) as (? & ? & ?). auto.
Qed.

(** X5. What [restrictDataAccess] does to an issue is idempotent too. *)
Theorem restrictIssue_is_idempotent (x : Issue) (caller : option User) :
  restrictIssue caller (restrictIssue caller x) = restrictIssue caller x.
Proof.
  assert (forall y r, reportedBy y = Some r ->
            restrictIssue caller y
            = if bool_decide (is_Some (rep_id r)) then
                if negb (isOwner caller r) then filterAnonymousData y caller else y
              else y) as Hstep.
  { intros y r Hy. unfold restrictIssue. now rewrite Hy. }
  destruct (reportedBy x) as [r|] eqn:Hr.
  - rewrite (Hstep x r Hr).
    destruct (bool_decide (is_Some (rep_id r))) eqn:Hid;
      [|now rewrite (Hstep x r Hr), Hid].
    destruct (negb (isOwner caller r)) eqn:Ho;
      [|now rewrite (Hstep x r Hr), Hid, Ho].
    destruct (isAnonymous x) eqn:Han.
    + destruct (filterAnonymousData_anonymous x caller (or_introl Han)) as (Hs & _ & _).
      now rewrite (Hstep _ _ Hs).
    + destruct (filterAnonymousData_named x caller r Han Hr) as (Hs & _ & _).
      rewrite (Hstep _ _ Hs), Hid, Ho. apply filterAnonymousData_idem.
  - assert (restrictIssue caller x = x) as E by (unfold restrictIssue; now rewrite Hr).
    now rewrite !E.
Qed.

(** ** The read routes *)

Section Routes.
Context {RT : Runtime} {V : Validators}.
Variable env : gmap string string.

(** [handleValidationErrors] lets the request through as it is, or
    rejects it with status 400 and the messages of the chains. *)
Lemma handleValidationErrors_cases errorMessages req :
  (errorMessages = [] /\ handleValidationErrors errorMessages req = Next req) \/
  (errorMessages <> [] /\
   handleValidationErrors errorMessages req
   = NextError (mkAppError (String.concat ". " errorMessages) 400)).
Proof. destruct errorMessages; [left|right]; split; (reflexivity || discriminate). Qed.

Lemma validateIssueFilters_cases req :
  validateIssueFilters req = Next req \/
  exists e, validateIssueFilters req = NextError e /\ statusCode e = 400%Z.
Proof.
  unfold validateIssueFilters.
  match goal with
  | |- context [handleValidationErrors ?l req] =>
      destruct (handleValidationErrors_cases l req) as [[_ E]|[_ E]]
  end.
  - left. exact E.
  - right. eexists. split; [exact E|reflexivity].
Qed.

Lemma validateIssueId_cases req :
  validateIssueId req = Next req \/
  validateIssueId req = NextError (mkAppError "Invalid issue ID" 400).
Proof.
  unfold validateIssueId, required.
  destruct (isMongoId _); [left|right]; reflexivity.
Qed.

(** The guard after the validators, on a GET whose path names
    neither [/admin] nor [/stats]. *)
Lemma enforceLocationRestrictions_GET req :
  method req = "GET" ->
  includes (path req) "/admin" = false -> includes (path req) "/stats" = false ->
  enforceLocationRestrictions req
  = if missingLocation req then
      NextError
        (mkAppError
           "Location coordinates (latitude, longitude) are required for security and privacy"
           400)
    else if invalidLocation req then NextError invalidCoordinates
    else Next req.
Proof.
  intros Hm Ha Hs.
  unfold enforceLocationRestrictions, missingLocation, invalidLocation,
    callerLatitude, callerLongitude.
  rewrite Hm, Ha, Hs. reflexivity.
Qed.

(** The guard after it lets through every request that has both
    coordinates. *)
Lemma validateUserLocation_located req :
  missingLocation req = false -> validateUserLocation req = Next req.
Proof.
  unfold missingLocation, validateUserLocation. cbv zeta. intros ->.
  now rewrite andb_false_r.
Qed.

End Routes.

(** X7. On the single-issue route the out-of-area middleware answers before
    the controller: an issue that is found, under an id that
    [validateIssueId] accepts, with coordinates further than the maximum
    is refused with status 403 and the message that names 5 km, whatever
    the configured maximum, the hidden flag of the issue and the role of
    the caller are. *)
Theorem single_issue_route_refuses_far_issue_first
    {RT : Runtime} {V : Validators} (env : gmap string string) (db : gmap string Issue)
    (req : Request) (x : Issue) (coords : list number) :
  validateIssueId req = Next req ->
  method req = "GET" ->
  includes (path req) "/admin" = false -> includes (path req) "/stats" = false ->
  truthy (params req !! "id") = true ->
  missingLocation req = false -> invalidLocation req = false ->
  findById db (params req !! "id") = Some x ->
  issueCoordinates x = Some coords ->
  gt (distanceFrom req coords) (maxAllowedDistance env) = true ->
  issueRoute env db req
  = NextError
      (mkAppError
         "This issue is outside your allowed area. You can only access issues within 5km of your location."
         403).
Proof.
  intros Hv Hm Ha Hs Hid Hloc Hval Hx Hc Hd.
  pose proof (enforceLocationRestrictions_GET req Hm Ha Hs) as E.
  rewrite Hloc, Hval in E.
  unfold issueRoute. rewrite Hv. simpl. rewrite E. simpl.
  rewrite (validateUserLocation_located req Hloc). simpl.
  rewrite (preventOutOfAreaAccess_located env db req x coords Hid Hloc Hx Hc), Hd.
  reflexivity.
Qed.

(** X8. When the [bounds] parameter of a map request parses, the query
    filters on the viewport box and on no radius: the box takes the place
    of the radius filter. *)
Theorem map_query_with_bounds_filters_on_the_box_alone
    {RT : Runtime} (env : gmap string string)
    (parseBounds : string -> option (number * number * number * number))
    (req : Request) (north south east west : number) :
  missingLocation req = false -> invalidLocation req = false ->
  truthy (query req !! "bounds") = true ->
  parseBounds (toString (query req !! "bounds")) = Some (north, south, east, west) ->
  exists f,
    getIssuesForMap env parseBounds req = Next f /\
    f_location f = GeoWithinBox west south east north.
Proof.
  unfold_guards.
  intros Hloc Hval Hb Hp. unfold getIssuesForMap. cbv zeta.
  rewrite Hloc, Hval, Hb, Hp. eexists. split; reflexivity.
Qed.

(** * The rest of the code: properties *)

(** ** More on the comparisons of numbers *)

Section Comparisons2.

(** A number that is NaN is the NaN of the specification. *)
Lemma isNaN_true x : isNaN x = true -> Prim2SF x = S754_nan.
Proof.
  unfold isNaN, PrimFloat.is_nan. rewrite FloatAxioms.eqb_spec. unfold SFeqb.
  destruct (Prim2SF x) as [s|s| |s m e]; simpl; try discriminate; try reflexivity.
  - destruct s; discriminate.
  - rewrite Z.compare_refl.
    change (Pos.compare_cont Eq m m) with (Pos.compare m m).
    rewrite Pos.compare_refl. destruct s; discriminate.
Qed.

(** Every comparison with NaN is false. *)
Lemma le_NaN_l x y : isNaN x = true -> le x y = false.
Proof.
  intros H. apply isNaN_true in H. unfold le. rewrite leb_spec. unfold SFleb.
  now rewrite H.
Qed.

Lemma le_NaN_r x y : isNaN y = true -> le x y = false.
Proof.
  intros H. apply isNaN_true in H. unfold le. rewrite leb_spec. unfold SFleb.
  rewrite H. destruct (Prim2SF x); reflexivity.
Qed.

Lemma lt_NaN_l x y : isNaN x = true -> lt x y = false.
Proof.
  intros H. apply isNaN_true in H. unfold lt. rewrite ltb_spec. unfold SFltb.
  now rewrite H.
Qed.

Lemma lt_NaN_r x y : isNaN y = true -> lt x y = false.
Proof.
  intros H. apply isNaN_true in H. unfold lt. rewrite ltb_spec. unfold SFltb.
  rewrite H. destruct (Prim2SF x); reflexivity.
Qed.

Lemma le_not_NaN x y : le x y = true -> isNaN x = false /\ isNaN y = false.
Proof.
  intros H. split.
  - destruct (isNaN x) eqn:E; [|reflexivity]. now rewrite (le_NaN_l x y E) in H.
  - destruct (isNaN y) eqn:E; [|reflexivity]. now rewrite (le_NaN_r x y E) in H.
Qed.

(** [a < b] is [!(b <= a)] between numbers. *)
Lemma lt_is_not_le a b : isNaN a = false -> isNaN b = false -> lt a b = negb (le b a).
Proof. intros Ha Hb. exact (gt_or_le b a Hb Ha). Qed.

(** The order of the specification is transitive. *)
Lemma SFleb_trans x y z : SFleb x y = true -> SFleb y z = true -> SFleb x z = true.
Proof.
  unfold SFleb.
  destruct x as [sx|sx| |sx mx ex], y as [sy|sy| |sy my ey], z as [sz|sz| |sz mz ez];
    simpl; try discriminate; try reflexivity;
    try (destruct sx, sy, sz; simpl; congruence).
  destruct sx, sy, sz; simpl; try congruence;
    change (Pos.compare_cont Eq mx my) with (Pos.compare mx my);
    change (Pos.compare_cont Eq my mz) with (Pos.compare my mz);
    change (Pos.compare_cont Eq mx mz) with (Pos.compare mx mz);
    destruct (Z.compare_spec ex ey), (Z.compare_spec ey ez), (Z.compare_spec ex ez);
    try lia; simpl; try congruence;
    destruct (Pos.compare_spec mx my), (Pos.compare_spec my mz), (Pos.compare_spec mx mz);
    try lia; simpl; congruence.
Qed.

Lemma le_trans a b c : le a b = true -> le b c = true -> le a c = true.
Proof. unfold le. rewrite !leb_spec. apply SFleb_trans. Qed.

(** The bounds the guards compare with are numbers. *)
Lemma bounds_not_NaN :
  isNaN (-90)%float = false /\ isNaN 90%float = false /\
  isNaN (-180)%float = false /\ isNaN 180%float = false.
Proof. repeat apply conj; reflexivity. Qed.

(** A number in the domain of a coordinate is not out of range, and a
    number that is not NaN and not out of range is in the domain. *)
Lemma within_iff_not_outside lo hi x :
  isNaN lo = false -> isNaN hi = false ->
  le lo x && le x hi = negb (isNaN x || lt x lo || gt x hi).
Proof.
  intros Hlo Hhi. destruct (isNaN x) eqn:Hx.
  - now rewrite (le_NaN_r lo x Hx).
  - rewrite (lt_is_not_le x lo Hx Hlo), (gt_or_le x hi Hx Hhi). simpl.
    now destruct (le lo x), (le x hi).
Qed.

End Comparisons2.

(** ** The geographic helpers *)

Section GeoHelpers.
Context {RT : Runtime}.

Lemma validateCoordinates_spec lat lng :
  validateCoordinates lat lng = negb (isNaN lat || isNaN lng || outOfRange lat lng).
Proof.
  destruct bounds_not_NaN as (H1 & H2 & H3 & H4).
  unfold validateCoordinates, outOfRange.
  rewrite <- andb_assoc.
  rewrite (within_iff_not_outside _ _ lat H1 H2), (within_iff_not_outside _ _ lng H3 H4).
  destruct (isNaN lat), (isNaN lng), (lt lat _), (gt lat _), (lt lng _), (gt lng _);
    reflexivity.
Qed.

(** [split] returns one piece more than there are separators. *)
Lemma split_not_nil sep s : Value.split sep s <> [].
Proof.
  destruct s as [|c r]; simpl; [discriminate|].
  destruct (Ascii.eqb c sep); [discriminate|].
  destruct (Value.split sep r); discriminate.
Qed.

Lemma reduceSum_no_error read locations sum e :
  (forall loc e', read loc <> NextError e') ->
  Geo.reduceSum read locations sum <> NextError e.
Proof.
  intros Hread. revert sum. induction locations as [|loc rest IH]; intros sum; simpl.
  - discriminate.
  - destruct (read loc) as [v|e'|] eqn:E; simpl.
    + apply IH.
    + now apply Hread in E.
    + discriminate.
Qed.

Lemma reduceSum_throws read locations sum loc :
  In loc locations -> read loc = Throws ->
  (forall loc' e, read loc' <> NextError e) ->
  Geo.reduceSum read locations sum = Throws.
Proof.
  intros Hin Hloc Hread. revert sum.
  induction locations as [|loc' rest IH]; intros sum; simpl; [contradiction|].
  destruct Hin as [->|Hin].
  - now rewrite Hloc.
  - destruct (read loc') as [v|e|] eqn:E; simpl.
    + now apply IH.
    + now apply Hread in E.
    + reflexivity.
Qed.

Lemma latitudeOf_no_error loc e : Geo.latitudeOf loc <> NextError e.
Proof.
  unfold Geo.latitudeOf. destruct (Geo.truthy_field _); [discriminate|].
  destruct (Geo.p_coordinates loc); discriminate.
Qed.

Lemma longitudeOf_no_error loc e : Geo.longitudeOf loc <> NextError e.
Proof.
  unfold Geo.longitudeOf. destruct (Geo.truthy_field _); [discriminate|].
  destruct (Geo.p_coordinates loc); discriminate.
Qed.

(** The validator of the schema reads an array [[lng, lat]] as
    [validateCoordinates] reads the pair. *)
Lemma validateCoordinates_accepts_the_same lat lng :
  validateCoordinates lat lng = negb (isNaN lat || isNaN lng || outOfRange lat lng) /\
  IssueSchema.coordinatesValidator [lng; lat] = validateCoordinates lat lng.
Proof.
  split; [apply validateCoordinates_spec|].
  unfold IssueSchema.coordinatesValidator, IssueSchema.ge, validateCoordinates, coord.
  simpl. now destruct (le (-180)%float lng), (le lng 180%float), (le (-90)%float lat), (le lat 90%float).
Qed.

End GeoHelpers.

(** X9. [validateCoordinates] accepts exactly the coordinates that the
    guards of the controllers and of [enforceLocationRestrictions] do
    not reject: numbers that are not NaN and lie in [-90, 90] and
    [-180, 180]; and the validator of the schema accepts an array
    exactly when it holds two elements [[lng, lat]] that
    [validateCoordinates] accepts. *)
Theorem validateCoordinates_accepts_what_the_guards_accept (lat lng : number) :
  validateCoordinates lat lng = negb (isNaN lat || isNaN lng || outOfRange lat lng) /\
  IssueSchema.coordinatesValidator [lng; lat] = validateCoordinates lat lng /\
  forall coords, IssueSchema.coordinatesValidator coords = true -> length coords = 2%nat.
Proof.
  destruct (validateCoordinates_accepts_the_same lat lng) as [Hspec Hschema].
  split; [exact Hspec|split; [exact Hschema|]].
  intros coords. unfold IssueSchema.coordinatesValidator.
    destruct (Nat.eqb_spec (length coords) 2); [auto|discriminate].
Qed.

(** X10. [parseLocationString] returns coordinates only for a string
    that has exactly one comma, and then the two parts read as numbers
    that are not NaN and are in the domain of a latitude and of a
    longitude; for anything else, and for an argument that is not a
    string, it returns [null]. *)
Theorem parseLocationString_returns_valid_coordinates_or_null
    {RT : Runtime} (trim : string -> string) (locationString : param) :
  (forall lat lng,
     Geo.parseLocationString trim locationString = Some (lat, lng) ->
     exists text first second,
       locationString = Some text /\
       Value.split "," text = [first; second] /\
       lat = parseFloat (trim first) /\ lng = parseFloat (trim second) /\
       isNaN lat = false /\ isNaN lng = false /\ outOfRange lat lng = false) /\
  (forall text,
     locationString = Some text -> length (Value.split "," text) <> 2%nat ->
     Geo.parseLocationString trim locationString = None) /\
  (locationString = None -> Geo.parseLocationString trim locationString = None).
Proof.
  split; [|split].
  - intros lat lng. unfold Geo.parseLocationString.
    destruct locationString as [text|]; [|discriminate]. cbv zeta.
    rewrite length_map.
    destruct (Nat.eqb_spec (length (Value.split "," text)) 2) as [Hlen|]; [|discriminate].
    destruct (Value.split "," text) as [|first [|second [|]]] eqn:Hs; try discriminate.
    simpl. unfold coord; simpl.
    destruct (validateCoordinates _ _) eqn:Hv; [|discriminate].
    intros [= <- <-]. rewrite validateCoordinates_spec in Hv.
    apply negb_true_iff in Hv.
    apply orb_false_elim in Hv as [Hv Hout]. apply orb_false_elim in Hv as [Hlat Hlng].
    exists text, first, second. repeat split; auto.
  - intros text -> Hlen. unfold Geo.parseLocationString. cbv zeta. rewrite length_map.
    destruct (Nat.eqb_spec (length (Value.split "," text)) 2); [contradiction|reflexivity].
  - now intros ->.
Qed.

(** X11. [calculateCenterPoint] returns [null] for no list and for an
    empty one; and it throws as soon as one location gives its latitude
    or its longitude as a value that is falsy (0, NaN or nothing at all)
    and has no [coordinates] array to read instead, as a point on the
    equator or on the prime meridian does. *)
Theorem calculateCenterPoint_throws_on_falsy_coordinate
    (locations : list Geo.Place) (loc : Geo.Place) :
  Geo.calculateCenterPoint None = Next None /\
  Geo.calculateCenterPoint (Some []) = Next None /\
  (In loc locations ->
   Geo.truthy_field (Geo.p_latitude loc) = false \/
   Geo.truthy_field (Geo.p_longitude loc) = false ->
   Geo.p_coordinates loc = None ->
   Geo.calculateCenterPoint (Some locations) = Throws).
Proof.
  split; [reflexivity|split; [reflexivity|]].
  intros Hin Hfalsy Hnone.
  assert (Geo.calculateCenterPoint (Some locations)
          = andThen (Geo.reduceSum Geo.latitudeOf locations 0%float) (fun totalLat =>
            andThen (Geo.reduceSum Geo.longitudeOf locations 0%float) (fun totalLon =>
            Next (Some ((totalLat / lengthOf locations)%float,
                        (totalLon / lengthOf locations)%float))))) as ->.
  { destruct locations; [contradiction|reflexivity]. }
  destruct (Geo.reduceSum Geo.latitudeOf locations 0%float) as [totalLat|e|] eqn:Hlat.
  - assert (Geo.reduceSum Geo.longitudeOf locations 0%float = Throws) as ->; [|reflexivity].
    apply (reduceSum_throws Geo.longitudeOf locations _ loc Hin); [|apply longitudeOf_no_error].
    destruct Hfalsy as [Hf|Hf].
    + exfalso.
      rewrite (reduceSum_throws Geo.latitudeOf locations _ loc Hin) in Hlat;
        [discriminate| |apply latitudeOf_no_error].
      unfold Geo.latitudeOf. now rewrite Hf, Hnone.
    + unfold Geo.longitudeOf. now rewrite Hf, Hnone.
  - now apply reduceSum_no_error in Hlat; [|apply latitudeOf_no_error].
  - reflexivity.
Qed.

(** ** The response filters together *)

Section ResponseFilters.
Context {RT : Runtime}.
Variable env : gmap string string.

(** The radius of the response filter, when it is a number, is at most
    the configured maximum. *)
Lemma filterRadius_le_max req :
  isNaN (filterRadius env req) = false ->
  le (filterRadius env req) (maxAllowedDistance env) = true.
Proof.
  unfold filterRadius. cbv zeta.
  set (a := parseFloat _). intros Hmin.
  pose proof (maxAllowedDistance_not_NaN env) as Hmax.
  destruct (isNaN a) eqn:Ha.
  - rewrite Math_min_NaN in Hmin by now rewrite Ha. discriminate.
  - apply (Math_min_spec a _ Ha Hmax).
Qed.

(** An issue the filter keeps has coordinates, and its distance is at
    most the radius. *)
Lemma withinDistance_true lat lng r x :
  withinDistance lat lng r x = true ->
  exists coords, issueCoordinates x = Some coords /\
    le (calculateDistance lat lng (coord coords 1) (coord coords 0)) r = true.
Proof.
  unfold withinDistance. destruct (issueCoordinates x) as [coords|]; [|discriminate].
  intros H. now exists coords.
Qed.

Lemma filter_idem {A} (p : A -> bool) (l : list A) :
  List.filter p (List.filter p l) = List.filter p l.
Proof.
  induction l as [|x l IH]; simpl; [reflexivity|].
  destruct (p x) eqn:E; simpl; [rewrite E|]; now rewrite ?IH.
Qed.

(** Neither the anonymity filter nor the distance touches what the
    other reads. *)
Lemma issueCoordinates_filterAnonymousData x u :
  issueCoordinates (filterAnonymousData x u) = issueCoordinates x.
Proof.
  destruct x as [id ti ca st lo rb rn an hi cs al di].
  unfold filterAnonymousData; simpl.
  destruct an, rb as [r|], cs as [cs|], al as [al|]; reflexivity.
Qed.

Lemma withDistance_filterAnonymousData lat lng x u :
  withDistance lat lng (filterAnonymousData x u)
  = filterAnonymousData (withDistance lat lng x) u.
Proof.
  unfold withDistance. rewrite issueCoordinates_filterAnonymousData.
  destruct (issueCoordinates x) as [coords|]; [|reflexivity].
  destruct x as [id ti ca st lo rb rn an hi cs al di].
  unfold filterAnonymousData; simpl.
  destruct an, rb as [r|], cs as [cs|], al as [al|]; reflexivity.
Qed.

Lemma issueCoordinates_withDistance lat lng x :
  issueCoordinates (withDistance lat lng x) = issueCoordinates x.
Proof.
  unfold withDistance. destruct (issueCoordinates x) eqn:E; [|exact E].
  destruct x; exact E.
Qed.

Lemma withDistance_idem lat lng x :
  withDistance lat lng (withDistance lat lng x) = withDistance lat lng x.
Proof.
  unfold withDistance at 1. rewrite issueCoordinates_withDistance.
  unfold withDistance. destruct (issueCoordinates x); [|reflexivity].
  now destruct x.
Qed.

Lemma map_map_ext {A} (f g : A -> A) (l : list A) :
  (forall x, f (g x) = g (f x)) -> map f (map g l) = map g (map f l).
Proof.
  intros H. induction l as [|x l IH]; simpl; [reflexivity|]. now rewrite H, IH.
Qed.

Lemma filterMultipleIssues_idem l u :
  filterMultipleIssues (filterMultipleIssues l u) u = filterMultipleIssues l u.
Proof.
  unfold filterMultipleIssues. rewrite map_map. apply map_ext.
  intros x. apply filterAnonymousData_idem.
Qed.

Lemma filterMultipleIssues_withDistance lat lng l u :
  filterMultipleIssues (map (withDistance lat lng) l) u
  = map (withDistance lat lng) (filterMultipleIssues l u).
Proof.
  unfold filterMultipleIssues. rewrite !map_map. apply map_ext.
  intros x. symmetry. apply withDistance_filterAnonymousData.
Qed.

End ResponseFilters.

(** X12. Whatever the [distance] parameter of the request says, every
    issue that [filterIssuesByDistance] leaves in the response has
    coordinates and lies at a distance from the caller that is at most
    the configured maximum. *)
Theorem kept_issues_are_within_the_configured_maximum
    {RT : Runtime} (env : gmap string string) (req : Request)
    (body : Body) (d : ResponseData) (l : list Issue) :
  missingLocation req = false ->
  data body = Some d -> issues d = Some l ->
  exists kept,
    filterIssuesByDistance env req body
    = mkBody (body_status body) (Some (length kept))
        (Some (mkResponseData (Some kept) (issue d))) (userLocation body) /\
    forall x, In x kept ->
      In x l /\
      exists coords, issueCoordinates x = Some coords /\
        le (distanceFrom req coords) (maxAllowedDistance env) = true.
Proof.
  intros Hloc Hd Hl.
  rewrite (filterIssuesByDistance_issues env req body d l Hloc Hd Hl). cbv zeta.
  eexists. split; [reflexivity|].
  intros x Hx. apply List.filter_In in Hx as [Hin Hx]. split; [exact Hin|].
  apply withinDistance_true in Hx as (coords & Hc & Hle).
  exists coords. split; [exact Hc|].
  apply (le_trans _ _ _ Hle). apply filterRadius_le_max.
  now apply le_not_NaN in Hle.
Qed.

(** X13. Each of the three replacements of [res.json] that shape a
    response can run twice without changing what the first run gave:
    [filterIssuesByDistance], [addDistanceInfo] and
    [applyAnonymousFiltering] are idempotent on every body. *)
Theorem response_filters_are_idempotent
    {RT : Runtime} (env : gmap string string) (req : Request) (body : Body) :
  filterIssuesByDistance env req (filterIssuesByDistance env req body)
    = filterIssuesByDistance env req body /\
  addDistanceInfo env req (addDistanceInfo env req body) = addDistanceInfo env req body /\
  applyAnonymousFiltering req (applyAnonymousFiltering req body)
    = applyAnonymousFiltering req body.
Proof.
  destruct body as [st rs [[xs i]|] ul]; repeat apply conj.
  - unfold filterIssuesByDistance; cbv zeta; simpl.
    destruct xs as [l|]; simpl; [|reflexivity].
    destruct (truthy (query req !! "latitude") && truthy (query req !! "longitude")) eqn:E;
      simpl; [|reflexivity].
    now rewrite filter_idem.
  - unfold addDistanceInfo; cbv zeta; simpl.
    destruct (truthy (query req !! "latitude") && truthy (query req !! "longitude")) eqn:E;
      simpl; [|reflexivity].
    rewrite ?E. do 2 f_equal. f_equal.
    + destruct xs as [l|]; simpl; [|reflexivity]. f_equal.
      rewrite map_map. apply map_ext. intros x. apply withDistance_idem.
    + destruct i as [x|]; simpl; [|reflexivity]. f_equal. apply withDistance_idem.
  - unfold applyAnonymousFiltering; simpl.
    destruct xs as [l|]; simpl.
    + now rewrite filterMultipleIssues_idem.
    + destruct i as [x|]; simpl; [|reflexivity].
      now rewrite filterAnonymousData_idem.
  - reflexivity.
  - reflexivity.
  - reflexivity.
Qed.

(** X14. The two replacements of [res.json] on the read routes do not
    depend on their order: attaching the distances and then filtering
    for anonymity gives the same response as filtering first and
    attaching the distances afterwards. *)
Theorem distance_info_and_anonymity_filter_commute
    {RT : Runtime} (env : gmap string string) (req : Request) (body : Body) :
  applyAnonymousFiltering req (addDistanceInfo env req body)
  = addDistanceInfo env req (applyAnonymousFiltering req body).
Proof.
  destruct body as [st rs [[xs i]|] ul]; [|reflexivity].
  unfold addDistanceInfo, applyAnonymousFiltering; cbv zeta; simpl.
  destruct (truthy (query req !! "latitude") && truthy (query req !! "longitude")) eqn:E.
  - destruct xs as [l|]; simpl.
    + now rewrite ?E, filterMultipleIssues_withDistance.
    + destruct i as [x|]; simpl; rewrite ?E; [|reflexivity].
      now rewrite withDistance_filterAnonymousData.
  - destruct xs as [l|]; simpl; [now rewrite ?E|].
    destruct i as [x|]; simpl; now rewrite ?E.
Qed.

(** ** The guard of issue creation *)

Section Creation.
Context {RT : Runtime}.

(** The guard on [POST /], spelled out. *)
Lemma enforceLocationRestrictions_POST req :
  method req = "POST" -> path req = "/" ->
  enforceLocationRestrictions req
  = match body_location req with
    | None =>
        NextError (mkAppError "Location coordinates are required for issue reporting" 400)
    | Some loc =>
        match coordinates loc with
        | None =>
            NextError (mkAppError "Location coordinates are required for issue reporting" 400)
        | Some coords =>
            if outOfRange (coord coords 1) (coord coords 0)
            then NextError (mkAppError "Invalid location coordinates provided" 400)
            else Next req
        end
    end.
Proof.
  intros Hm Hp. unfold enforceLocationRestrictions. rewrite Hm, Hp. simpl.
  destruct (body_location req) as [loc|]; [|reflexivity].
  destruct (coordinates loc) as [coords|]; [|reflexivity].
  now destruct (outOfRange _ _).
Qed.

End Creation.

(** X15. On [POST /] the guard [enforceLocationRestrictions] lets
    through every location whose coordinates the validator of the schema
    accepts; what it lets through has a [coordinates] array none of
    whose first two elements compares as out of range, which an element
    that is missing or NaN never does. *)
Theorem creation_guard_accepts_what_the_schema_accepts
    {RT : Runtime} (req : Request) :
  method req = "POST" -> path req = "/" ->
  (forall loc coords,
     body_location req = Some loc -> coordinates loc = Some coords ->
     IssueSchema.coordinatesValidator coords = true ->
     enforceLocationRestrictions req = Next req) /\
  (forall loc coords,
     body_location req = Some loc -> coordinates loc = Some coords ->
     isNaN (coord coords 0) = true -> isNaN (coord coords 1) = true ->
     enforceLocationRestrictions req = Next req /\
     IssueSchema.coordinatesValidator coords = false) /\
  (forall req',
     enforceLocationRestrictions req = Next req' ->
     req' = req /\
     exists loc coords,
       body_location req = Some loc /\ coordinates loc = Some coords /\
       outOfRange (coord coords 1) (coord coords 0) = false).
Proof.
  intros Hm Hp. pose proof (enforceLocationRestrictions_POST req Hm Hp) as E.
  split; [|split].
  - intros loc coords Hl Hc Hv. rewrite E, Hl, Hc.
    destruct coords as [|lng [|lat [|]]]; try discriminate.
    destruct (validateCoordinates_accepts_the_same lat lng) as [Hspec Hschema].
    rewrite Hschema, Hspec in Hv. apply negb_true_iff in Hv.
    apply orb_false_elim in Hv as [_ Hout]. unfold coord; simpl. now rewrite Hout.
  - intros loc coords Hl Hc H0 H1. rewrite E, Hl, Hc. split.
    + unfold outOfRange, gt.
      rewrite (lt_NaN_l _ _ H1), (lt_NaN_r _ _ H1), (lt_NaN_l _ _ H0), (lt_NaN_r _ _ H0).
      reflexivity.
    + unfold IssueSchema.coordinatesValidator, IssueSchema.ge.
      rewrite (le_NaN_r _ _ H0). destruct (Nat.eqb _ _); reflexivity.
  - intros req'. rewrite E.
    destruct (body_location req) as [loc|] eqn:Hl; [|discriminate].
    destruct (coordinates loc) as [coords|] eqn:Hc; [|discriminate].
    destruct (outOfRange _ _) eqn:Hout; [discriminate|].
    intros [= <-]. split; [reflexivity|]. exists loc, coords. auto.
Qed.

(** ** Reporting an issue *)

Section ReportingAnIssue.

Lemma get_insert (o : object) k v : get (<[ k := v ]> o) k = v.
Proof. unfold get. now rewrite lookup_insert_eq. Qed.

Lemma get_insert_ne (o : object) k k' v : k <> k' -> get (<[ k := v ]> o) k' = get o k'.
Proof. intros H. unfold get. now rewrite lookup_insert_ne. Qed.

(** A default for [undefined] changes no truth value. *)
Lemma truthy_withDefault_false v :
  truthy_value (withDefault (VBool false) v) = truthy_value v.
Proof. now destruct v. Qed.

Lemma is_true_truthy v : is_true v = true -> v = VBool true.
Proof. destruct v as [| |[]| | |]; simpl; congruence. Qed.

(** [createIssue] reads the body through its properties only. *)
Lemma createIssue_ext req body body' uploads :
  (forall k, get body k = get body' k) ->
  Reporting.createIssue req body uploads = Reporting.createIssue req body' uploads.
Proof.
  intros H. unfold Reporting.createIssue. now rewrite !H.
Qed.

(** What [createIssue] decides on: whether the request has a user who
    did not ask for anonymity. *)
Lemma createIssue_named req body uploads c :
  Reporting.createIssue req body uploads = Next c ->
  let named :=
    bool_decide (is_Some (req_user req)) && negb (truthy_value (get body "isAnonymous")) in
  Reporting.i_isAnonymous (Reporting.issueData c) = negb named /\
  Reporting.i_reportedBy (Reporting.issueData c)
    = (if named then user_id <$> req_user req else None) /\
  Reporting.logActor c = user_id <$> req_user req /\
  Reporting.logActorName c = from_option user_username "Anonymous" (req_user req) /\
  Reporting.countsForUser c = named.
Proof.
  unfold Reporting.createIssue. cbv zeta. rewrite truthy_withDefault_false.
  destruct uploads as [uploadResults|]; [|discriminate].
  intros [= <-]. simpl.
  destruct (bool_decide _ && negb _); simpl; repeat split; auto;
    destruct (req_user req); reflexivity.
Qed.

End ReportingAnIssue.

(** X16. An issue is created with a reporter exactly when it is created
    as not anonymous: [createIssue] stores the id of the user of the
    request as [reportedBy] when there is a user and [isAnonymous] of the
    body is falsy, and otherwise stores no reporter and [isAnonymous]
    true, so that a request without a user always reports anonymously.
    [validateAnonymousReporting] in front of it changes nothing of what
    [createIssue] does. *)
Theorem issue_has_a_reporter_exactly_when_not_anonymous
    (req : Request) (body : object) (uploads : option (list (object * Z)))
    (c : Reporting.Creation) :
  Reporting.createIssue req body uploads = Next c ->
  (Reporting.i_reportedBy (Reporting.issueData c) = None
   <-> Reporting.i_isAnonymous (Reporting.issueData c) = true) /\
  (forall id,
     Reporting.i_reportedBy (Reporting.issueData c) = Some id
     <-> user_id <$> req_user req = Some id /\
         truthy_value (get body "isAnonymous") = false) /\
  (req_user req = None -> Reporting.i_isAnonymous (Reporting.issueData c) = true) /\
  Reporting.createIssue req
    (Reporting.validateAnonymousReporting (req_user req) body) uploads = Next c.
Proof.
  intros Hc. pose proof (createIssue_named req body uploads c Hc) as (Ha & Hr & _).
  cbv zeta in Ha, Hr. split; [|split; [|split]].
  - rewrite Ha, Hr.
    destruct (req_user req) as [u|]; simpl; [|tauto].
    destruct (truthy_value _); simpl; split; congruence.
  - intros id. rewrite Hr.
    destruct (req_user req) as [u|]; simpl.
    + destruct (truthy_value _); simpl; split; [discriminate|intros []; discriminate|tauto|tauto].
    + split; [discriminate|intros []; discriminate].
  - intros Hu. rewrite Ha, Hu. reflexivity.
  - rewrite <- Hc. unfold Reporting.validateAnonymousReporting. cbv zeta.
    destruct (req_user req) as [u|] eqn:Hu; simpl.
    + destruct (is_true (get body "isAnonymous")) eqn:Ht; simpl; [|reflexivity].
      apply createIssue_ext. intros k.
      destruct (decide ("isAnonymous" = k)) as [<-|Hk].
      * rewrite get_insert. symmetry. now apply is_true_truthy.
      * now rewrite get_insert_ne.
    + destruct (is_true (get body "isAnonymous")) eqn:Ht; simpl; [reflexivity|].
      unfold Reporting.createIssue. cbv zeta.
      rewrite !get_insert, !get_insert_ne by discriminate.
      rewrite Hu. simpl. destruct uploads; reflexivity.
Qed.

(** X17. When a user who is logged in reports anonymously, the issue is
    stored without a reporter, but the first entry that [createIssue]
    writes to its activity log carries the id of the user as [actor] and
    the username as [actorName]; and the anonymity filter hands both on,
    as the [actorName] and the [actor] of the entry it returns. *)
Theorem anonymous_report_is_logged_under_the_name_of_its_author
    (req : Request) (body : object) (uploads : option (list (object * Z)))
    (c : Reporting.Creation) (u : User) (now : Z) (d : IssueModel.Document) :
  req_user req = Some u ->
  truthy_value (get body "isAnonymous") = true ->
  user_username u <> "" ->
  Reporting.createIssue req body uploads = Next c ->
  Reporting.i_isAnonymous (Reporting.issueData c) = true /\
  Reporting.i_reportedBy (Reporting.issueData c) = None /\
  exists entry,
    IssueModel.d_activityLog
      (IssueModel.addActivityLog now "Created" "Issue reported"
         (Reporting.logActor c) (Some (Reporting.logActorName c)) d)
    = (IssueModel.d_activityLog d ++ [entry])%list /\
    l_action entry = "Created" /\
    l_actorName (filterLog entry) = Some (user_username u) /\
    l_actor (filterLog entry)
    = Some {| act_id := Some (user_id u); act_username := Some (user_username u) |}.
Proof.
  intros Hu Hanon Hname Hc.
  pose proof (createIssue_named req body uploads c Hc) as (Ha & Hr & Hl & Hn & _).
  cbv zeta in Ha, Hr. rewrite Hanon, andb_false_r in Ha, Hr.
  rewrite Hu in Hl, Hn. simpl in Hl, Hn.
  split; [exact Ha|split; [exact Hr|]].
  eexists. split; [reflexivity|]. rewrite Hl, Hn. simpl.
  unfold filterLog; simpl. rewrite (or_string_keeps _ _ Hname). auto.
Qed.

(** X18. An image that [createIssue] records for an uploaded file has
    no [url]: [createIssue] reads [secure_url] from what
    [uploadToCloudinary] returned, and that object holds the address
    under [url] and has no [secure_url]. *)
Theorem image_of_an_upload_has_no_url
    (req : Request) (body : object) (uploadResults : list (object * Z))
    (c : Reporting.Creation) :
  Forall (fun upload =>
            exists response,
              CloudinaryService.uploadToCloudinary (Some response) = Some (fst upload))
    uploadResults ->
  Reporting.createIssue req body (Some uploadResults) = Next c ->
  length (Reporting.i_images (Reporting.issueData c)) = length uploadResults /\
  Forall (fun image => Reporting.img_url image = VUndefined)
    (Reporting.i_images (Reporting.issueData c)) /\
  forall response result,
    CloudinaryService.uploadToCloudinary (Some response) = Some result ->
    get result "url" = get response "secure_url" /\
    get result "public_id" = get response "public_id" /\
    get result "secure_url" = VUndefined.
Proof.
  assert (forall response result,
            CloudinaryService.uploadToCloudinary (Some response) = Some result ->
            get result "url" = get response "secure_url" /\
            get result "public_id" = get response "public_id" /\
            get result "secure_url" = VUndefined) as Hupload.
  { intros response result [= <-]. split; [|split].
    - apply get_insert.
    - rewrite get_insert_ne by discriminate. apply get_insert.
    - now rewrite !get_insert_ne by discriminate. }
  intros Hall. unfold Reporting.createIssue. cbv zeta. intros [= <-]. simpl.
  split; [apply length_map|split; [|exact Hupload]].
  apply Forall_map. eapply Forall_impl; [exact Hall|].
  intros [result now] [response Hr]. simpl in *.
  now apply Hupload in Hr.
Qed.

(** X19. For a caller who is not an admin, [sanitizeUserData] removes
    [password] and the four token fields from the user object and keeps
    every other property, except that [email] becomes [null] when
    [isAnonymous] of the user is truthy; for an admin it removes
    nothing. *)
Theorem sanitizeUserData_removes_the_secrets_for_non_admins
    (caller : option User) (user : object) :
  let secrets :=
    ["password"; "passwordResetToken"; "passwordResetExpires";
     "emailVerificationToken"; "emailVerificationExpires"] in
  (isAdmin caller = false ->
   forall k, In k secrets -> Reporting.sanitizeUserData caller user !! k = None) /\
  (forall k, (isAdmin caller = false -> ~ In k secrets) -> k <> "email" ->
     Reporting.sanitizeUserData caller user !! k = user !! k) /\
  Reporting.sanitizeUserData caller user !! "email"
  = if truthy_value (get user "isAnonymous") then Some VNull else user !! "email".
Proof.
  cbv zeta.
  assert (forall k, k <> "password" -> k <> "passwordResetToken" ->
            k <> "passwordResetExpires" -> k <> "emailVerificationToken" ->
            k <> "emailVerificationExpires" ->
            delete "emailVerificationExpires"
              (delete "emailVerificationToken"
                 (delete "passwordResetExpires"
                    (delete "passwordResetToken" (delete "password" user)))) !! k
            = user !! k) as Hkeep.
  { intros k H1 H2 H3 H4 H5. now rewrite !lookup_delete_ne by congruence. }
  unfold Reporting.sanitizeUserData. cbv zeta.
  split; [|split].
  - intros Hadm k Hk. rewrite Hadm. simpl negb. cbv iota.
    set (stripped := delete _ _).
    assert (stripped !! k = None) as Hnone.
    { subst stripped. simpl in Hk.
      destruct Hk as [<-|[<-|[<-|[<-|[<-|[]]]]]];
        rewrite ?lookup_delete_eq; try reflexivity;
        repeat (rewrite lookup_delete_ne by discriminate; rewrite ?lookup_delete_eq);
        reflexivity. }
    destruct (truthy_value (get stripped "isAnonymous")); [|exact Hnone].
    rewrite lookup_insert_ne; [exact Hnone|].
    simpl in Hk. destruct Hk as [<-|[<-|[<-|[<-|[<-|[]]]]]]; discriminate.
  - intros k Hk Hemail.
    destruct (isAdmin caller) eqn:Hadm; simpl negb; cbv iota.
    + destruct (truthy_value _); [|reflexivity]. now rewrite lookup_insert_ne.
    + specialize (Hk eq_refl). simpl in Hk.
      set (stripped := delete _ _).
      assert (stripped !! k = user !! k) as Hsame.
      { subst stripped. apply Hkeep; intros ->; apply Hk; auto 10. }
      destruct (truthy_value (get stripped "isAnonymous")); [|exact Hsame].
      now rewrite lookup_insert_ne.
  - assert (forall k, k = "isAnonymous" \/ k = "email" ->
              (if negb (isAdmin caller)
               then delete "emailVerificationExpires"
                      (delete "emailVerificationToken"
                         (delete "passwordResetExpires"
                            (delete "passwordResetToken" (delete "password" user))))
               else user) !! k = user !! k) as Hsame.
    { intros k Hk. destruct (negb (isAdmin caller)); [|reflexivity].
      apply Hkeep; destruct Hk as [-> | ->]; discriminate. }
    unfold get at 1. rewrite (Hsame "isAnonymous") by auto.
    fold (get user "isAnonymous").
    destruct (truthy_value (get user "isAnonymous")).
    + now rewrite lookup_insert_eq.
    + apply Hsame. auto.
Qed.

(** ** The methods of an issue *)

Section IssueMethods.
Context {RT : Runtime}.
Variable env : gmap string string.

Import IssueModel.

Lemma includes_false (l : list string) u : includes l u = false <-> u ∉ l.
Proof.
  unfold includes. induction l as [|x l IH]; simpl.
  - split; [intros _; apply not_elem_of_nil|reflexivity].
  - rewrite not_elem_of_cons, orb_false_iff, IH.
    destruct (String.eqb_spec u x); split; intros [? ?]; split; (congruence || assumption).
Qed.

Lemma flagged_false (l : list Flag) u :
  existsb (fun flag => String.eqb (f_user flag) u) l = false <-> u ∉ f_user <$> l.
Proof.
  induction l as [|x l IH]; simpl.
  - split; [intros _; apply not_elem_of_nil|reflexivity].
  - rewrite ?fmap_cons, not_elem_of_cons, orb_false_iff, IH.
    destruct (String.eqb_spec (f_user x) u); split; intros [? ?]; split; (congruence || assumption).
Qed.

(** Removing from a list the one element that was appended to it gives
    the list back. *)
Lemma filter_out_appended {A} (key : A -> string) (l : list A) (x : A) :
  key x ∉ key <$> l ->
  List.filter (fun y => negb (String.eqb (key y) (key x))) (l ++ [x]) = l.
Proof.
  induction l as [|y l IH]; simpl; intros Hnot.
  - now rewrite String.eqb_refl.
  - rewrite ?fmap_cons, not_elem_of_cons in Hnot. destruct Hnot as [Hne Hnot].
    destruct (String.eqb_spec (key y) (key x)); [congruence|]. simpl.
    now rewrite IH.
Qed.

Lemma filter_out_absent {A} (key : A -> string) (l : list A) u :
  u ∉ key <$> List.filter (fun y => negb (String.eqb (key y) u)) l.
Proof.
  induction l as [|y l IH]; simpl; [apply not_elem_of_nil|].
  destruct (String.eqb_spec (key y) u); simpl; [exact IH|].
  rewrite ?fmap_cons, not_elem_of_cons. split; [congruence|exact IH].
Qed.

Lemma NoDup_fmap_filter {A} (key : A -> string) (p : A -> bool) (l : list A) :
  NoDup (key <$> l) -> NoDup (key <$> List.filter p l).
Proof.
  intros H. eapply sublist_NoDup; [exact H|].
  apply fmap_sublist, filter_sublist.
Qed.

Lemma NoDup_filter_ids (p : string -> bool) (l : list string) :
  NoDup l -> NoDup (List.filter p l).
Proof.
  intros H. eapply sublist_NoDup; [exact H|]. apply filter_sublist.
Qed.

Lemma NoDup_snoc {A} (l : list A) x : NoDup l -> x ∉ l -> NoDup (l ++ [x]).
Proof.
  intros Hl Hx. apply NoDup_app. split; [exact Hl|split].
  - intros y Hy Hin. apply list_elem_of_singleton in Hin. now subst.
  - apply NoDup_singleton.
Qed.

Lemma NoDup_fmap_snoc {A} (key : A -> string) (l : list A) x :
  NoDup (key <$> l) -> key x ∉ key <$> l -> NoDup (key <$> (l ++ [x])%list).
Proof. intros Hl Hx. rewrite fmap_app. now apply NoDup_snoc. Qed.

Lemma fresh_consistent : consistent fresh.
Proof.
  repeat split; try apply NoDup_nil_2.
Qed.

(** A call that leaves the flags, the upvotes and their counters alone
    keeps them in step. *)
Lemma consistent_same d d' :
  d_flags d' = d_flags d -> d_flagCount d' = d_flagCount d ->
  d_upvotes d' = d_upvotes d -> d_upvoteCount d' = d_upvoteCount d ->
  consistent d -> consistent d'.
Proof. unfold consistent. now intros -> -> -> ->. Qed.

(** A method of the model keeps the counters and the lists in step. *)
Lemma run_consistent c d : consistent d -> consistent (run env c d).
Proof.
  intros Hd. pose proof Hd as (Hf & Hu & Hnf & Hnu).
  destruct c; simpl.
  - now apply (consistent_same d).
  - apply (consistent_same d); try assumption;
      unfold updateStatus; cbv zeta; now destruct (String.eqb newStatus "Resolved").
  - unfold addFlag.
    destruct (existsb _ (d_flags d)) eqn:E; simpl; [exact Hd|].
    apply flagged_false in E.
    destruct (IssueSchema.ge _ _ && negb (d_isHidden d)); simpl;
      (split; [reflexivity|split; [exact Hu|split; [|exact Hnu]]]);
      now apply (NoDup_fmap_snoc f_user).
  - unfold removeFlag; cbv zeta; simpl.
    destruct (lt _ _ && d_isHidden d && bool_decide _); simpl;
      (split; [reflexivity|split; [exact Hu|split; [|exact Hnu]]]);
      now apply NoDup_fmap_filter.
  - unfold addUpvote.
    destruct (includes (d_upvotes d) userId) eqn:E; simpl; [exact Hd|].
    apply includes_false in E.
    split; [exact Hf|split; [reflexivity|split; [exact Hnf|]]].
    now apply NoDup_snoc.
  - unfold removeUpvote; simpl.
    split; [exact Hf|split; [reflexivity|split; [exact Hnf|]]].
    now apply NoDup_filter_ids.
  - now apply (consistent_same d).
  - now apply (consistent_same d).
  - now apply (consistent_same d).
  - now apply (consistent_same d).
Qed.

(** The hidden flag and its reason, over a method of the model: they
    stay when the threshold is not a number, and when the issue is
    hidden for a reason other than its flags. *)
Lemma run_keeps_hidden c d :
  isReview c = false ->
  isNaN (threshold env) = true \/
  (d_isHidden d = true /\ d_hiddenReason d <> Some autoHidden) ->
  d_isHidden (run env c d) = d_isHidden d /\
  d_hiddenReason (run env c d) = d_hiddenReason d.
Proof.
  intros Hc Hwhy. destruct c; simpl in Hc; try discriminate; simpl.
  - auto.
  - unfold updateStatus; cbv zeta. now destruct (String.eqb newStatus "Resolved").
  - unfold addFlag. destruct (existsb _ (d_flags d)); simpl; [auto|].
    assert (IssueSchema.ge (lengthOf (d_flags d ++ [ {| f_user := userId; f_reason := reason;
                 f_description := default "" description; f_timestamp := flaggedAt |} ]))
              (threshold env) && negb (d_isHidden d) = false) as ->; [|simpl; auto].
    destruct Hwhy as [Hnan|[Hhid _]].
    + unfold IssueSchema.ge. now rewrite (le_NaN_l _ _ Hnan).
    + now rewrite Hhid, andb_false_r.
  - unfold removeFlag; cbv zeta; simpl.
    assert (lt (lengthOf (List.filter (fun flag => negb (String.eqb (f_user flag) userId))
                            (d_flags d))) (threshold env) && d_isHidden d &&
            bool_decide (d_hiddenReason d = Some autoHidden) = false) as ->; [|simpl; auto].
    destruct Hwhy as [Hnan|[_ Hreason]].
    + now rewrite (lt_NaN_r _ _ Hnan).
    + rewrite bool_decide_eq_false_2 by exact Hreason. apply andb_false_r.
  - unfold addUpvote. destruct (includes _ _); simpl; auto.
  - auto.
  - auto.
  - auto.
Qed.

Lemma runAll_cons c history d :
  runAll env (c :: history) d = runAll env history (run env c d).
Proof. reflexivity. Qed.

Lemma runAll_keeps_hidden history d :
  forallb (fun c => negb (isReview c)) history = true ->
  isNaN (threshold env) = true \/
  (d_isHidden d = true /\ d_hiddenReason d <> Some autoHidden) ->
  d_isHidden (runAll env history d) = d_isHidden d /\
  d_hiddenReason (runAll env history d) = d_hiddenReason d.
Proof.
  revert d. induction history as [|c history IH]; intros d Hall Hwhy; [auto|].
  simpl in Hall. apply andb_true_iff in Hall as [Hc Hall]. apply negb_true_iff in Hc.
  destruct (run_keeps_hidden c d Hc Hwhy) as [Hh Hr].
  rewrite runAll_cons.
  destruct (IH (run env c d) Hall) as [Hh' Hr'].
  - destruct Hwhy as [Hnan|[Hhid Hreason]]; [now left|right].
    now rewrite Hh, Hr.
  - now rewrite Hh', Hr'.
Qed.

(** The flags after [removeFlag] and after an [addFlag] that did not
    throw. *)
Lemma removeFlag_flags u d :
  d_flags (removeFlag env u d)
  = List.filter (fun flag => negb (String.eqb (f_user flag) u)) (d_flags d) /\
  d_flagCount (removeFlag env u d)
  = lengthOf (List.filter (fun flag => negb (String.eqb (f_user flag) u)) (d_flags d)).
Proof.
  unfold removeFlag; cbv zeta; simpl.
  now destruct (lt _ (threshold env) && d_isHidden d && bool_decide _).
Qed.

Lemma addFlag_flags flaggedAt now u reason description d flagged :
  addFlag env flaggedAt now u reason description d = Some flagged ->
  (u ∉ f_user <$> d_flags d) /\
  d_flags flagged
  = (d_flags d ++
     [ {| f_user := u; f_reason := reason;
          f_description := default "" description; f_timestamp := flaggedAt |} ])%list.
Proof.
  unfold addFlag.
  destruct (existsb _ (d_flags d)) eqn:E; [discriminate|].
  apply flagged_false in E. intros [= <-]. split; [exact E|].
  now destruct (IssueSchema.ge _ (threshold env) && negb (d_isHidden d)).
Qed.

End IssueMethods.

(** X20. Whatever calls are made on an issue, in whatever order (the
    methods of the model, with [addFlag] throwing or not, and the review
    of a moderator), [flagCount] stays the number of its flags and
    [upvoteCount] the number of its upvotes, and no user appears twice
    among the flags or among the upvotes, provided this held of the
    document before, as it does of a new one. *)
Theorem counters_follow_the_flags_and_upvotes
    {RT : Runtime} (env : gmap string string)
    (history : list IssueModel.call) (d : IssueModel.Document) :
  IssueModel.consistent d ->
  IssueModel.consistent (IssueModel.runAll env history d).
Proof.
  revert d. induction history as [|c history IH]; intros d Hd; [exact Hd|].
  rewrite runAll_cons. apply IH. now apply run_consistent.
Qed.

(** X21. Upvoting twice counts once: a second [addUpvote] by the same
    user changes nothing; after [addUpvote] the user is among the
    upvotes and after [removeUpvote] not; and for a user who had not
    upvoted, [addUpvote] followed by [removeUpvote] gives back the list
    of upvotes, with a count that is its length. *)
Theorem upvoting_twice_counts_once (userId : string) (d : IssueModel.Document) :
  IssueModel.addUpvote userId (IssueModel.addUpvote userId d)
    = IssueModel.addUpvote userId d /\
  IssueModel.includes (IssueModel.d_upvotes (IssueModel.addUpvote userId d)) userId = true /\
  IssueModel.includes (IssueModel.d_upvotes (IssueModel.removeUpvote userId d)) userId
    = false /\
  (IssueModel.includes (IssueModel.d_upvotes d) userId = false ->
   IssueModel.d_upvotes (IssueModel.removeUpvote userId (IssueModel.addUpvote userId d))
     = IssueModel.d_upvotes d /\
   IssueModel.d_upvoteCount (IssueModel.removeUpvote userId (IssueModel.addUpvote userId d))
     = lengthOf (IssueModel.d_upvotes d)).
Proof.
  assert (IssueModel.includes
            (IssueModel.d_upvotes (IssueModel.addUpvote userId d)) userId = true) as Hin.
  { unfold IssueModel.addUpvote.
    destruct (IssueModel.includes (IssueModel.d_upvotes d) userId) eqn:E; simpl; [exact E|].
    unfold IssueModel.includes. rewrite existsb_app. simpl.
    now rewrite String.eqb_refl, orb_true_r. }
  split; [|split; [exact Hin|split]].
  - unfold IssueModel.addUpvote at 1. now rewrite Hin.
  - apply includes_false. unfold IssueModel.removeUpvote; simpl.
    pose proof (filter_out_absent id (IssueModel.d_upvotes d) userId) as H.
    now rewrite list_fmap_id in H.
  - intros Hnew. unfold IssueModel.addUpvote. rewrite Hnew. simpl.
    unfold IssueModel.removeUpvote; simpl.
    apply includes_false in Hnew.
    pose proof (filter_out_appended id (IssueModel.d_upvotes d) userId) as H.
    rewrite list_fmap_id in H. simpl in H. rewrite (H Hnew). auto.
Qed.

(** X22. A flag can be withdrawn but not repeated: once [addFlag] has
    succeeded for a user, a second [addFlag] by that user throws,
    whatever its reason; and [removeFlag] for that user gives back the
    flags the issue had before, with [flagCount] their number. *)
Theorem flag_can_be_withdrawn_but_not_repeated
    {RT : Runtime} (env : gmap string string) (flaggedAt now : Z)
    (userId reason : string) (description : param)
    (d flagged : IssueModel.Document) :
  IssueModel.addFlag env flaggedAt now userId reason description d = Some flagged ->
  (forall flaggedAt' now' reason' description',
     IssueModel.addFlag env flaggedAt' now' userId reason' description' flagged = None) /\
  IssueModel.d_flags (IssueModel.removeFlag env userId flagged) = IssueModel.d_flags d /\
  IssueModel.d_flagCount (IssueModel.removeFlag env userId flagged)
    = lengthOf (IssueModel.d_flags d).
Proof.
  intros Hadd.
  destruct (addFlag_flags env _ _ _ _ _ _ _ Hadd) as [Hnew Hflags].
  destruct (removeFlag_flags env userId flagged) as [Hf Hc].
  assert (List.filter (fun y => negb (String.eqb (IssueModel.f_user y) userId))
            (IssueModel.d_flags flagged) = IssueModel.d_flags d) as Hback.
  { rewrite Hflags.
    exact (filter_out_appended IssueModel.f_user (IssueModel.d_flags d)
             {| IssueModel.f_user := userId; IssueModel.f_reason := reason;
                IssueModel.f_description := default "" description;
                IssueModel.f_timestamp := flaggedAt |} Hnew). }
  split; [|split].
  - intros flaggedAt' now' reason' description'. unfold IssueModel.addFlag.
    rewrite Hflags, existsb_app. simpl. now rewrite String.eqb_refl, orb_true_r.
  - now rewrite Hf.
  - now rewrite Hc, Hback.
Qed.

(** X23. An issue that a moderator has hidden stays hidden under the
    methods of the model: as long as its [hiddenReason] is not the one
    [addFlag] writes, no sequence of flags, withdrawn flags, upvotes,
    comments, status updates and assignments changes [isHidden] or
    [hiddenReason]. *)
Theorem hidden_by_a_moderator_stays_hidden
    {RT : Runtime} (env : gmap string string)
    (history : list IssueModel.call) (d : IssueModel.Document) (reason : string) :
  IssueModel.d_isHidden d = true ->
  IssueModel.d_hiddenReason d = Some reason ->
  reason <> "Auto-hidden due to multiple flags" ->
  forallb (fun c => negb (IssueModel.isReview c)) history = true ->
  IssueModel.d_isHidden (IssueModel.runAll env history d) = true /\
  IssueModel.d_hiddenReason (IssueModel.runAll env history d) = Some reason.
Proof.
  intros Hhid Hreason Hne Hall.
  destruct (runAll_keeps_hidden env history d Hall) as [Hh Hr].
  - right. split; [exact Hhid|]. rewrite Hreason. unfold IssueModel.autoHidden. congruence.
  - now rewrite Hh, Hr.
Qed.

(** X24. When [SPAM_FLAG_THRESHOLD] does not read as a number (as when
    it is not set), flags never hide an issue and withdrawn flags never
    unhide one: no sequence of methods of the model changes [isHidden]
    or [hiddenReason]. *)
Theorem flags_never_hide_without_a_threshold
    {RT : Runtime} (env : gmap string string)
    (history : list IssueModel.call) (d : IssueModel.Document) :
  isNaN (parseInt (toString (env !! "SPAM_FLAG_THRESHOLD"))) = true ->
  forallb (fun c => negb (IssueModel.isReview c)) history = true ->
  IssueModel.d_isHidden (IssueModel.runAll env history d) = IssueModel.d_isHidden d /\
  IssueModel.d_hiddenReason (IssueModel.runAll env history d)
    = IssueModel.d_hiddenReason d.
Proof.
  intros Hnan Hall. apply (runAll_keeps_hidden env history d Hall). now left.
Qed.

(** ** Authentication *)

Section Authentication.
Variable env : gmap string string.
Variable verify : string -> param -> option Auth.Decoded.
Variable findById : string -> Auth.found Auth.Account.

Import Auth.

(** [authenticateToken] and [optionalAuth], once the token of the
    request verifies and its user is found. *)
Lemma authenticateToken_found req decoded account :
  truthy (tokenOf req) = true ->
  verify (toString (tokenOf req)) (env !! "JWT_SECRET") = Some decoded ->
  findById (dec_id decoded) = Found account ->
  optionalAuth env verify findById req
  = (if acc_isBanned account then Next None else Next (Some (acc_user account))) /\
  (forall u, authenticateToken env verify findById req = Next u ->
     acc_isBanned account = false /\ acc_user account = u).
Proof.
  intros Ht Hv Hf. unfold optionalAuth, authenticateToken. cbv zeta.
  rewrite Ht, Hv, Hf. simpl. split; [reflexivity|].
  intros u. destruct (changedPasswordAfter account decoded); [discriminate|].
  destruct (acc_isBanned account); [discriminate|]. now intros [= <-].
Qed.

Lemma restrictTo_Next roles user u :
  restrictTo roles user = Next u <->
  user = Some u /\ existsb (Role_eqb (user_role u)) roles = true.
Proof.
  unfold restrictTo. destruct user as [v|].
  - destruct (existsb (Role_eqb (user_role v)) roles) eqn:E; simpl; split.
    + now intros [= <-].
    + now intros [[= <-] _].
    + discriminate.
    + intros [[= <-] H]. congruence.
  - split; [discriminate|intros [[=] _]].
Qed.

Lemma Role_eqb_eq a b : Role_eqb a b = true <-> a = b.
Proof. destruct a, b; simpl; split; congruence. Qed.

End Authentication.

(** X25. [optionalAuth] never rejects a request; whenever
    [authenticateToken] accepts a request for a user, [optionalAuth]
    attaches that same user; and a user it attaches is one whose token
    verified and whose account is not banned.  [authenticateToken]
    rejects with status 401 or 403 only. *)
Theorem optionalAuth_never_rejects_and_follows_authenticateToken
    (env : gmap string string) (verify : string -> param -> option Auth.Decoded)
    (findById : string -> Auth.found Auth.Account) (req : Auth.Credentials) :
  (exists user, Auth.optionalAuth env verify findById req = Next user) /\
  (forall u,
     Auth.authenticateToken env verify findById req = Next u ->
     Auth.optionalAuth env verify findById req = Next (Some u)) /\
  (forall u,
     Auth.optionalAuth env verify findById req = Next (Some u) ->
     exists decoded account,
       verify (toString (Auth.tokenOf req)) (env !! "JWT_SECRET") = Some decoded /\
       findById (Auth.dec_id decoded) = Auth.Found account /\
       Auth.acc_user account = u /\ Auth.acc_isBanned account = false) /\
  (forall e,
     Auth.authenticateToken env verify findById req = NextError e ->
     statusCode e = 401%Z \/ statusCode e = 403%Z).
Proof.
  destruct (truthy (Auth.tokenOf req)) eqn:Ht.
  2:{ unfold Auth.optionalAuth, Auth.authenticateToken. cbv zeta. rewrite Ht. simpl.
      repeat split; [eexists; reflexivity|discriminate|discriminate|].
      intros e [= <-]. now left. }
  destruct (verify (toString (Auth.tokenOf req)) (env !! "JWT_SECRET")) as [decoded|] eqn:Hv.
  2:{ unfold Auth.optionalAuth, Auth.authenticateToken. cbv zeta. rewrite Ht, Hv. simpl.
      repeat split; [eexists; reflexivity|discriminate|discriminate|].
      intros e [= <-]. now left. }
  destruct (findById (Auth.dec_id decoded)) as [account| |] eqn:Hf.
  - destruct (authenticateToken_found env verify findById req decoded account Ht Hv Hf)
      as [Hopt Hauth].
    split; [|split; [|split]].
    + rewrite Hopt. destruct (Auth.acc_isBanned account); eexists; reflexivity.
    + intros u Hu. destruct (Hauth u Hu) as [Hb <-]. now rewrite Hopt, Hb.
    + intros u. rewrite Hopt.
      destruct (Auth.acc_isBanned account) eqn:Hb; [discriminate|].
      intros [= <-]. now exists decoded, account.
    + intros e. unfold Auth.authenticateToken. cbv zeta. rewrite Ht, Hv, Hf. simpl.
      destruct (Auth.changedPasswordAfter account decoded); [intros [= <-]; now left|].
      destruct (Auth.acc_isBanned account); [intros [= <-]; now right|discriminate].
  - unfold Auth.optionalAuth, Auth.authenticateToken. cbv zeta. rewrite Ht, Hv, Hf. simpl.
    repeat split; [eexists; reflexivity|discriminate|discriminate|].
    intros e [= <-]. now left.
  - unfold Auth.optionalAuth, Auth.authenticateToken. cbv zeta. rewrite Ht, Hv, Hf. simpl.
    repeat split; [eexists; reflexivity|discriminate|discriminate|].
    intros e [= <-]. now left.
Qed.

(** X26. The guards on roles decide alike: [requireAdmin] lets through
    exactly the users that [restrictTo('admin')] lets through, and
    [requireModerator] exactly those of [restrictTo('admin',
    'moderator')]; whoever passes [requireAdmin] passes
    [requireModerator]; a request without a user is rejected by all of
    them with 401, and a user of another role with 403.  So the
    statistics route runs its controller only for an admin whom
    [authenticateToken] accepted. *)
Theorem role_guards_decide_alike
    (env : gmap string string) (verify : string -> param -> option Auth.Decoded)
    (findById : string -> Auth.found Auth.Account)
    (user : option User) (u : User) :
  (Auth.requireAdmin user = Next u <-> Auth.restrictTo [admin] user = Next u) /\
  (Auth.requireModerator user = Next u
   <-> Auth.restrictTo [admin; moderator] user = Next u) /\
  (Auth.requireAdmin user = Next u <-> user = Some u /\ user_role u = admin) /\
  (Auth.requireAdmin user = Next u -> Auth.requireModerator user = Next u) /\
  (forall roles e,
     Auth.restrictTo roles user = NextError e ->
     statusCode e = (if bool_decide (is_Some user) then 403 else 401)%Z /\
     (forall e', Auth.requireAdmin user = NextError e' -> statusCode e' = statusCode e) /\
     (forall e', Auth.requireModerator user = NextError e' -> statusCode e' = statusCode e)) /\
  (forall req,
     Auth.statsRoute env verify findById req = Next u ->
     user_role u = admin /\ Auth.authenticateToken env verify findById req = Next u).
Proof.
  split; [|split; [|split; [|split; [|split]]]].
  - unfold Auth.requireAdmin, Auth.restrictTo. destruct user as [v|]; [|split; discriminate].
    simpl. rewrite orb_false_r.
    destruct (Role_eqb (user_role v) admin); simpl; [tauto|split; discriminate].
  - unfold Auth.requireModerator, Auth.restrictTo. destruct user as [v|]; [|split; discriminate].
    destruct (existsb _ _); simpl; [tauto|split; discriminate].
  - unfold Auth.requireAdmin. destruct user as [v|].
    + destruct (Role_eqb (user_role v) admin) eqn:E; simpl; split.
      * intros [= <-]. split; [reflexivity|]. now apply Role_eqb_eq.
      * now intros [[= <-] _].
      * discriminate.
      * intros [[= <-] H]. apply Role_eqb_eq in H. congruence.
    + split; [discriminate|intros [[=] _]].
  - unfold Auth.requireAdmin, Auth.requireModerator. destruct user as [v|]; [|discriminate].
    simpl. destruct (Role_eqb (user_role v) admin); simpl; [auto|discriminate].
  - intros roles e. unfold Auth.restrictTo, Auth.requireAdmin, Auth.requireModerator.
    destruct user as [v|]; simpl.
    + destruct (existsb _ roles); [discriminate|]. intros [= <-]. simpl.
      repeat split; intros e'.
      * destruct (Role_eqb (user_role v) admin); [discriminate|]. now intros [= <-].
      * destruct (Role_eqb (user_role v) admin || _); [discriminate|]. now intros [= <-].
    + intros [= <-]. simpl. repeat split; now intros e' [= <-].
  - intros req. unfold Auth.statsRoute.
    destruct (Auth.authenticateToken env verify findById req) as [v|e|]; try discriminate.
    unfold andThen. intros H. apply restrictTo_Next in H as [[= <-] H].
    simpl in H. rewrite orb_false_r in H. apply Role_eqb_eq in H. auto.
Qed.

(** ** Answering for an error *)

Section Answers.
Context {RT : Runtime} {V : Validators}.
Variable env : gmap string string.

(** The status of an error with a code from 400 to 499 is ['fail']. *)
Lemma statusOf_client_error m c :
  (400 <= c <= 499)%Z -> ErrorResponses.statusOf (mkAppError m c) = "fail".
Proof.
  intros Hc.
  assert (forallb (fun k => String.eqb
                              (ErrorResponses.statusOf (mkAppError m (400 + Z.of_nat k)))
                              "fail") (seq 0 100) = true) as Hall.
  { unfold ErrorResponses.statusOf. simpl statusCode. vm_compute. reflexivity. }
  rewrite forallb_forall in Hall.
  specialize (Hall (Z.to_nat (c - 400))).
  rewrite Z2Nat.id in Hall by lia. replace (400 + (c - 400))%Z with c in Hall by lia.
  apply String.eqb_eq, Hall, in_seq. lia.
Qed.

(** The errors of the guards and of the controllers of the read
    routes. *)
Lemma enforceLocationRestrictions_error req e :
  enforceLocationRestrictions req = NextError e -> statusCode e = 400%Z.
Proof.
  unfold enforceLocationRestrictions.
  destruct (includes (path req) "/admin" || includes (path req) "/stats"); [discriminate|].
  destruct (String.eqb (method req) "POST" && String.eqb (path req) "/").
  - destruct (body_location req) as [loc|]; [|now intros [= <-]].
    destruct (coordinates loc) as [coords|]; [|now intros [= <-]].
    destruct (outOfRange _ _); [now intros [= <-]|].
    destruct (String.eqb (method req) "GET" && _); [|discriminate].
    destruct (negb _ || negb _); [now intros [= <-]|].
    destruct (isNaN _ || isNaN _ || outOfRange _ _); [now intros [= <-]|discriminate].
  - destruct (String.eqb (method req) "GET" && _); [|discriminate].
    destruct (negb _ || negb _); [now intros [= <-]|].
    destruct (isNaN _ || isNaN _ || outOfRange _ _); [now intros [= <-]|discriminate].
Qed.

Lemma validateUserLocation_error req e :
  validateUserLocation req = NextError e -> statusCode e = 400%Z.
Proof.
  unfold validateUserLocation. cbv zeta.
  destruct (_ && _ && _); [now intros [= <-]|discriminate].
Qed.

Lemma enforceDistanceRestrictions_error req e :
  enforceDistanceRestrictions env req = NextError e -> statusCode e = 400%Z.
Proof.
  unfold enforceDistanceRestrictions. cbv zeta.
  destruct (truthy (query req !! "distance") && _); [now intros [= <-]|].
  destruct (truthy (query req !! "latitude") && _); [|discriminate].
  destruct (outOfRange _ _); [now intros [= <-]|discriminate].
Qed.

Lemma getIssues_error req e :
  getIssues env req = NextError e -> statusCode e = 400%Z.
Proof.
  unfold getIssues. cbv zeta.
  destruct (negb _ || negb _); [now intros [= <-]|].
  destruct (isNaN _ || isNaN _ || outOfRange _ _); [now intros [= <-]|discriminate].
Qed.

Lemma getIssuesForMap_error parseBounds req e :
  getIssuesForMap env parseBounds req = NextError e -> statusCode e = 400%Z.
Proof.
  unfold getIssuesForMap. cbv zeta.
  destruct (negb _ || negb _); [now intros [= <-]|].
  destruct (isNaN _ || isNaN _ || outOfRange _ _); [now intros [= <-]|discriminate].
Qed.

Lemma getIssue_error db req e :
  getIssue env db req = NextError e ->
  statusCode e = 400%Z \/ statusCode e = 403%Z \/ statusCode e = 404%Z.
Proof.
  unfold getIssue. cbv zeta.
  destruct (negb _ || negb _); [intros [= <-]; auto|].
  destruct (isNaN _ || isNaN _ || outOfRange _ _); [intros [= <-]; auto|].
  destruct (findById db _) as [x|]; [|intros [= <-]; auto].
  destruct (isHidden x && _); [intros [= <-]; auto|].
  destruct (match issueCoordinates x with Some _ => _ | None => false end);
    [intros [= <-]; auto|].
  destruct (issueCoordinates x); discriminate.
Qed.

Lemma read_route_error parseBounds db req e :
  listRoute env req = NextError e \/
  mapRoute env parseBounds req = NextError e \/
  issueRoute env db req = NextError e ->
  statusCode e = 400%Z \/ statusCode e = 403%Z \/ statusCode e = 404%Z.
Proof.
  assert (forall A (k : Request -> outcome A),
            (forall r, k r = NextError e ->
               statusCode e = 400%Z \/ statusCode e = 403%Z \/ statusCode e = 404%Z) ->
            andThen (enforceLocationRestrictions req) k = NextError e ->
            statusCode e = 400%Z \/ statusCode e = 403%Z \/ statusCode e = 404%Z) as Hloc.
  { intros A k Hk.
    destruct (enforceLocationRestrictions req) as [r1|e1|] eqn:E1; simpl.
    - apply Hk.
    - intros [= <-]. left. now apply enforceLocationRestrictions_error in E1.
    - discriminate. }
  assert (forall A (k : Request -> outcome A) r1,
            (forall r, k r = NextError e ->
               statusCode e = 400%Z \/ statusCode e = 403%Z \/ statusCode e = 404%Z) ->
            andThen (validateUserLocation r1) k = NextError e ->
            statusCode e = 400%Z \/ statusCode e = 403%Z \/ statusCode e = 404%Z) as Husr.
  { intros A k r1 Hk.
    destruct (validateUserLocation r1) as [r2|e2|] eqn:E2; simpl.
    - apply Hk.
    - intros [= <-]. left. now apply validateUserLocation_error in E2.
    - discriminate. }
  unfold listRoute, mapRoute, issueRoute.
  intros [H|[H|H]].
  - destruct (validateIssueFilters_cases req) as [E0|(e0 & E0 & S0)]; rewrite E0 in H;
      simpl in H; [|injection H as <-; auto].
    revert H. apply Hloc. intros r1. apply Husr. intros r2 H.
    destruct (enforceDistanceRestrictions env r2) as [r3|e3|] eqn:E3; simpl in H.
    + left. now apply getIssues_error in H.
    + injection H as <-. left. now apply enforceDistanceRestrictions_error in E3.
    + discriminate.
  - destruct (validateIssueFilters_cases req) as [E0|(e0 & E0 & S0)]; rewrite E0 in H;
      simpl in H; [|injection H as <-; auto].
    revert H. apply Hloc. intros r1. apply Husr. intros r2 H.
    destruct (enforceDistanceRestrictions env r2) as [r3|e3|] eqn:E3; simpl in H.
    + left. now apply getIssuesForMap_error in H.
    + injection H as <-. left. now apply enforceDistanceRestrictions_error in E3.
    + discriminate.
  - destruct (validateIssueId_cases req) as [E0|E0]; rewrite E0 in H; simpl in H;
      [|injection H as <-; auto].
    revert H. apply Hloc. intros r1. apply Husr. intros r2 H.
    destruct (preventOutOfAreaAccess_cases env db r2) as [E3|E3]; rewrite E3 in H; simpl in H.
    + destruct (getIssue env db r2) as [b|e4|] eqn:E4; simpl in H; try discriminate.
      injection H as <-. now apply getIssue_error in E4.
    + injection H as <-. auto.
Qed.

End Answers.

(** X27. Every rejection of the list, map and single-issue routes has
    status 400, 403 or 404; and in production the error handler answers
    it, for a URL under [/api], with that status, the status text
    ['fail'] and the message of the rejection. *)
Theorem rejections_of_the_read_routes_reach_the_client
    {RT : Runtime} {V : Validators} (env : gmap string string)
    (firstQuoted : string -> option string)
    (parseBounds : string -> option (number * number * number * number))
    (db : gmap string Issue) (req : Request) (e : AppError) (originalUrl : string) :
  env !! "NODE_ENV" = Some "production" ->
  String.prefix "/api" originalUrl = true ->
  listRoute env req = NextError e \/
  mapRoute env parseBounds req = NextError e \/
  issueRoute env db req = NextError e ->
  (statusCode e = 400 \/ statusCode e = 403 \/ statusCode e = 404)%Z /\
  ErrorResponses.errorHandler env firstQuoted (ErrorResponses.raised e) originalUrl
  = Next (Some (ErrorResponses.Json (Some (statusCode e)) (Some "fail") (message e))).
Proof.
  intros Henv Hurl Hroute.
  pose proof (read_route_error env parseBounds db req e Hroute) as Hcode.
  split; [exact Hcode|].
  assert (ErrorResponses.statusOf e = "fail") as Hs.
  { destruct e as [m c]. apply statusOf_client_error. simpl in Hcode. lia. }
  unfold ErrorResponses.errorHandler, ErrorResponses.withDefaults. cbv zeta.
  rewrite Henv. simpl.
  unfold ErrorResponses.sendErrorProd. rewrite Hurl, Hs. simpl.
  destruct (statusCode e =? 0)%Z eqn:E0; [lia|reflexivity].
Qed.

(** X28. An error that is not operational and is none of those the
    handler recognises (by [name] or by [code]) never reaches a client
    in production with its message: for a URL under [/api] the answer is
    status 500 with ['Something went very wrong!'], and otherwise the
    error page with ['Please try again later.'].  And when [NODE_ENV] is
    neither ['development'] nor ['production'] the handler sends no
    response at all, whatever the error. *)
Theorem errorHandler_keeps_unexpected_errors_to_itself
    (env : gmap string string) (firstQuoted : string -> option string)
    (err : ErrorResponses.Failure) (originalUrl : string) :
  (env !! "NODE_ENV" = Some "production" ->
   ErrorResponses.e_isOperational err = false ->
   ErrorResponses.e_name err <> Some "CastError" ->
   ErrorResponses.e_name err <> Some "ValidationError" ->
   ErrorResponses.e_name err <> Some "JsonWebTokenError" ->
   ErrorResponses.e_name err <> Some "TokenExpiredError" ->
   ErrorResponses.e_code err <> Some 11000%Z ->
   ErrorResponses.errorHandler env firstQuoted err originalUrl
   = if String.prefix "/api" originalUrl
     then Next (Some (ErrorResponses.Json (Some 500%Z) (Some "error")
                        "Something went very wrong!"))
     else Next (Some (ErrorResponses.Render
                        (ErrorResponses.e_statusCode (ErrorResponses.withDefaults err))
                        "Something went wrong!" "Please try again later."))) /\
  (env !! "NODE_ENV" <> Some "development" ->
   env !! "NODE_ENV" <> Some "production" ->
   ErrorResponses.errorHandler env firstQuoted err originalUrl = Next None).
Proof.
  split.
  - intros Henv Hop H1 H2 H3 H4 H5.
    unfold ErrorResponses.errorHandler. cbv zeta. rewrite Henv.
    rewrite (bool_decide_eq_false_2 (Some "production" = Some "development")) by discriminate.
    rewrite (bool_decide_eq_true_2 (Some "production" = Some "production")) by reflexivity.
    cbn [ErrorResponses.nameOf ErrorResponses.codeOf ErrorResponses.withDefaults
         ErrorResponses.e_name ErrorResponses.e_code].
    rewrite (bool_decide_eq_false_2 _ H1). cbn [andThen ErrorResponses.codeOf ErrorResponses.e_code].
    rewrite (bool_decide_eq_false_2 _ H5). cbn [andThen ErrorResponses.nameOf ErrorResponses.e_name].
    rewrite (bool_decide_eq_false_2 _ H2). cbn [andThen ErrorResponses.nameOf ErrorResponses.e_name].
    rewrite (bool_decide_eq_false_2 _ H3). cbn [andThen ErrorResponses.nameOf ErrorResponses.e_name].
    rewrite (bool_decide_eq_false_2 _ H4). cbn [andThen].
    unfold ErrorResponses.sendErrorProd.
    cbn [ErrorResponses.withDefaults ErrorResponses.e_isOperational
         ErrorResponses.e_statusCode].
    rewrite Hop.
    now destruct (String.prefix "/api" originalUrl).
  - intros Hdev Hprod. unfold ErrorResponses.errorHandler. cbv zeta.
    now rewrite (bool_decide_eq_false_2 _ Hdev), (bool_decide_eq_false_2 _ Hprod).
Qed.

(** ** What the list and map routes send *)

Section Views.
Context {RT : Runtime}.
Variable env : gmap string string.

Import IssueViews.

(** [map] with a callback that throws gives, when it returns, the
    result of the callback for each element in turn. *)
Lemma mapM_Next {A B} (f : A -> outcome B) (l : list A) (ys : list B) :
  mapM f l = Next ys -> Forall2 (fun x y => f x = Next y) l ys.
Proof.
  revert ys. induction l as [|x l IH]; simpl; intros ys.
  - intros [= <-]. constructor.
  - destruct (f x) as [y|e|] eqn:Hx; simpl; try discriminate.
    destruct (mapM f l) as [ys'|e|]; simpl; try discriminate.
    intros [= <-]. constructor; auto.
Qed.

(** A map marker has no [reportedBy], and carries the name the
    controller computed. *)
Lemma mapIssue_Next req x m :
  mapIssue req x = Next m ->
  reportedBy m = None /\
  reporterName m
  = (if isAnonymous x || negb (bool_decide (is_Some (reportedBy x)))
     then Some "Anonymous" else rep_username <$> reportedBy x) /\
  _id m = _id x.
Proof.
  unfold mapIssue. cbv zeta.
  destruct (truthy _ && truthy _).
  - destruct (issueCoordinates x); [|discriminate]. now intros [= <-].
  - now intros [= <-].
Qed.

Lemma processIssue_forMap req x m :
  query req !! "forMap" = Some "true" ->
  processIssue req x = Next m ->
  reportedBy m = None /\
  reporterName m
  = (if isAnonymous x || negb (bool_decide (is_Some (reportedBy x)))
     then Some "Anonymous" else rep_username <$> reportedBy x) /\
  _id m = _id x.
Proof.
  intros Hmap. unfold processIssue. cbv zeta. rewrite Hmap.
  rewrite (bool_decide_eq_true_2 (Some "true" = Some "true")) by reflexivity.
  destruct (truthy _ && truthy _).
  - destruct (issueCoordinates x); [|discriminate]. simpl. intros [= <-]. simpl.
    now destruct (isAnonymous x || _).
  - simpl. intros [= <-]. simpl. now destruct (isAnonymous x || _).
Qed.

Lemma reportedBy_withDistance lat lng x : reportedBy (withDistance lat lng x) = reportedBy x.
Proof. unfold withDistance. destruct (issueCoordinates x); [|reflexivity]. now destruct x. Qed.

(** What [sent] does to a body of issues. *)
Lemma sent_issues req st rs l :
  exists lat lng ul,
    sent env req (mkBody st rs (Some (mkResponseData (Some l) None)) None)
    = mkBody st rs
        (Some (mkResponseData
                 (Some (map (fun x => filterAnonymousData (withDistance lat lng x) (req_user req)) l))
                 None)) ul \/
    sent env req (mkBody st rs (Some (mkResponseData (Some l) None)) None)
    = mkBody st rs
        (Some (mkResponseData
                 (Some (map (fun x => filterAnonymousData x (req_user req)) l)) None)) ul.
Proof.
  unfold sent, addDistanceInfo, applyAnonymousFiltering. cbv zeta. simpl.
  destruct (truthy _ && truthy _); simpl.
  - do 3 eexists. left. unfold filterMultipleIssues. now rewrite map_map.
  - exists 0%float, 0%float, None. right. reflexivity.
Qed.

End Views.

(** X29. On the map, every issue reaches the client as anonymous.  The
    markers that [getIssuesForMap] builds, and those that [getIssues]
    builds for [forMap=true], carry the username of the reporter of an
    issue that is not anonymous as [reporterName] but no [reportedBy];
    so [applyAnonymousFiltering], which runs on the response of both
    routes, takes each of them for an anonymous report and sends
    [reporterName] ['Anonymous'] and [isAnonymous] true for all. *)
Theorem map_markers_reach_the_client_as_anonymous
    {RT : Runtime} (env : gmap string string) (req : Request)
    (found : list Issue) (body : Body) :
  IssueViews.getIssuesForMapResponse req found = Next body \/
  (query req !! "forMap" = Some "true" /\
   IssueViews.getIssuesResponse req found = Next body) ->
  exists markers sentMarkers,
    data body = Some (mkResponseData (Some markers) None) /\
    data (IssueViews.sent env req body) = Some (mkResponseData (Some sentMarkers) None) /\
    Forall2 (fun x m =>
               _id m = _id x /\
               reportedBy m = None /\
               forall r, isAnonymous x = false -> reportedBy x = Some r ->
                 reporterName m = Some (rep_username r))
      found markers /\
    Forall2 (fun x s =>
               _id s = _id x /\
               reporterName s = Some "Anonymous" /\
               isAnonymous s = true /\
               reportedBy s = Some anonymousReporter)
      found sentMarkers.
Proof.
  intros Hbody.
  assert (exists markers,
            body = mkBody "success" (Some (length markers))
                     (Some (mkResponseData (Some markers) None)) None /\
            Forall2 (fun x m =>
                       reportedBy m = None /\
                       reporterName m
                       = (if isAnonymous x || negb (bool_decide (is_Some (reportedBy x)))
                          then Some "Anonymous" else rep_username <$> reportedBy x) /\
                       _id m = _id x) found markers) as (markers & -> & Hall).
  { destruct Hbody as [H|[Hmap H]].
    - unfold IssueViews.getIssuesForMapResponse in H.
      destruct (IssueViews.mapM (IssueViews.mapIssue req) found) as [ms|e|] eqn:Hm;
        simpl in H; try discriminate.
      injection H as <-. exists ms. split; [reflexivity|].
      apply mapM_Next in Hm. eapply Forall2_impl; [exact Hm|].
      intros x m. apply mapIssue_Next.
    - unfold IssueViews.getIssuesResponse in H.
      destruct (IssueViews.mapM (IssueViews.processIssue req) found) as [ms|e|] eqn:Hm;
        simpl in H; try discriminate.
      injection H as <-. exists ms. split; [reflexivity|].
      apply mapM_Next in Hm. eapply Forall2_impl; [exact Hm|].
      intros x m. now apply processIssue_forMap. }
  exists markers.
  assert (forall m, reportedBy m = None ->
            forall u, reporterName (filterAnonymousData m u) = Some "Anonymous" /\
                      isAnonymous (filterAnonymousData m u) = true /\
                      reportedBy (filterAnonymousData m u) = Some anonymousReporter) as Hanon.
  { intros m Hm u.
    destruct (filterAnonymousData_anonymous m u (or_intror Hm)) as (? & ? & ?). auto. }
  assert (forall m u, _id (filterAnonymousData m u) = _id m) as Hid.
  { intros [id ti ca st lo rb rn an hi cs al di] u. unfold filterAnonymousData; simpl.
    destruct an, rb as [r|], cs as [cs|], al as [al|]; reflexivity. }
  assert (forall lat lng m, _id (withDistance lat lng m) = _id m) as Hidd.
  { intros lat lng m. unfold withDistance.
    destruct (issueCoordinates m); [|reflexivity]. now destruct m. }
  destruct (sent_issues env req "success" (Some (length markers)) markers)
    as (lat & lng & ul & [E|E]); rewrite E; simpl.
  - eexists. split; [reflexivity|split; [reflexivity|split]].
    + eapply Forall2_impl; [exact Hall|]. intros x m (Hnone & Hn & Hi).
      split; [exact Hi|split; [exact Hnone|]].
      intros r Han Hr. rewrite Hn, Han, Hr. reflexivity.
    + apply Forall2_fmap_r. eapply Forall2_impl; [exact Hall|].
      intros x m (Hnone & _ & Hi). unfold compose. rewrite Hid, Hidd. split; [exact Hi|].
      apply Hanon. now rewrite reportedBy_withDistance.
  - eexists. split; [reflexivity|split; [reflexivity|split]].
    + eapply Forall2_impl; [exact Hall|]. intros x m (Hnone & Hn & Hi).
      split; [exact Hi|split; [exact Hnone|]].
      intros r Han Hr. rewrite Hn, Han, Hr. reflexivity.
    + apply Forall2_fmap_r. eapply Forall2_impl; [exact Hall|].
      intros x m (Hnone & _ & Hi). unfold compose. rewrite Hid. split; [exact Hi|].
      now apply Hanon.
Qed.

(** ** The map helper *)

Section MapHelper.
Context {RT : Runtime}.

Import MapUtils.

Lemma filterM_pure {A} (f : A -> outcome bool) (p : A -> bool) (l : list A) :
  Forall (fun x => f x = Next (p x)) l -> filterM f l = Next (List.filter p l).
Proof.
  induction 1 as [|x l Hx _ IH]; simpl; [reflexivity|].
  rewrite Hx, IH. simpl. now destruct (p x).
Qed.

Lemma filterM_throws {A} (f : A -> outcome bool) (l : list A) x :
  In x l -> f x = Throws -> (forall y e, f y <> NextError e) -> filterM f l = Throws.
Proof.
  intros Hin Hx Hf. induction l as [|y l IH]; simpl; [contradiction|].
  destruct Hin as [->|Hin].
  - now rewrite Hx.
  - destruct (f y) as [b|e|] eqn:E; simpl.
    + now rewrite (IH Hin).
    + now apply Hf in E.
    + reflexivity.
Qed.

Lemma withinMap_no_error bounds userLocation maxDistance x e :
  withinMap bounds userLocation maxDistance x <> NextError e.
Proof.
  unfold withinMap. destruct (issueCoordinates x); [|discriminate]. cbv zeta.
  destruct (match bounds with Some _ => _ | None => false end); [discriminate|].
  destruct userLocation as [[lat lng]|]; [|discriminate].
  destruct (truthy_number maxDistance); discriminate.
Qed.

End MapHelper.

(** X30. Without bounds and with a location of the user,
    [filterIssuesForMap] keeps of issues that all have coordinates
    exactly those that the callback of [filterIssuesByDistance] keeps
    for the same radius, when the radius is a number other than 0; for a
    radius of 0 or NaN it checks no distance and returns every issue.
    It throws when an issue has no coordinates. *)
Theorem filterIssuesForMap_agrees_with_the_distance_filter
    {RT : Runtime} (issues : list Issue) (latitude longitude : number)
    (maxDistance : option number) :
  (Forall (fun x => is_Some (issueCoordinates x)) issues ->
   MapUtils.filterIssuesForMap issues None (Some (latitude, longitude)) maxDistance
   = Next (if truthy_number (default 5%float maxDistance)
           then List.filter
                  (withinDistance latitude longitude (default 5%float maxDistance)) issues
           else issues)) /\
  (forall bounds userLocation x,
     In x issues -> issueCoordinates x = None ->
     MapUtils.filterIssuesForMap issues bounds userLocation maxDistance = Throws).
Proof.
  split.
  - intros Hall. unfold MapUtils.filterIssuesForMap.
    destruct (truthy_number (default 5%float maxDistance)) eqn:Ht.
    + apply filterM_pure. eapply Forall_impl; [exact Hall|].
      intros x [coords Hc]. unfold MapUtils.withinMap, withinDistance.
      now rewrite Hc, Ht.
    + rewrite (filterM_pure _ (fun _ => true)).
      * f_equal. induction issues as [|x l IH]; simpl; [reflexivity|].
        f_equal. apply IH. now inversion Hall.
      * eapply Forall_impl; [exact Hall|].
        intros x [coords Hc]. unfold MapUtils.withinMap. now rewrite Hc, Ht.
  - intros bounds userLocation x Hin Hnone. unfold MapUtils.filterIssuesForMap.
    apply (filterM_throws _ issues x Hin).
    + unfold MapUtils.withinMap. now rewrite Hnone.
    + intros y e. apply withinMap_no_error.
Qed.

(** ** The read routes, with their validators *)

Section ValidatedRoutes.
Context {RT : Runtime} {V : Validators}.
Variable env : gmap string string.
Variable parseBounds : string -> option (number * number * number * number).





End ValidatedRoutes.


Section ValidatorMessages.
Context {RT : Runtime} {V : Validators}.
Variable env : gmap string string.
Variable parseBounds : string -> option (number * number * number * number).



End ValidatorMessages.


(** ** The radius of the list and map queries *)

Section Radius.
Context {RT : Runtime} {V : Validators}.
Variable env : gmap string string.
Variable parseBounds : string -> option (number * number * number * number).

(** The guards before the distance middleware let the request through
    as it is or reject it with status 400. *)
Lemma enforceLocationRestrictions_cases req :
  enforceLocationRestrictions req = Next req \/
  exists e, enforceLocationRestrictions req = NextError e /\ statusCode e = 400%Z.
Proof.
  destruct (enforceLocationRestrictions req) as [r|e|] eqn:E.
  - left. revert E. unfold enforceLocationRestrictions.
    destruct (includes (path req) "/admin" || includes (path req) "/stats");
      [congruence|].
    destruct (String.eqb (method req) "POST" && String.eqb (path req) "/").
    + destruct (body_location req) as [loc|]; [|discriminate].
      destruct (coordinates loc) as [coords|]; [|discriminate].
      destruct (outOfRange _ _); [discriminate|].
      destruct (String.eqb (method req) "GET" && _); [|congruence].
      destruct (negb _ || negb _); [discriminate|].
      destruct (isNaN _ || isNaN _ || outOfRange _ _); [discriminate|congruence].
    + destruct (String.eqb (method req) "GET" && _); [|congruence].
      destruct (negb _ || negb _); [discriminate|].
      destruct (isNaN _ || isNaN _ || outOfRange _ _); [discriminate|congruence].
  - right. exists e. split; [reflexivity|]. now apply enforceLocationRestrictions_error in E.
  - exfalso. revert E. unfold enforceLocationRestrictions.
    destruct (includes (path req) "/admin" || includes (path req) "/stats");
      [discriminate|].
    destruct (String.eqb (method req) "POST" && String.eqb (path req) "/").
    + destruct (body_location req) as [loc|]; [|discriminate].
      destruct (coordinates loc) as [coords|]; [|discriminate].
      destruct (outOfRange _ _); [discriminate|].
      destruct (String.eqb (method req) "GET" && _); [|discriminate].
      destruct (negb _ || negb _); [discriminate|].
      destruct (isNaN _ || isNaN _ || outOfRange _ _); discriminate.
    + destruct (String.eqb (method req) "GET" && _); [|discriminate].
      destruct (negb _ || negb _); [discriminate|].
      destruct (isNaN _ || isNaN _ || outOfRange _ _); discriminate.
Qed.

Lemma validateUserLocation_cases req :
  validateUserLocation req = Next req \/
  exists e, validateUserLocation req = NextError e /\ statusCode e = 400%Z.
Proof.
  unfold validateUserLocation. cbv zeta.
  destruct (_ && _ && _); [right; eexists; split; reflexivity|left; reflexivity].
Qed.

(** The distance middleware leaves the query as it is. *)
Lemma enforceDistanceRestrictions_Next req r :
  enforceDistanceRestrictions env req = Next r ->
  r = req \/ exists v, r = set_validatedLocation v req.
Proof.
  unfold enforceDistanceRestrictions. cbv zeta.
  destruct (truthy (query req !! "distance") && _); [discriminate|].
  destruct (truthy (query req !! "latitude") && _); [|intros [= <-]; auto].
  destruct (outOfRange _ _); [discriminate|]. intros [= <-]. eauto.
Qed.

(** A list or map request that asks for a radius above the maximum is
    rejected with status 400; by the distance middleware, with a message
    that names the maximum, when the handlers before it let the request
    through. *)
Lemma explicit_radius_above_maximum_is_rejected req :
  truthy (query req !! "distance") = true ->
  gt (requestedRadius req) (maxAllowedDistance env) = true ->
  exists e,
    statusCode e = 400%Z /\
    listRoute env req = NextError e /\
    mapRoute env parseBounds req = NextError e /\
    (validateIssueFilters req = Next req ->
     enforceLocationRestrictions req = Next req ->
     validateUserLocation req = Next req ->
     e = radiusTooLarge env).
Proof.
  intros Ht Hgt. unfold listRoute, mapRoute.
  destruct (validateIssueFilters_cases req) as [E0|(e0 & E0 & S0)]; rewrite E0; simpl.
  2:{ exists e0. repeat split; auto. discriminate. }
  destruct (enforceLocationRestrictions_cases req) as [E1|(e1 & E1 & S1)]; rewrite E1; simpl.
  2:{ exists e1. repeat split; auto. discriminate. }
  destruct (validateUserLocation_cases req) as [E2|(e2 & E2 & S2)]; rewrite E2; simpl.
  2:{ exists e2. repeat split; auto. discriminate. }
  rewrite (enforceDistanceRestrictions_radius env req Ht Hgt). simpl.
  exists (radiusTooLarge env). repeat split; auto.
Qed.

(** A list request that reaches the collection is a query for the
    issues near the caller, within the smaller of the requested radius
    (the [distance] parameter, or else [DEFAULT_SEARCH_RADIUS]) and the
    maximum: at most both and equal to one of them, when the requested
    radius is a number. *)
Lemma list_route_filters_on_the_smaller_radius req f :
  listRoute env req = Next f ->
  exists r,
    f_location f
    = Near (callerLongitude req) (callerLatitude req) (r * 1000)%float /\
    (isNaN (parseFloat (toString (requestedParam env req))) = false ->
     le r (parseFloat (toString (requestedParam env req))) = true /\
     le r (maxAllowedDistance env) = true /\
     (r = parseFloat (toString (requestedParam env req)) \/ r = maxAllowedDistance env)).
Proof.
  unfold listRoute.
  destruct (validateIssueFilters_cases req) as [E0|(e0 & E0 & S0)]; rewrite E0; simpl;
    [|discriminate].
  destruct (enforceLocationRestrictions_cases req) as [E1|(e1 & E1 & S1)]; rewrite E1; simpl;
    [|discriminate].
  destruct (validateUserLocation_cases req) as [E2|(e2 & E2 & S2)]; rewrite E2; simpl;
    [|discriminate].
  destruct (enforceDistanceRestrictions env req) as [r3|e3|] eqn:E3; simpl;
    [|discriminate|discriminate].
  intros Hf.
  assert (getIssues env req = Next f) as Hf'.
  { destruct (enforceDistanceRestrictions_Next req r3 E3) as [->|[v ->]]; exact Hf. }
  destruct (getIssues_Next env req f Hf') as [Hloc Hval].
  destruct (getIssues_valid env req Hloc Hval) as (f' & Hf'' & Hnear).
  rewrite Hf' in Hf''. injection Hf'' as <-.
  exists (requestedDistance env req). split; [exact Hnear|].
  intros Hnum. unfold requestedDistance.
  destruct (Math_min_spec _ _ Hnum (maxAllowedDistance_not_NaN env)) as (H1 & H2 & H3).
  repeat split; assumption.
Qed.

End Radius.

(** ** The distance when the sum under the square roots exceeds 1 *)

Section DistanceOfAntipodes.
Context {RT : Runtime}.

Lemma isNaN_eq x : isNaN x = true -> x = NaN.
Proof.
  intros H. apply Prim2SF_inj. rewrite (isNaN_true x H). reflexivity.
Qed.

(** The square root of a number below zero is NaN. *)
Lemma Math_sqrt_negative x : lt x 0%float = true -> Math_sqrt x = NaN.
Proof.
  unfold lt, Math_sqrt. rewrite ltb_spec. intros H.
  apply Prim2SF_inj. rewrite sqrt_spec.
  change (Prim2SF 0%float) with (S754_zero false) in H.
  change (Prim2SF NaN) with S754_nan.
  destruct (Prim2SF x) as [s| [|] | |[|] m e]; try discriminate H; reflexivity.
Qed.

(** Whatever the sine and the cosine of the engine are: when they take
    the sum under the square roots above 1, so that [1 - a] is below
    zero, the distance is NaN, for an arc tangent that is NaN on a NaN
    argument as ECMAScript requires. *)
Lemma calculateDistance_is_NaN_above_one lat1 lon1 lat2 lon2 :
  (forall y, isNaN (Math_atan2 y NaN) = true) ->
  lt (1 - haversineTerm lat1 lon1 lat2 lon2)%float 0%float = true ->
  calculateDistance lat1 lon1 lat2 lon2 = NaN.
Proof.
  intros Hatan Ha. unfold calculateDistance. cbv zeta.
  change (Math_sin (toRadians (lat2 - lat1) / 2) * Math_sin (toRadians (lat2 - lat1) / 2) +
          Math_cos (toRadians lat1) * Math_cos (toRadians lat2) *
          Math_sin (toRadians (lon2 - lon1) / 2) * Math_sin (toRadians (lon2 - lon1) / 2))%float
    with (haversineTerm lat1 lon1 lat2 lon2).
  rewrite (Math_sqrt_negative _ Ha), (isNaN_eq _ (Hatan _)).
  vm_compute. reflexivity.
Qed.

End DistanceOfAntipodes.

(** ** The scenarios, on the reference engine *)

Section OnTheReferenceEngine.
Existing Instance Engine.reference.
Existing Instance Engine.validators.
Import Scenario.

(** C1 (the code departs from it). With [MAX_SEARCH_RADIUS=10] and an
    issue 28.53 km from the caller, both guards of a single-issue read
    reject with status 403.  The controller's message states the
    configured maximum (10 km); the message of [preventOutOfAreaAccess],
    which runs first on the route, states 5 km whatever the maximum
    is. *)
Lemma out_of_area_message_ignores_configured_radius :
  maxAllowedDistance env10 = 10%float /\
  distanceFrom (getById farBridge here None) [74.05; 18.70]%float = 28.53%float /\
  preventOutOfAreaAccess env10 db (getById farBridge here None)
    = NextError
        (mkAppError
           "This issue is outside your allowed area. You can only access issues within 5km of your location."
           403) /\
  getIssue env10 db (getById farBridge here None)
    = NextError
        (mkAppError
           "This issue is outside your allowed area. You can only access issues within 10km of your location."
           403).
Proof. repeat apply conj; vm_compute; reflexivity. Qed.

(** [out_of_area_middleware_rejects_only_located_issues], at a concrete input. *)
Lemma out_of_area_middleware_rejects_only_located_issues_witness :
  preventOutOfAreaAccess defaultEnv db
    (getById pothole [("latitude", "18.5204")] None)
  = Next (getById pothole [("latitude", "18.5204")] None).
Proof.
  apply (out_of_area_middleware_rejects_only_located_issues
           defaultEnv db
           (getById pothole [("latitude", "18.5204")] None)).
  left. vm_compute. reflexivity.
Defined.

(** [hidden_issue_is_not_found_unless_admin], at a concrete input. *)
Lemma hidden_issue_is_not_found_unless_admin_witness :
  getIssue defaultEnv db
    (getById hiddenSpam here (Some bobUser))
  = NextError (mkAppError "Issue not found" 404).
Proof.
  refine (proj1 (proj1 (hidden_issue_is_not_found_unless_admin
           defaultEnv db
           (getById hiddenSpam here (Some bobUser))
           hiddenSpam _ _ _ _) _)); vm_compute; reflexivity.
Defined.

(** C2 as stated fails for a moderator: on a hidden issue 20 m away a
    moderator gets 404 'Issue not found', and the same request is served
    once the flag of that issue is cleared.  It also fails for a request
    without coordinates, which is answered 400 before the issue is
    looked up. *)
Lemma moderator_is_blocked_by_hidden_flag :
  user_role carolModerator = moderator /\
  isHidden hiddenSpam = true /\
  findById db (Some (_id hiddenSpam)) = Some hiddenSpam /\
  getIssue defaultEnv db (getById hiddenSpam here (Some carolModerator))
  = NextError (mkAppError "Issue not found" 404) /\
  (exists shown,
     getIssue defaultEnv
       (<[ _id hiddenSpam := set_isHidden false hiddenSpam ]> db)
       (getById hiddenSpam here (Some carolModerator))
     = Next (mkBody "success" None (Some (mkResponseData None (Some shown))) None)) /\
  getIssue defaultEnv db (getById hiddenSpam [] (Some bobUser))
  = NextError
      (mkAppError
         "Location coordinates (latitude, longitude) are required for security" 400).
Proof.
  repeat apply conj; try (vm_compute; reflexivity).
  eexists. vm_compute. reflexivity.
Qed.

(** C4 (the code departs from it). A map request from the caller of the
    scenarios with [distance=3] and the bounds of a viewport over Delhi
    passes every handler of the map route, and the query it makes
    filters on the box alone: the radius of 3 km, which the same request
    without bounds is limited to, is gone.  A pothole in Delhi lies in
    the box, 1171.26 km from the caller, against a maximum of 5 km. *)
Lemma map_request_with_bounds_is_not_limited_by_the_radius :
  mapRoute defaultEnv readViewport
    (getMap (("distance", "3") :: ("bounds", delhiViewport) :: here) None)
  = Next
      {| f_isHidden := false; f_category := None; f_status := None; f_search := None;
         f_location := (GeoWithinBox 77 28 78 29)%float |} /\
  mapRoute defaultEnv readViewport (getMap (("distance", "3") :: here) None)
  = Next
      {| f_isHidden := false; f_category := None; f_status := None; f_search := None;
         f_location := (Near 73.8567 18.5204 3000)%float |} /\
  maxAllowedDistance defaultEnv = 5%float /\
  issueCoordinates delhiPothole = Some [77.2; 28.6]%float /\
  (le 77 77.2 && le 77.2 78 && le 28 28.6 && le 28.6 29)%float = true /\
  distanceFrom (getMap here None) [77.2; 28.6]%float = 1171.26%float.
Proof. repeat apply conj; vm_compute; reflexivity. Qed.



(** On its own the distance middleware lets a latitude that is not a
    number, ['abc'], through, and attaches
    [{latitude: NaN, longitude: 73.8567}] to the request; on the list
    route the validators have answered before it runs, and the guard
    after them and the list controller would reject the same request
    too. *)
Example non_numeric_latitude_is_rejected_by_the_validators :
  enforceDistanceRestrictions defaultEnv
    (getList [("latitude", "abc"); ("longitude", "73.8567")] None)
  = Next (set_validatedLocation (Some (NaN, 73.8567%float))
            (getList [("latitude", "abc"); ("longitude", "73.8567")] None)) /\
  listRoute defaultEnv (getList [("latitude", "abc"); ("longitude", "73.8567")] None)
  = NextError (mkAppError "Invalid latitude" 400) /\
  enforceLocationRestrictions
    (getList [("latitude", "abc"); ("longitude", "73.8567")] None)
  = NextError (mkAppError "Invalid location coordinates provided" 400) /\
  getIssues defaultEnv
    (getList [("latitude", "abc"); ("longitude", "73.8567")] None)
  = NextError (mkAppError "Invalid location coordinates provided" 400).
Proof. repeat apply conj; vm_compute; reflexivity. Qed.

(** C3 (the code departs from it). An issue reported by alice, not
    anonymous, read by bob, who is neither the reporter nor an admin:
    the view names alice, and the reporter object in it still holds her
    e-mail address, after [filterAnonymousData], after
    [restrictDataAccess], and in the response of the single-issue
    route. *)
Lemma reporter_email_reaches_other_callers :
  isAnonymous pothole = false /\
  reportedBy pothole = Some alice /\
  isOwner (Some bobUser) alice = false /\
  isAdmin (Some bobUser) = false /\
  reporterName (restrictIssue (Some bobUser) pothole) = Some "alice" /\
  rep_email <$> reportedBy (restrictIssue (Some bobUser) pothole)
    = Some (Some "alice@example.org") /\
  rep_email <$> reportedBy (filterAnonymousData pothole (Some bobUser))
    = Some (Some "alice@example.org") /\
  exists shown,
    issueRoute defaultEnv db (getById pothole here (Some bobUser))
    = Next (mkBody "success" None (Some (mkResponseData None (Some shown)))
              (Some (mkUserLocation 18.5204 73.8567 5)%float)) /\
    reporterName shown = Some "alice" /\
    rep_email <$> reportedBy shown = Some (Some "alice@example.org").
Proof.
  repeat apply conj; try reflexivity.
  eexists. repeat apply conj; vm_compute; reflexivity.
Qed.


(** [anonymous_reporter_is_sentinel_comments_keep_names], at a concrete input. *)
Lemma anonymous_reporter_is_sentinel_comments_keep_names_witness :
  reportedBy (filterAnonymousData anonymousReport (Some bobUser))
  = Some {| rep_id := None; rep_username := "Anonymous"; rep_email := None |}.
Proof.
  apply (anonymous_reporter_is_sentinel_comments_keep_names
           anonymousReport (Some bobUser)).
  left. reflexivity.
Defined.

(** [single_issue_guards_decide_on_distance], at a concrete input. *)
Lemma single_issue_guards_decide_on_distance_witness :
  preventOutOfAreaAccess defaultEnv db (getById pothole here None)
  = Next (getById pothole here None).
Proof.
  refine (proj1 (proj2 (single_issue_guards_decide_on_distance
           defaultEnv db (getById pothole here None) pothole
           [73.8568; 18.5205]%float _ _ _ _ _ _) _)); vm_compute; reflexivity.
Defined.

(** [controllers_reject_invalid_coordinates], at a concrete input. *)
Lemma controllers_reject_invalid_coordinates_witness :
  getIssues defaultEnv (getList [("latitude", "200"); ("longitude", "73.8567")] None)
  = NextError (mkAppError "Invalid location coordinates provided" 400).
Proof.
  refine (proj1 (controllers_reject_invalid_coordinates
           defaultEnv (fun _ => None) db
           (getList [("latitude", "200"); ("longitude", "73.8567")] None) _ _));
    vm_compute; reflexivity.
Defined.

(** [distance_middleware_rejects_out_of_domain], at a concrete input. *)
Lemma distance_middleware_rejects_out_of_domain_witness :
  enforceDistanceRestrictions defaultEnv
    (getList [("latitude", "200"); ("longitude", "73.8567")] None)
  = NextError (mkAppError "Invalid coordinates provided" 400).
Proof.
  refine (eq_trans (distance_middleware_rejects_out_of_domain
           defaultEnv
           (getList [("latitude", "200"); ("longitude", "73.8567")] None) _ _) _);
    vm_compute; reflexivity.
Defined.

(** [named_reporter_is_left_in_place], at a concrete input. *)
Lemma named_reporter_is_left_in_place_witness :
  reporterName (filterAnonymousData pothole (Some bobUser)) = Some "alice".
Proof.
  refine (proj1 (named_reporter_is_left_in_place pothole (Some bobUser) alice _ _));
    reflexivity.
Defined.


(** [single_issue_route_refuses_far_issue_first], at a concrete input. *)
Lemma single_issue_route_refuses_far_issue_first_witness :
  issueRoute env10 db (getById farBridge here (Some daveAdmin))
  = NextError
      (mkAppError
         "This issue is outside your allowed area. You can only access issues within 5km of your location."
         403).
Proof.
  refine (single_issue_route_refuses_far_issue_first
            env10 db (getById farBridge here (Some daveAdmin)) farBridge
            [74.05; 18.70]%float _ _ _ _ _ _ _ _ _ _); vm_compute; reflexivity.
Defined.

(** *** The scenarios of the specification *)

(** Scenario 1: an issue about 15 m away is served, at 0.02 km. *)
Example scenario_near_issue_is_served :
  exists shown,
    issueRoute defaultEnv db (getById pothole here None)
    = Next (mkBody "success" None (Some (mkResponseData None (Some shown)))
              (Some (mkUserLocation 18.5204 73.8567 5)%float)) /\
    distance shown = Some 0.02%float.
Proof. eexists. apply conj; vm_compute; reflexivity. Qed.

(** Scenario 2: an issue about 10 km away is refused. *)
Example scenario_far_issue_is_refused :
  distanceFrom (getById farLight here None) [73.90; 18.60]%float = 9.96%float /\
  issueRoute defaultEnv db (getById farLight here None) = NextError outOfAreaFixed.
Proof. apply conj; vm_compute; reflexivity. Qed.

(** Scenario 3: a latitude of 200 is refused before anything else, by
    the validators on the list route and by the first guard on the
    single-issue route. *)
Example scenario_latitude_200_is_invalid :
  listRoute defaultEnv (getList [("latitude", "200"); ("longitude", "73.8567")] None)
  = NextError (mkAppError "Invalid latitude" 400) /\
  issueRoute defaultEnv db
    (getById pothole [("latitude", "200"); ("longitude", "73.8567")] None)
  = NextError invalidCoordinates.
Proof. apply conj; vm_compute; reflexivity. Qed.

(** Scenario 4: a radius of 10 km against a maximum of 5 km. *)
Example scenario_radius_10_is_too_large :
  listRoute defaultEnv (getList (("distance", "10") :: here) None)
  = NextError (mkAppError "Distance cannot exceed 5km for security reasons" 400).
Proof. vm_compute; reflexivity. Qed.

(** Scenario 5: an anonymous report, read by bob. *)
Example scenario_anonymous_report :
  reportedBy (filterAnonymousData anonymousReport (Some bobUser)) = Some anonymousReporter /\
  comments (filterAnonymousData anonymousReport (Some bobUser)) = Some [bobsComment].
Proof. apply conj; reflexivity. Qed.

(** Scenario 6: alice reads her own report. *)
Example scenario_owner_reads_own_report :
  restrictIssue (Some aliceUser) pothole = pothole.
Proof. reflexivity. Qed.

(** A hidden issue that is too far away is refused as out of area on the
    route, not as not found. *)
Example scenario_hidden_far_issue :
  issueRoute defaultEnv
    (<[ _id farBridge := set_isHidden true farBridge ]> db)
    (getById farBridge here None)
  = NextError outOfAreaFixed.
Proof. vm_compute; reflexivity. Qed.

(** [map_query_with_bounds_filters_on_the_box_alone], at a concrete input. *)
Lemma map_query_with_bounds_filters_on_the_box_alone_witness :
  exists f,
    getIssuesForMap defaultEnv (fun _ => Some (19, 18, 74, 73)%float)
      (getList (("bounds", "{}") :: here) None) = Next f /\
    f_location f = (GeoWithinBox 73 18 74 19)%float.
Proof.
  refine (map_query_with_bounds_filters_on_the_box_alone
            defaultEnv (fun _ => Some (19, 18, 74, 73)%float)
            (getList (("bounds", "{}") :: here) None) 19%float 18%float 74%float 73%float
            _ _ _ _);
    vm_compute; reflexivity.
Defined.

(** *** The distance, on the reference engine *)

(** At the points of the scenarios the distance is the same in both
    directions and zero between a point and itself; half way round the
    equator it is 20015.09 km. *)
Example distance_at_the_scenario_points :
  (calculateDistance 18.5204 73.8567 18.60 73.90
     = calculateDistance 18.60 73.90 18.5204 73.8567 /\
   calculateDistance 18.5204 73.8567 18.5204 73.8567 = 0 /\
   calculateDistance 0 0 0 180 = 20015.09)%float.
Proof. repeat apply conj; vm_compute; reflexivity. Qed.

(** C9 (the code departs from it). Between (82, 0) and (-82, 180), which
    are valid and antipodal, the sum under the square roots rounds to
    [1 + 2^-52], the square root of [1 - a] is NaN and so is the
    distance, in both directions: the two results are not equal to each
    other and are not at least 0.  Between (10, 0) and (-10, 180) the
    sum rounds below 1 and the distance is 20015.09 km.  The guards of a
    single-issue read compare the NaN with the maximum, find it not
    above, and serve the issue on the other side of the globe. *)
Lemma distance_between_antipodes_is_NaN :
  (validateCoordinates 82 0 = true /\
   validateCoordinates (-82) 180 = true /\
   haversineTerm 82 0 (-82) 180 = 0x1.0000000000001p+0 /\
   isNaN (Math_sqrt (1 - haversineTerm 82 0 (-82) 180)) = true /\
   isNaN (calculateDistance 82 0 (-82) 180) = true /\
   isNaN (calculateDistance (-82) 180 82 0) = true /\
   JS.strictEquals (calculateDistance 82 0 (-82) 180) (calculateDistance (-82) 180 82 0)
   = false /\
   le 0 (calculateDistance 82 0 (-82) 180) = false /\
   calculateDistance 10 0 (-10) 180 = 20015.09)%float /\
  exists shown,
    issueRoute defaultEnv (<[ _id antipodalLeak := antipodalLeak ]> db)
      (getById antipodalLeak [("latitude", "82"); ("longitude", "0")] None)
    = Next (mkBody "success" None (Some (mkResponseData None (Some shown)))
              (Some (mkUserLocation 82 0 5)%float)) /\
    distance shown = Some NaN.
Proof.
  apply conj; [repeat apply conj; vm_compute; reflexivity|].
  eexists. apply conj; vm_compute; reflexivity.
Qed.


(** *** The rest of the code, at concrete inputs *)

(** [parseLocationString_returns_valid_coordinates_or_null], at a concrete input. *)
Lemma parseLocationString_returns_valid_coordinates_or_null_witness :
  Geo.parseLocationString Cases.trim (Some "18.5204, 73.8567")
    = Some (18.5204, 73.8567)%float /\
  Geo.parseLocationString Cases.trim (Some "18.5204;73.8567") = None.
Proof.
  split; [vm_compute; reflexivity|].
  refine (proj1 (proj2 (parseLocationString_returns_valid_coordinates_or_null
                          Cases.trim (Some "18.5204;73.8567"))) _ eq_refl _).
  vm_compute. discriminate.
Defined.

(** [calculateCenterPoint_throws_on_falsy_coordinate], at a concrete input. *)
Lemma calculateCenterPoint_throws_on_falsy_coordinate_witness :
  Geo.calculateCenterPoint (Some [Cases.inPune; Cases.onTheEquator]) = Throws.
Proof.
  refine (proj2 (proj2 (calculateCenterPoint_throws_on_falsy_coordinate
                          [Cases.inPune; Cases.onTheEquator] Cases.onTheEquator)) _ _ _).
  - right. left. reflexivity.
  - left. vm_compute. reflexivity.
  - reflexivity.
Defined.

(** Two points off the equator and the meridian have a centre. *)
Example center_of_two_points :
  Geo.calculateCenterPoint
    (Some [Cases.inPune;
           {| Geo.p_latitude := None; Geo.p_longitude := None;
              Geo.p_coordinates := Some [73.8567; 18.5204]%float |}])
  = Next (Some (18.5204, 73.8567)%float).
Proof. vm_compute. reflexivity. Qed.

(** [kept_issues_are_within_the_configured_maximum], at a concrete input:
    a request for 50 km against a maximum of 5 km. *)
Lemma kept_issues_are_within_the_configured_maximum_witness :
  exists kept,
    filterIssuesByDistance defaultEnv (getList (("distance", "50") :: here) None)
      (mkBody "success" (Some 3%nat)
         (Some (mkResponseData (Some [pothole; farLight; farBridge]) None)) None)
    = mkBody "success" (Some (length kept))
        (Some (mkResponseData (Some kept) None)) None /\
    forall x, In x kept ->
      In x [pothole; farLight; farBridge] /\
      exists coords, issueCoordinates x = Some coords /\
        le (distanceFrom (getList (("distance", "50") :: here) None) coords)
          (maxAllowedDistance defaultEnv) = true.
Proof.
  apply (kept_issues_are_within_the_configured_maximum
           defaultEnv (getList (("distance", "50") :: here) None)
           (mkBody "success" (Some 3%nat)
              (Some (mkResponseData (Some [pothole; farLight; farBridge]) None)) None)
           (mkResponseData (Some [pothole; farLight; farBridge]) None)
           [pothole; farLight; farBridge]).
  - vm_compute. reflexivity.
  - reflexivity.
  - reflexivity.
Defined.

Example filter_with_radius_50_keeps_the_near_issue_only :
  filterIssuesByDistance defaultEnv (getList (("distance", "50") :: here) None)
    (mkBody "success" (Some 3%nat)
       (Some (mkResponseData (Some [pothole; farLight; farBridge]) None)) None)
  = mkBody "success" (Some 1%nat) (Some (mkResponseData (Some [pothole]) None)) None.
Proof. vm_compute. reflexivity. Qed.

(** [creation_guard_accepts_what_the_schema_accepts], at a concrete input. *)
Lemma creation_guard_accepts_what_the_schema_accepts_witness :
  enforceLocationRestrictions (Cases.report Cases.mgRoad None)
    = Next (Cases.report Cases.mgRoad None) /\
  enforceLocationRestrictions
    (Cases.report (Some (mkLocation "Point" (Some []) "MG Road")) None)
    = Next (Cases.report (Some (mkLocation "Point" (Some []) "MG Road")) None) /\
  IssueSchema.coordinatesValidator [] = false.
Proof.
  split.
  - refine (proj1 (creation_guard_accepts_what_the_schema_accepts
                     (Cases.report Cases.mgRoad None) eq_refl eq_refl)
              (mkLocation "Point" (Some [73.8567; 18.5204]%float) "MG Road")
              [73.8567; 18.5204]%float eq_refl eq_refl _).
    vm_compute. reflexivity.
  - refine (proj1 (proj2 (creation_guard_accepts_what_the_schema_accepts
                     (Cases.report (Some (mkLocation "Point" (Some []) "MG Road")) None)
                     eq_refl eq_refl))
              (mkLocation "Point" (Some []) "MG Road") [] eq_refl eq_refl _ _);
      vm_compute; reflexivity.
Defined.

(** [issue_has_a_reporter_exactly_when_not_anonymous], at a concrete
    input: a request without a user that asks not to be anonymous. *)
Lemma issue_has_a_reporter_exactly_when_not_anonymous_witness :
  exists c,
    Reporting.createIssue (Cases.report Cases.mgRoad None)
      (Cases.fields [("isAnonymous", VBool false)]) (Some []) = Next c /\
    Reporting.i_isAnonymous (Reporting.issueData c) = true /\
    Reporting.i_reportedBy (Reporting.issueData c) = None.
Proof.
  destruct (Reporting.createIssue (Cases.report Cases.mgRoad None)
              (Cases.fields [("isAnonymous", VBool false)]) (Some []))
    as [c|e|] eqn:Hc; try (vm_compute in Hc; discriminate).
  destruct (issue_has_a_reporter_exactly_when_not_anonymous
              (Cases.report Cases.mgRoad None)
              (Cases.fields [("isAnonymous", VBool false)]) (Some []) c Hc)
    as (Hiff & _ & Hanon & _).
  exists c. split; [reflexivity|]. split; [exact (Hanon eq_refl)|].
  apply Hiff. exact (Hanon eq_refl).
Defined.

Example named_report_by_alice :
  exists c,
    Reporting.createIssue (Cases.report Cases.mgRoad (Some aliceUser))
      (Cases.fields []) (Some []) = Next c /\
    Reporting.i_reportedBy (Reporting.issueData c) = Some (user_id aliceUser) /\
    Reporting.i_isAnonymous (Reporting.issueData c) = false /\
    Reporting.i_priority (Reporting.issueData c) = VString "Medium".
Proof. eexists. repeat apply conj; vm_compute; reflexivity. Qed.

(** A form field that holds the text ['false'] is truthy: the report
    of alice is stored as anonymous. *)
Example text_false_reports_anonymously :
  exists c,
    Reporting.createIssue (Cases.report Cases.mgRoad (Some aliceUser))
      (Cases.fields [("isAnonymous", VString "false")]) (Some []) = Next c /\
    Reporting.i_reportedBy (Reporting.issueData c) = None /\
    Reporting.i_isAnonymous (Reporting.issueData c) = true.
Proof. eexists. repeat apply conj; vm_compute; reflexivity. Qed.

(** [anonymous_report_is_logged_under_the_name_of_its_author], at a
    concrete input: alice reports anonymously. *)
Lemma anonymous_report_is_logged_under_the_name_of_its_author_witness :
  exists c entry,
    Reporting.createIssue (Cases.report Cases.mgRoad (Some aliceUser))
      (Cases.fields [("isAnonymous", VBool true)]) (Some []) = Next c /\
    Reporting.i_reportedBy (Reporting.issueData c) = None /\
    IssueModel.d_activityLog
      (IssueModel.addActivityLog 1700000000 "Created" "Issue reported"
         (Reporting.logActor c) (Some (Reporting.logActorName c)) IssueModel.fresh)
    = [entry] /\
    l_actorName (filterLog entry) = Some "alice".
Proof.
  destruct (Reporting.createIssue (Cases.report Cases.mgRoad (Some aliceUser))
              (Cases.fields [("isAnonymous", VBool true)]) (Some []))
    as [c|e|] eqn:Hc; try (vm_compute in Hc; discriminate).
  destruct (anonymous_report_is_logged_under_the_name_of_its_author
              (Cases.report Cases.mgRoad (Some aliceUser))
              (Cases.fields [("isAnonymous", VBool true)]) (Some []) c aliceUser
              1700000000 IssueModel.fresh eq_refl eq_refl)
    as (_ & Hr & entry & Hlog & _ & Hname & _).
  - discriminate.
  - exact Hc.
  - exists c, entry. auto.
Defined.

(** [image_of_an_upload_has_no_url], at a concrete input. *)
Lemma image_of_an_upload_has_no_url_witness :
  exists result c,
    CloudinaryService.uploadToCloudinary (Some Cases.cloudinaryResult) = Some result /\
    Reporting.createIssue (Cases.report Cases.mgRoad None) (Cases.fields [])
      (Some [(result, 1700000000%Z)]) = Next c /\
    Forall (fun image => Reporting.img_url image = VUndefined)
      (Reporting.i_images (Reporting.issueData c)).
Proof.
  destruct (CloudinaryService.uploadToCloudinary (Some Cases.cloudinaryResult))
    as [result|] eqn:Hr; [|discriminate].
  destruct (Reporting.createIssue (Cases.report Cases.mgRoad None) (Cases.fields [])
              (Some [(result, 1700000000%Z)]))
    as [c|e|] eqn:Hc; try (unfold Reporting.createIssue in Hc; discriminate).
  exists result, c. split; [reflexivity|split; [exact Hc|]].
  refine (proj1 (proj2 (image_of_an_upload_has_no_url
                          (Cases.report Cases.mgRoad None) (Cases.fields [])
                          [(result, 1700000000%Z)] c _ Hc))).
  constructor; [|constructor]. exists Cases.cloudinaryResult. exact Hr.
Defined.

Example upload_keeps_the_address_under_url :
  (fun result => get result "url")
    <$> CloudinaryService.uploadToCloudinary (Some Cases.cloudinaryResult)
  = Some (VString "https://res.cloudinary.com/demo/image/upload/pothole.jpg") /\
  (fun result => get result "secure_url")
    <$> CloudinaryService.uploadToCloudinary (Some Cases.cloudinaryResult)
  = Some VUndefined.
Proof. repeat apply conj; vm_compute; reflexivity. Qed.

(** [sanitizeUserData_removes_the_secrets_for_non_admins], at a concrete input. *)
Lemma sanitizeUserData_removes_the_secrets_for_non_admins_witness :
  Reporting.sanitizeUserData (Some bobUser) Cases.storedAlice !! "password" = None /\
  Reporting.sanitizeUserData (Some daveAdmin) Cases.storedAlice !! "password"
  = Cases.storedAlice !! "password".
Proof.
  split.
  - refine (proj1 (sanitizeUserData_removes_the_secrets_for_non_admins
                     (Some bobUser) Cases.storedAlice) eq_refl "password" _).
    left. reflexivity.
  - refine (proj1 (proj2 (sanitizeUserData_removes_the_secrets_for_non_admins
                            (Some daveAdmin) Cases.storedAlice)) "password" _ _);
      [discriminate|discriminate].
Defined.

(** [counters_follow_the_flags_and_upvotes], at a concrete input. *)
Lemma counters_follow_the_flags_and_upvotes_witness :
  IssueModel.consistent (IssueModel.runAll defaultEnv Cases.history IssueModel.fresh).
Proof.
  apply (counters_follow_the_flags_and_upvotes defaultEnv Cases.history IssueModel.fresh).
  unfold IssueModel.consistent. simpl.
  repeat apply conj; try reflexivity; apply NoDup_nil_2.
Defined.

Example history_of_an_issue :
  IssueModel.d_flags (IssueModel.runAll defaultEnv Cases.history IssueModel.fresh) = [] /\
  IssueModel.d_flagCount (IssueModel.runAll defaultEnv Cases.history IssueModel.fresh)
    = 0%float /\
  IssueModel.d_upvotes (IssueModel.runAll defaultEnv Cases.history IssueModel.fresh)
    = ["64e0000000000000000000c3"] /\
  IssueModel.d_upvoteCount (IssueModel.runAll defaultEnv Cases.history IssueModel.fresh)
    = 1%float /\
  length (IssueModel.d_activityLog
            (IssueModel.runAll defaultEnv Cases.history IssueModel.fresh)) = 2%nat.
Proof. repeat apply conj; vm_compute; reflexivity. Qed.

(** [upvoting_twice_counts_once], at a concrete input. *)
Lemma upvoting_twice_counts_once_witness :
  IssueModel.d_upvotes
    (IssueModel.removeUpvote "64e0000000000000000000c3"
       (IssueModel.addUpvote "64e0000000000000000000c3" IssueModel.fresh))
  = [].
Proof.
  refine (proj1 (proj2 (proj2 (proj2 (upvoting_twice_counts_once
                                        "64e0000000000000000000c3" IssueModel.fresh))) _)).
  reflexivity.
Defined.

(** [flag_can_be_withdrawn_but_not_repeated], at a concrete input. *)
Lemma flag_can_be_withdrawn_but_not_repeated_witness :
  exists flagged,
    IssueModel.addFlag defaultEnv 1700000000 1700000001 "64e0000000000000000000b2" "Spam"
      None IssueModel.fresh = Some flagged /\
    IssueModel.addFlag defaultEnv 1700000100 1700000101 "64e0000000000000000000b2" "Other"
      None flagged = None /\
    IssueModel.d_flags (IssueModel.removeFlag defaultEnv "64e0000000000000000000b2" flagged)
    = [].
Proof.
  destruct (IssueModel.addFlag defaultEnv 1700000000 1700000001
              "64e0000000000000000000b2" "Spam" None IssueModel.fresh)
    as [flagged|] eqn:H; [|vm_compute in H; discriminate].
  destruct (flag_can_be_withdrawn_but_not_repeated
              defaultEnv 1700000000 1700000001 "64e0000000000000000000b2" "Spam" None
              IssueModel.fresh flagged H) as (Hagain & Hflags & _).
  exists flagged. split; [reflexivity|]. split; [apply Hagain|exact Hflags].
Defined.

(** [hidden_by_a_moderator_stays_hidden], at a concrete input: three
    flags against a threshold of three. *)
Lemma hidden_by_a_moderator_stays_hidden_witness :
  IssueModel.d_isHidden
    (IssueModel.runAll Cases.threshold3 Cases.threeFlags Cases.hiddenByModerator) = true /\
  IssueModel.d_hiddenReason
    (IssueModel.runAll Cases.threshold3 Cases.threeFlags Cases.hiddenByModerator)
  = Some "Hidden by moderator".
Proof.
  apply (hidden_by_a_moderator_stays_hidden
           Cases.threshold3 Cases.threeFlags Cases.hiddenByModerator "Hidden by moderator");
    try reflexivity.
  discriminate.
Defined.

(** With a threshold of three, the third flag hides an issue, and a
    withdrawn flag shows it again. *)
Example third_flag_hides_the_issue :
  IssueModel.d_isHidden (IssueModel.runAll Cases.threshold3 Cases.threeFlags IssueModel.fresh)
    = true /\
  IssueModel.d_hiddenReason
    (IssueModel.runAll Cases.threshold3 Cases.threeFlags IssueModel.fresh)
    = Some "Auto-hidden due to multiple flags" /\
  IssueModel.d_isHidden
    (IssueModel.runAll Cases.threshold3
       (Cases.threeFlags ++ [IssueModel.RemoveFlag "64e0000000000000000000b2"])%list
       IssueModel.fresh)
    = false.
Proof. repeat apply conj; vm_compute; reflexivity. Qed.

(** [flags_never_hide_without_a_threshold], at a concrete input: the
    same three flags when [SPAM_FLAG_THRESHOLD] is not set. *)
Lemma flags_never_hide_without_a_threshold_witness :
  IssueModel.d_isHidden (IssueModel.runAll defaultEnv Cases.threeFlags IssueModel.fresh)
    = false /\
  IssueModel.d_hiddenReason (IssueModel.runAll defaultEnv Cases.threeFlags IssueModel.fresh)
    = None.
Proof.
  apply (flags_never_hide_without_a_threshold defaultEnv Cases.threeFlags IssueModel.fresh).
  - vm_compute. reflexivity.
  - reflexivity.
Defined.

(** [optionalAuth_never_rejects_and_follows_authenticateToken], at a
    concrete input. *)
Lemma optionalAuth_never_rejects_and_follows_authenticateToken_witness :
  Auth.optionalAuth Cases.production Cases.verify Cases.accounts
    (Cases.bearer "token-of-dave") = Next (Some daveAdmin).
Proof.
  refine (proj1 (proj2 (optionalAuth_never_rejects_and_follows_authenticateToken
                          Cases.production Cases.verify Cases.accounts
                          (Cases.bearer "token-of-dave"))) daveAdmin _).
  vm_compute. reflexivity.
Defined.

(** A token that was issued before the password changed: rejected by
    [authenticateToken], accepted by [optionalAuth].  A banned account:
    rejected by the one, no user for the other. *)
Example optionalAuth_accepts_more :
  Auth.authenticateToken Cases.production Cases.verify Cases.accounts
    (Cases.bearer "token-of-alice")
  = NextError (mkAppError "User recently changed password! Please log in again." 401) /\
  Auth.optionalAuth Cases.production Cases.verify Cases.accounts
    (Cases.bearer "token-of-alice") = Next (Some aliceUser) /\
  Auth.authenticateToken Cases.production Cases.verify Cases.accounts
    (Cases.bearer "token-of-bob")
  = NextError (mkAppError "Your account has been banned. Please contact support." 403) /\
  Auth.optionalAuth Cases.production Cases.verify Cases.accounts
    (Cases.bearer "token-of-bob") = Next None /\
  Auth.authenticateToken Cases.production Cases.verify Cases.accounts
    {| Auth.authorization := Some "Bearer"; Auth.cookies := None |}
  = NextError (mkAppError "You are not logged in! Please log in to get access." 401).
Proof. repeat apply conj; vm_compute; reflexivity. Qed.

(** [role_guards_decide_alike], at a concrete input. *)
Lemma role_guards_decide_alike_witness :
  Auth.requireModerator (Some daveAdmin) = Next daveAdmin.
Proof.
  refine (proj1 (proj2 (proj2 (proj2 (role_guards_decide_alike
                                        Cases.production Cases.verify Cases.accounts
                                        (Some daveAdmin) daveAdmin)))) _).
  reflexivity.
Defined.

(** [rejections_of_the_read_routes_reach_the_client], at a concrete
    input: a radius of 10 km in production. *)
Lemma rejections_of_the_read_routes_reach_the_client_witness :
  ErrorResponses.errorHandler Cases.production (fun _ => None)
    (ErrorResponses.raised
       (mkAppError "Distance cannot exceed 5km for security reasons" 400))
    "/api/issues?distance=10"
  = Next (Some (ErrorResponses.Json (Some 400%Z) (Some "fail")
                  "Distance cannot exceed 5km for security reasons")).
Proof.
  refine (proj2 (rejections_of_the_read_routes_reach_the_client
                   Cases.production (fun _ => None) (fun _ => None) db
                   (getList (("distance", "10") :: here) None)
                   (mkAppError "Distance cannot exceed 5km for security reasons" 400)
                   "/api/issues?distance=10" _ _ _)).
  - reflexivity.
  - reflexivity.
  - left. vm_compute. reflexivity.
Defined.

(** [errorHandler_keeps_unexpected_errors_to_itself], at a concrete
    input: the [TypeError] of a read on [undefined]. *)
Lemma errorHandler_keeps_unexpected_errors_to_itself_witness :
  ErrorResponses.errorHandler Cases.production (fun _ => None) Cases.typeError
    "/api/issues/64f1a2b3c4d5e6f7a8b9c0d6"
  = Next (Some (ErrorResponses.Json (Some 500%Z) (Some "error")
                  "Something went very wrong!")) /\
  ErrorResponses.errorHandler defaultEnv (fun _ => None) Cases.typeError
    "/api/issues/64f1a2b3c4d5e6f7a8b9c0d6"
  = Next None.
Proof.
  split.
  - refine (proj1 (errorHandler_keeps_unexpected_errors_to_itself
                     Cases.production (fun _ => None) Cases.typeError
                     "/api/issues/64f1a2b3c4d5e6f7a8b9c0d6") _ _ _ _ _ _ _);
      (reflexivity || discriminate).
  - refine (proj2 (errorHandler_keeps_unexpected_errors_to_itself
                     defaultEnv (fun _ => None) Cases.typeError
                     "/api/issues/64f1a2b3c4d5e6f7a8b9c0d6") _ _);
      discriminate.
Defined.

(** An issue without coordinates, read in production: [getIssue]
    throws, and the client gets status 500. *)
Example unlocated_issue_is_a_server_error :
  getIssue Cases.production db (getById unlocated here None) = Throws.
Proof. vm_compute. reflexivity. Qed.

(** [map_markers_reach_the_client_as_anonymous], at a concrete input:
    the pothole that alice reported under her name. *)
Lemma map_markers_reach_the_client_as_anonymous_witness :
  exists marker sentMarker,
    IssueViews.getIssuesForMapResponse (getList here None) [pothole]
    = Next (mkBody "success" (Some 1%nat)
              (Some (mkResponseData (Some [marker]) None)) None) /\
    reporterName marker = Some "alice" /\
    data (IssueViews.sent defaultEnv (getList here None)
            (mkBody "success" (Some 1%nat)
               (Some (mkResponseData (Some [marker]) None)) None))
    = Some (mkResponseData (Some [sentMarker]) None) /\
    reporterName sentMarker = Some "Anonymous" /\
    isAnonymous sentMarker = true.
Proof.
  assert (exists marker,
            IssueViews.getIssuesForMapResponse (getList here None) [pothole]
            = Next (mkBody "success" (Some 1%nat)
                      (Some (mkResponseData (Some [marker]) None)) None))
    as [marker Hbody].
  { eexists. vm_compute. reflexivity. }
  destruct (map_markers_reach_the_client_as_anonymous
              defaultEnv (getList here None) [pothole] _ (or_introl Hbody))
    as (markers & sentMarkers & Hdata & Hsent & Hnames & Hall).
  cbn [data] in Hdata. injection Hdata as <-.
  inversion Hnames as [|? marker' ? ? (_ & _ & Hname) Hrest]; subst.
  inversion Hall as [|? sentMarker ? ? (_ & Hanon & Hflag & _) Hrest']; subst.
  inversion Hrest'; subst.
  exists marker, sentMarker.
  repeat apply conj; auto.
  apply (Hname alice); reflexivity.
Defined.

(** [filterIssuesForMap_agrees_with_the_distance_filter], at a concrete
    input: a radius of 0 keeps the bridge 28 km away. *)
Lemma filterIssuesForMap_agrees_with_the_distance_filter_witness :
  MapUtils.filterIssuesForMap [pothole; farBridge] None
    (Some (18.5204, 73.8567)%float) (Some 0%float)
  = Next [pothole; farBridge] /\
  MapUtils.filterIssuesForMap [pothole; farBridge] None
    (Some (18.5204, 73.8567)%float) None
  = Next [pothole].
Proof.
  split.
  - refine (proj1 (filterIssuesForMap_agrees_with_the_distance_filter
                     [pothole; farBridge] 18.5204%float 73.8567%float (Some 0%float)) _).
    repeat constructor; eexists; reflexivity.
  - refine (eq_trans
              (proj1 (filterIssuesForMap_agrees_with_the_distance_filter
                        [pothole; farBridge] 18.5204%float 73.8567%float None) _) _).
    + repeat constructor; eexists; reflexivity.
    + vm_compute. reflexivity.
Defined.

End OnTheReferenceEngine.
